(** * The training orchestrator of [selene_sdk/train_model.py]

    A shallow embedding of the class [TrainModel]: its constructor, the
    step loop [train_and_validate], the training step [train], the
    evaluation routine [_evaluate_on_data], [validate], [evaluate] and the
    checkpoint store [_save_checkpoint], followed by the properties of the
    specification that concern them and by further properties of the code.

    The model, the loss, the optimizer, the learning-rate scheduler, the
    sampler and the scoring engine are collaborators of the class: they are
    an interface here ([Collaborators]), and every call the orchestrator
    makes to them is recorded in a trace. *)

From Stdlib Require Import ZArith QArith Qround Qabs Qpower Lqa Lia List Bool
  Sorted.
From stdpp Require Import base gmap strings list.

Open Scope Z_scope.

(** ** Python values *)

(** A Python [float] as the orchestrator uses it: compared, tested for
    truth, passed to [min], multiplied, divided and passed to
    [math.ceil].  A finite value is the rational it stands for; the two
    infinities and NaN are values of their own, because [<], [min] and
    [math.ceil] treat them specially.  The two arithmetic operations the
    orchestrator itself performs on floats, [x * 1000.0] and [n / 1000.0],
    round their exact result to binary64 ([binary64] below).  The averages
    that [np.average] computes are kept exact: no property below depends
    on their rounding. *)
Inductive pyfloat : Type :=
| Fin (q : Q)
| PInf
| NInf
| NaN.

(** The values a score report holds: the scoring engine gives an average
    (a float) or [None] for a metric it could not compute. *)
Inductive pyval : Type :=
| PyNone
| PyFloat (f : pyfloat).

Inductive exn : Type :=
| AttributeError (attr : string)
| KeyError (key : string)
| TypeError
| ValueError
| OverflowError
| ZeroDivisionError
| FileNotFoundError.

Inductive result (A : Type) : Type :=
| Ok (a : A)
| Raise (e : exn).
Arguments Ok {A} a.
Arguments Raise {A} e.

Definition Qltb (p q : Q) : bool := negb (Qle_bool q p).

(** [a < b] on floats: false as soon as one side is NaN. *)
Definition float_lt (a b : pyfloat) : bool :=
  match a, b with
  | NaN, _ => false
  | _, NaN => false
  | Fin p, Fin q => Qltb p q
  | Fin _, PInf => true
  | Fin _, NInf => false
  | PInf, _ => false
  | NInf, NInf => false
  | NInf, _ => true
  end.


Definition is_nan (a : pyfloat) : bool :=
  match a with NaN => true | _ => false end.

(** The builtin [min(a, b)]: the first argument is kept unless the second
    compares smaller. *)
Definition py_min (a b : pyfloat) : pyfloat :=
  if float_lt b a then b else a.

(** [bool(x)] for a float: only zero is false (NaN is true). *)
Definition float_truthy (a : pyfloat) : bool :=
  match a with
  | Fin q => negb (Qeq_bool q 0)
  | _ => true
  end.

(** [bool(v)], as [if v:] evaluates it. *)
Definition truthy (v : pyval) : bool :=
  match v with
  | PyNone => false
  | PyFloat f => float_truthy f
  end.

(** *** Rounding to binary64 *)

(** The integer nearest to [y], the even one of the two when [y] lies
    halfway. *)
Definition round_half_even (y : Q) : Z :=
  let f := Qfloor y in
  match (y - inject_Z f ?= 1 # 2)%Q with
  | Lt => f
  | Gt => f + 1
  | Eq => if Z.even f then f else f + 1
  end.

(** For [x > 0], the exponent [e] of the binary64 numbers around [x]:
    they are the multiples of [2 ^ e], with [2 ^ 52 <= x / 2 ^ e < 2 ^ 53]
    unless [x] is in the subnormal range, where [e = -1074]. *)
Definition ulp_exponent (x : Q) : Z :=
  let l := Z.log2 (Qnum x) - Z.log2 (Z.pos (Qden x)) in
  Z.max (if Qle_bool (2 ^ l) x then l - 52 else l - 53) (-1074).

(** [x > 0] rounded to the nearest binary64 number, ties to even; [None]
    when the result is not below [2 ^ 1024]. *)
Definition round_binary64_pos (x : Q) : option Q :=
  let e := ulp_exponent x in
  let v := (inject_Z (round_half_even (x / 2 ^ e)) * 2 ^ e)%Q in
  if Qle_bool (2 ^ 1024) v then None else Some (Qred v).

(** The binary64 value of an arithmetic operation whose exact result is
    [x]: round to nearest, ties to even, overflow to an infinity. *)
Definition binary64 (x : Q) : pyfloat :=
  match (x ?= 0)%Q with
  | Eq => Fin 0
  | Gt => match round_binary64_pos x with
          | Some v => Fin v
          | None => PInf
          end
  | Lt => match round_binary64_pos (- x) with
          | Some v => Fin (- v)
          | None => NInf
          end
  end.

(** [x * 1000.0] *)
Definition float_mul_1000 (a : pyfloat) : pyfloat :=
  match a with
  | Fin q => binary64 (q * 1000)
  | other => other
  end.

(** [math.ceil(x)]: an [int]; [ValueError] on NaN, [OverflowError] on an
    infinity. *)
Definition math_ceil (a : pyfloat) : result Z :=
  match a with
  | Fin q => Ok (Qceiling q)
  | NaN => Raise ValueError
  | _ => Raise OverflowError
  end.

(** [n / 1000.0] for an [int] n.  (The conversion of [n] to a float is
    exact for the integers [math.ceil] returns: a float of magnitude
    [2 ^ 53] or more is an integer.) *)
Definition int_div_1000 (n : Z) : pyfloat := binary64 (inject_Z n / 1000).

Definition float_add (a b : pyfloat) : pyfloat :=
  match a, b with
  | NaN, _ => NaN
  | _, NaN => NaN
  | Fin p, Fin q => Fin (p + q)
  | PInf, NInf => NaN
  | NInf, PInf => NaN
  | PInf, _ => PInf
  | _, PInf => PInf
  | NInf, _ => NInf
  | _, NInf => NInf
  end.

(** Division of a float by a count. *)
Definition float_div_nat (a : pyfloat) (n : nat) : pyfloat :=
  match n with
  | O => NaN
  | S _ =>
      match a with
      | Fin q => Fin (q / inject_Z (Z.of_nat n))
      | other => other
      end
  end.

(** [np.average(l)] of a list of floats: the sum over the count. *)
Definition np_average (l : list pyfloat) : pyfloat :=
  float_div_nat (fold_left float_add l (Fin 0)) (length l).

(** [a % n] on [int]: the sign follows the divisor, as [Z.modulo]; a zero
    divisor raises. *)
Definition py_mod (a n : Z) : result Z :=
  if n =? 0 then Raise ZeroDivisionError else Ok (a mod n).

(** [range(a, b)] *)
Definition py_range (a b : Z) : list Z :=
  map (fun k : nat => a + Z.of_nat k) (seq 0 (Z.to_nat (b - a))).

(** [d[key]] on a dict *)
Definition getitem {V : Type} (d : gmap string V) (key : string) : result V :=
  match d !! key with
  | Some v => Ok v
  | None => Raise (KeyError key)
  end.

(** A float operand of [<] or [*]: [None] there is a [TypeError]. *)
Definition as_float (v : pyval) : result pyfloat :=
  match v with
  | PyFloat f => Ok f
  | PyNone => Raise TypeError
  end.

(** ** The collaborators *)

(** What the orchestrator calls but does not define.  [world] is the
    state of all of them together: the model's parameters and mode, the
    optimizer, the scheduler, the sampler and the scoring engine.  A batch
    is a pair of a list of example rows and a list of target rows. *)
Class Collaborators : Type := {
  world : Type;
  example : Type;
  target : Type;
  prediction : Type;
  state_dict : Type;
  optim_state : Type;
  (* Model *)
  model_train : world -> world;
  model_eval : world -> world;
  model_forward : world -> list example -> list prediction;
  model_state_dict : world -> state_dict;
  model_class_name : world -> string;
  load_model_from_state_dict : state_dict -> world -> world;
  model_data_parallel : world -> world;
  model_cuda : world -> world;
  (* Loss *)
  criterion : world -> list prediction -> list target -> pyfloat;
  criterion_cuda : world -> world;
  loss_backward : list prediction -> list target -> world -> world;
  (* Optimizer *)
  optimizer_new : world -> world;
  optimizer_zero_grad : world -> world;
  optimizer_step : world -> world;
  optimizer_state_dict : world -> optim_state;
  optimizer_load_state_dict : optim_state -> world -> world;
  optimizer_state_cuda : world -> world;
  (* Learning-rate scheduler *)
  scheduler_new : string -> Z -> Q -> world -> world;
  scheduler_step : pyfloat -> world -> world;
  (* Sampler *)
  sampler_modes : world -> list string;
  sampler_set_mode : string -> world -> world;
  sampler_sample : Z -> world -> (list example * list target) * world;
  sampler_get_validation_set :
    Z -> option Z -> world ->
    (list (list example * list target) * list target) * world;
  sampler_get_test_set :
    Z -> option Z -> world ->
    (list (list example * list target) * list target) * world;
  sampler_save_dataset_to_file : string -> bool -> world -> world;
  (* Scoring engine *)
  metrics_update :
    list prediction -> list target -> world -> gmap string pyval * world
}.

(** ** State, trace and computations *)

Section Orchestrator.

Context `{Collaborators}.

(** A batch: the examples and their targets, row by row. *)
Definition batch : Type := (list example * list target)%type.

(** The dict that [_save_checkpoint] persists and [torch.load] returns. *)
Record Checkpoint : Type := {
  ck_step : Z;
  ck_arch : string;
  ck_state_dict : state_dict;
  ck_min_loss : pyfloat;
  ck_optimizer : optim_state
}.

(** Messages of the module logger ["selene"] (and the [print] of
    [validate]). *)
Inductive log_msg : Type :=
| LogDataParallel
| LogCuda
| LogValidationSetLoaded (n_examples : Z) (n_batches : nat)
| LogTestSetLoaded (n_examples : Z) (n_batches : nat)
| LogResuming (start_step : Z) (min_loss : pyfloat)
| LogTrainStart (max_steps batch_size : Z)
| LogBatchSampled (batch_size : Z)
| LogAverage (scores : gmap string pyval)
| LogStats (step : Z) (train_loss : pyfloat) (validation_loss : pyval)
| LogSaving (step : Z).

(** Everything the orchestrator does to the outside, in the order it
    does it.  [TrainReturn] and [BestEvaluated] are not calls: they record
    the value [train] returns and the comparison [is_best = validation_loss
    < min_loss] of the reporting branch. *)
Inductive event : Type :=
| OptimizerNew
| SetNumThreads (n : Z)
| DataParallel
| Cuda
| Makedirs
| InitializeLogger (verbosity : Z)
| GetValidationSet (batch_size : Z) (n_samples : option Z)
| GetTestSet (batch_size : Z) (n_samples : option Z)
| SaveTestTargets
| PerformanceMetricsNew (report_gt_feature_n_positives : Z)
| TorchLoad
| LoadModelState
| OptimizerLoadState
| MetricsLoggerNew (name : string)
| TrainLogHeader
| ValidationLogHeader
| ModelTrain
| ModelEval
| SetMode (mode : string)
| Sample (batch_size : Z)
| TensorsCuda
| Forward
| Criterion (loss : pyfloat)
| ZeroGrad
| Backward
| OptimizerStep
| TrainReturn (loss : pyfloat)
| MetricsUpdate
| SchedulerNew (mode : string) (patience : Z) (factor : Q)
| SchedulerStep (value : pyfloat)
| TrainLog (train_loss : pyfloat)
| ValidationLog (validation_loss : pyval) (roc_auc : option pyval)
| BestEvaluated (validation_loss min_loss : pyfloat) (is_best : bool)
| TorchSave (state : Checkpoint)
| CopyBest (state : Checkpoint)
| SaveDataset (mode : string) (close_filehandle : bool)
| Log (msg : log_msg).

(** The state the orchestrator acts on: the collaborators and the two
    checkpoint slots of the output directory, [checkpoint.pth.tar] and
    [best_model.pth.tar]. *)
Record St : Type := {
  ext : world;
  latest : option Checkpoint;
  best : option Checkpoint
}.

Definition with_ext (f : world -> world) (s : St) : St :=
  {| ext := f (ext s); latest := latest s; best := best s |}.

(** An event with the loop step during which it happens ([None] outside
    the loop). *)
Abbreviation tagged := (option Z * event)%type.

(** A computation: it may raise, and what it did before raising stays
    done. *)
Definition M (A : Type) : Type := St -> (result A * St) * list tagged.

Definition ret {A : Type} (a : A) : M A := fun s => (Ok a, s, []).

Definition bind {A B : Type} (m : M A) (f : A -> M B) : M B :=
  fun s =>
    match m s with
    | (Ok a, s1, t1) =>
        match f a s1 with
        | (r, s2, t2) => (r, s2, t1 ++ t2)
        end
    | (Raise e, s1, t1) => (Raise e, s1, t1)
    end.

Definition lift {A : Type} (r : result A) : M A := fun s => (r, s, []).

Definition emit (e : event) : M unit := fun s => (Ok tt, s, [(None, e)]).

(** A call that changes the collaborators. *)
Definition call (f : world -> world) (e : event) : M unit :=
  fun s => (Ok tt, with_ext f s, [(None, e)]).

(** A call that changes the collaborators and returns a value. *)
Definition callr {A : Type} (f : world -> A * world) (e : event) : M A :=
  fun s => (Ok (fst (f (ext s))), with_ext (fun w => snd (f w)) s, [(None, e)]).

(** A call that only reads. *)
Definition ask {A : Type} (f : world -> A) : M A :=
  fun s => (Ok (f (ext s)), s, []).

(** The events of [m] happen during loop step [i]. *)
Definition at_step {A : Type} (i : Z) (m : M A) : M A :=
  fun s =>
    match m s with
    | (r, s', t) => (r, s', map (fun te : tagged => (Some i, snd te)) t)
    end.

End Orchestrator.

Abbreviation tagged := (option Z * event)%type.

Notation "x <- m ;; k" := (bind m (fun x => k))
  (at level 100, m at next level, right associativity).
Notation "m ;;; k" := (bind m (fun _ => k))
  (at level 100, right associativity).

(** ** The class [TrainModel] *)

Section TrainModel.

Context `{Collaborators}.

(** The attributes of a [TrainModel] object that the methods read.
    [dyn_attrs] holds integer attributes set under a name that is none of
    the fields (Python creates an attribute on assignment). *)
Record TrainModel : Type := {
  batch_size : Z;
  max_steps : Z;
  nth_step_report_stats : Z;
  nth_step_save_checkpoint : Z;
  use_cuda : bool;
  data_parallel : bool;
  _validation_data : list batch;
  _all_validation_targets : list target;
  _test_data : option (list batch * list target);
  _start_step : Z;
  _min_loss : pyfloat;
  dyn_attrs : gmap string Z
}.

(** [self.<name>] for an integer attribute: the field of that name, an
    attribute created earlier under that name, or [AttributeError]. *)
Definition getattr_int (self : TrainModel) (name : string) : result Z :=
  if String.eqb name "batch_size" then Ok (batch_size self)
  else if String.eqb name "max_steps" then Ok (max_steps self)
  else if String.eqb name "nth_step_report_stats"
       then Ok (nth_step_report_stats self)
  else if String.eqb name "nth_step_save_checkpoint"
       then Ok (nth_step_save_checkpoint self)
  else if String.eqb name "_start_step" then Ok (_start_step self)
  else match dyn_attrs self !! name with
       | Some v => Ok v
       | None => Raise (AttributeError name)
       end.

Definition set_max_steps (v : Z) (self : TrainModel) : TrainModel :=
  {| batch_size := batch_size self; max_steps := v;
     nth_step_report_stats := nth_step_report_stats self;
     nth_step_save_checkpoint := nth_step_save_checkpoint self;
     use_cuda := use_cuda self; data_parallel := data_parallel self;
     _validation_data := _validation_data self;
     _all_validation_targets := _all_validation_targets self;
     _test_data := _test_data self;
     _start_step := _start_step self; _min_loss := _min_loss self;
     dyn_attrs := dyn_attrs self |}.

Definition set_start_step (v : Z) (self : TrainModel) : TrainModel :=
  {| batch_size := batch_size self; max_steps := max_steps self;
     nth_step_report_stats := nth_step_report_stats self;
     nth_step_save_checkpoint := nth_step_save_checkpoint self;
     use_cuda := use_cuda self; data_parallel := data_parallel self;
     _validation_data := _validation_data self;
     _all_validation_targets := _all_validation_targets self;
     _test_data := _test_data self;
     _start_step := v; _min_loss := _min_loss self;
     dyn_attrs := dyn_attrs self |}.

Definition set_min_loss (v : pyfloat) (self : TrainModel) : TrainModel :=
  {| batch_size := batch_size self; max_steps := max_steps self;
     nth_step_report_stats := nth_step_report_stats self;
     nth_step_save_checkpoint := nth_step_save_checkpoint self;
     use_cuda := use_cuda self; data_parallel := data_parallel self;
     _validation_data := _validation_data self;
     _all_validation_targets := _all_validation_targets self;
     _test_data := _test_data self;
     _start_step := _start_step self; _min_loss := v;
     dyn_attrs := dyn_attrs self |}.

Definition set_dyn_attr (name : string) (v : Z) (self : TrainModel)
  : TrainModel :=
  {| batch_size := batch_size self; max_steps := max_steps self;
     nth_step_report_stats := nth_step_report_stats self;
     nth_step_save_checkpoint := nth_step_save_checkpoint self;
     use_cuda := use_cuda self; data_parallel := data_parallel self;
     _validation_data := _validation_data self;
     _all_validation_targets := _all_validation_targets self;
     _test_data := _test_data self;
     _start_step := _start_step self; _min_loss := _min_loss self;
     dyn_attrs := <[name := v]> (dyn_attrs self) |}.

(** [self.<name> = v] for the names the constructor's resume block
    assigns. *)
Definition setattr_int (name : string) (v : Z) (self : TrainModel)
  : TrainModel :=
  if String.eqb name "max_steps" then set_max_steps v self
  else if String.eqb name "_start_step" then set_start_step v self
  else set_dyn_attr name v self.

(** *** [_get_batch] *)
Definition _get_batch (self : TrainModel) : M batch :=
  b <- callr (sampler_sample (batch_size self)) (Sample (batch_size self)) ;;
  emit (Log (LogBatchSampled (batch_size self))) ;;;
  ret b.

(** *** [train] *)
Definition train (self : TrainModel) : M pyfloat :=
  call model_train ModelTrain ;;;
  call (sampler_set_mode "train") (SetMode "train") ;;;
  b <- _get_batch self ;;
  let inputs := fst b in
  let targets := snd b in
  (if use_cuda self then emit TensorsCuda else ret tt) ;;;
  predictions <- ask (fun w => model_forward w inputs) ;;
  emit Forward ;;;
  loss <- ask (fun w => criterion w predictions targets) ;;
  emit (Criterion loss) ;;;
  call optimizer_zero_grad ZeroGrad ;;;
  call (loss_backward predictions targets) Backward ;;;
  call optimizer_step OptimizerStep ;;;
  emit (TrainReturn loss) ;;;
  ret loss.

(** *** [_evaluate_on_data] *)

(** The [for (inputs, targets) in data_in_batches] loop, with its two
    accumulators. *)
Fixpoint evaluate_batches (self : TrainModel) (data_in_batches : list batch)
    (batch_losses : list pyfloat) (all_predictions : list (list prediction))
  : M (list pyfloat * list (list prediction)) :=
  match data_in_batches with
  | [] => ret (batch_losses, all_predictions)
  | (inputs, targets) :: rest =>
      (if use_cuda self then emit TensorsCuda else ret tt) ;;;
      predictions <- ask (fun w => model_forward w inputs) ;;
      emit Forward ;;;
      loss <- ask (fun w => criterion w predictions targets) ;;
      emit (Criterion loss) ;;;
      evaluate_batches self rest (batch_losses ++ [loss])
                       (all_predictions ++ [predictions])
  end.

(** [np.vstack]: the rows of the arrays one after the other; an empty
    list of arrays is a [ValueError].  (The prediction arrays of one model
    have one width, so no shape mismatch is modelled.) *)
Definition np_vstack {A : Type} (arrays : list (list A)) : result (list A) :=
  match arrays with
  | [] => Raise ValueError
  | _ => Ok (concat arrays)
  end.

Definition _evaluate_on_data (self : TrainModel) (data_in_batches : list batch)
  : M (pyfloat * list prediction) :=
  call model_eval ModelEval ;;;
  acc <- evaluate_batches self data_in_batches [] [] ;;
  all_predictions <- lift (np_vstack (snd acc)) ;;
  ret (np_average (fst acc), all_predictions).

(** *** [validate] *)
Definition validate (self : TrainModel) : M (gmap string pyval) :=
  r <- _evaluate_on_data self (_validation_data self) ;;
  let average_loss := fst r in
  let all_predictions := snd r in
  average_scores <-
    callr (metrics_update all_predictions (_all_validation_targets self))
          MetricsUpdate ;;
  emit (Log (LogAverage average_scores)) ;;;
  ret (<["loss" := PyFloat average_loss]> average_scores).

(** *** [_save_checkpoint] *)

(** [torch.save(state, cp_filepath)] *)
Definition torch_save (state : Checkpoint) : M unit :=
  fun s =>
    (Ok tt, {| ext := ext s; latest := Some state; best := best s |},
     [(None, TorchSave state)]).

(** [shutil.copyfile(cp_filepath, best_filepath)] *)
Definition copy_to_best : M unit :=
  fun s =>
    match latest s with
    | Some state =>
        (Ok tt, {| ext := ext s; latest := latest s; best := Some state |},
         [(None, CopyBest state)])
    | None => (Raise FileNotFoundError, s, [])
    end.

Definition _save_checkpoint (state : Checkpoint) (is_best : bool) : M unit :=
  emit (Log (LogSaving (ck_step state))) ;;;
  torch_save state ;;;
  if is_best then copy_to_best else ret tt.

(** The dict literal built for [_save_checkpoint]. *)
Definition checkpoint_state (step : Z) (min_loss : pyfloat) : M Checkpoint :=
  ask (fun w => {| ck_step := step;
                   ck_arch := model_class_name w;
                   ck_state_dict := model_state_dict w;
                   ck_min_loss := min_loss;
                   ck_optimizer := optimizer_state_dict w |}).

(** *** [train_and_validate] *)

(** [math.ceil(validation_roc_auc * 1000.0) / 1000.0] *)
Definition quantize (validation_roc_auc : pyfloat) : result pyfloat :=
  match math_ceil (float_mul_1000 validation_roc_auc) with
  | Ok n => Ok (int_div_1000 n)
  | Raise e => Raise e
  end.

(** The body of [if step and step % self.nth_step_report_stats == 0:];
    it returns the new [min_loss]. *)
Definition report_stats (self : TrainModel) (step : Z) (train_loss : pyfloat)
    (min_loss : pyfloat) : M pyfloat :=
  valid_scores <- validate self ;;
  validation_loss <- lift (getitem valid_scores "loss") ;;
  emit (TrainLog train_loss) ;;;
  cond <- lift (getitem valid_scores "roc_auc") ;;
  (if truthy cond then
     validation_roc_auc <- lift (getitem valid_scores "roc_auc") ;;
     emit (ValidationLog validation_loss (Some validation_roc_auc)) ;;;
     r <- lift (as_float validation_roc_auc) ;;
     v <- lift (quantize r) ;;
     call (scheduler_step v) (SchedulerStep v)
   else
     emit (ValidationLog validation_loss None)) ;;;
  vl <- lift (as_float validation_loss) ;;
  let is_best := float_lt vl min_loss in
  emit (BestEvaluated vl min_loss is_best) ;;;
  let min_loss := py_min vl min_loss in
  state <- checkpoint_state step min_loss ;;
  _save_checkpoint state is_best ;;;
  emit (Log (LogStats step train_loss validation_loss)) ;;;
  ret min_loss.

(** One iteration of [for step in range(...)]; [min_loss] is the local
    variable of that name. *)
Definition loop_body (self : TrainModel) (step : Z) (min_loss : pyfloat)
  : M pyfloat :=
  train_loss <- train self ;;
  reporting <-
    (if step =? 0 then ret false
     else r <- lift (py_mod step (nth_step_report_stats self)) ;;
          ret (r =? 0)) ;;
  min_loss <-
    (if reporting : bool then report_stats self step train_loss min_loss
     else ret min_loss) ;;
  r <- lift (py_mod step (nth_step_save_checkpoint self)) ;;
  (if r =? 0 then
     state <- checkpoint_state step min_loss ;;
     _save_checkpoint state false
   else ret tt) ;;;
  ret min_loss.

(** The [for] loop over a list of steps. *)
Fixpoint for_steps (self : TrainModel) (steps : list Z) (min_loss : pyfloat)
  : M pyfloat :=
  match steps with
  | [] => ret min_loss
  | step :: rest =>
      min_loss <- at_step step (loop_body self step min_loss) ;;
      for_steps self rest min_loss
  end.

Definition train_and_validate (self : TrainModel) : M unit :=
  emit (Log (LogTrainStart (max_steps self) (batch_size self))) ;;;
  let min_loss := _min_loss self in
  call (scheduler_new "max" 16 (8 # 10)) (SchedulerNew "max" 16 (8 # 10)) ;;;
  _ <- for_steps self (py_range (_start_step self) (max_steps self))
                 min_loss ;;
  call (sampler_save_dataset_to_file "train" true) (SaveDataset "train" true).

End TrainModel.

(** ** The constructor *)

(** The arguments of [TrainModel.__init__] that the orchestrator itself
    interprets ([model], [data_sampler], [loss_criterion],
    [optimizer_class], [optimizer_kwargs] and [output_dir] are the
    collaborators and the checkpoint slots).  [checkpoint_resume] stands
    for what [torch.load] returns from the given path. *)
Module Args.
Section Args.
Context `{Collaborators}.
Record t : Type := {
  batch_size : Z;
  max_steps : Z;
  report_stats_every_n_steps : Z;
  save_checkpoint_every_n_steps : option Z;
  report_gt_feature_n_positives : Z;
  n_validation_samples : option Z;
  n_test_samples : option Z;
  cpu_n_threads : Z;
  use_cuda : bool;
  data_parallel : bool;
  logging_verbosity : Z;
  checkpoint_resume : option Checkpoint
}.
End Args.
End Args.

Section Constructor.

Context `{Collaborators}.

(** [not v] for an argument that is an [int] or [None]. *)
Definition py_not (v : option Z) : bool :=
  match v with
  | None => true
  | Some n => n =? 0
  end.

Definition _create_validation_set (batch_size : Z) (n_samples : option Z)
  : M (list batch * list target) :=
  r <- callr (sampler_get_validation_set batch_size n_samples)
             (GetValidationSet batch_size n_samples) ;;
  emit (Log (LogValidationSetLoaded
               (Z.of_nat (length (fst r)) * batch_size) (length (fst r)))) ;;;
  ret r.

Definition _create_test_set (batch_size : Z) (n_samples : option Z)
  : M (list batch * list target) :=
  r <- callr (sampler_get_test_set batch_size n_samples)
             (GetTestSet batch_size n_samples) ;;
  emit (Log (LogTestSetLoaded
               (Z.of_nat (length (fst r)) * batch_size) (length (fst r)))) ;;;
  emit SaveTestTargets ;;;
  ret r.

(** The block under [if checkpoint_resume is not None:]. *)
Definition resume_from (checkpoint : Checkpoint) (self : TrainModel)
  : M TrainModel :=
  emit TorchLoad ;;;
  call (load_model_from_state_dict (ck_state_dict checkpoint))
       LoadModelState ;;;
  let self := set_start_step (ck_step checkpoint) self in
  bound <- lift (getattr_int self "max_step") ;;
  self <-
    (if _start_step self >=? bound then
       cur <- lift (getattr_int self "max_step") ;;
       ret (setattr_int "max_step" (cur + _start_step self) self)
     else ret self) ;;
  let self := set_min_loss (ck_min_loss checkpoint) self in
  call (optimizer_load_state_dict (ck_optimizer checkpoint))
       OptimizerLoadState ;;;
  (if use_cuda self then call optimizer_state_cuda Cuda else ret tt) ;;;
  emit (Log (LogResuming (_start_step self) (_min_loss self))) ;;;
  ret self.

Definition __init__ (a : Args.t) : M TrainModel :=
  call optimizer_new OptimizerNew ;;;
  let nth_step_save_checkpoint :=
    if py_not (Args.save_checkpoint_every_n_steps a)
    then Args.report_stats_every_n_steps a
    else match Args.save_checkpoint_every_n_steps a with
         | Some n => n
         | None => Args.report_stats_every_n_steps a
         end in
  emit (SetNumThreads (Args.cpu_n_threads a)) ;;;
  (if Args.data_parallel a then
     call model_data_parallel DataParallel ;;;
     emit (Log LogDataParallel)
   else ret tt) ;;;
  (if Args.use_cuda a then
     call model_cuda Cuda ;;;
     call criterion_cuda Cuda ;;;
     emit (Log LogCuda)
   else ret tt) ;;;
  emit Makedirs ;;;
  emit (InitializeLogger (Args.logging_verbosity a)) ;;;
  validation <- _create_validation_set (Args.batch_size a)
                                       (Args.n_validation_samples a) ;;
  emit (PerformanceMetricsNew (Args.report_gt_feature_n_positives a)) ;;;
  modes <- ask sampler_modes ;;
  test <-
    (if existsb (String.eqb "test") modes then
       r <- _create_test_set (Args.batch_size a) (Args.n_test_samples a) ;;
       emit (PerformanceMetricsNew (Args.report_gt_feature_n_positives a)) ;;;
       ret (Some r)
     else ret None) ;;
  let self :=
    {| batch_size := Args.batch_size a;
       max_steps := Args.max_steps a;
       nth_step_report_stats := Args.report_stats_every_n_steps a;
       nth_step_save_checkpoint := nth_step_save_checkpoint;
       use_cuda := Args.use_cuda a;
       data_parallel := Args.data_parallel a;
       _validation_data := fst validation;
       _all_validation_targets := snd validation;
       _test_data := test;
       _start_step := 0;
       _min_loss := PInf;
       dyn_attrs := ∅ |} in
  self <-
    (match Args.checkpoint_resume a with
     | Some checkpoint => resume_from checkpoint self
     | None => ret self
     end) ;;
  emit (MetricsLoggerNew "train") ;;;
  emit (MetricsLoggerNew "validation") ;;;
  emit TrainLogHeader ;;;
  emit ValidationLogHeader ;;;
  ret self.

End Constructor.

(** ** Reading a trace *)

Section Observations.

Context `{Collaborators}.

(** The events of loop step [i], in order. *)
Definition events_at (i : Z) (t : list tagged) : list event :=
  map snd (List.filter (fun te : tagged =>
                     match fst te with
                     | Some j => j =? i
                     | None => false
                     end) t).

Definition count_events (p : event -> bool) (l : list event) : nat :=
  length (List.filter p l).

Definition is_optimizer_step (e : event) : bool :=
  match e with OptimizerStep => true | _ => false end.
Definition is_train_call (e : event) : bool :=
  match e with ModelTrain => true | _ => false end.
Definition is_validation_pass (e : event) : bool :=
  match e with ModelEval => true | _ => false end.
Definition is_metrics_update (e : event) : bool :=
  match e with MetricsUpdate => true | _ => false end.
Definition is_train_log (e : event) : bool :=
  match e with TrainLog _ => true | _ => false end.
Definition is_validation_log (e : event) : bool :=
  match e with ValidationLog _ _ => true | _ => false end.
Definition is_best_evaluated (e : event) : bool :=
  match e with BestEvaluated _ _ _ => true | _ => false end.
Definition is_torch_save (e : event) : bool :=
  match e with TorchSave _ => true | _ => false end.
Definition is_copy_best (e : event) : bool :=
  match e with CopyBest _ => true | _ => false end.
Definition is_scheduler_step (e : event) : bool :=
  match e with SchedulerStep _ => true | _ => false end.



(** The loop steps at which an event satisfying [p] happens, one entry
    per such event, in order. *)
Definition steps_of (p : event -> bool) (t : list tagged) : list Z :=
  flat_map (fun te : tagged =>
              match fst te with
              | Some i => if p (snd te) then [i] else []
              | None => []
              end) t.

(** The loop steps a run drives: one entry per call of [train]. *)
Definition steps_driven (t : list tagged) : list Z := steps_of is_train_call t.

(** The result, final state and trace of a computation. *)
Definition outcome {A : Type} (m : M A) (s : St) : result A := fst (fst (m s)).
Definition final {A : Type} (m : M A) (s : St) : St := snd (fst (m s)).
Definition trace {A : Type} (m : M A) (s : St) : list tagged := snd (m s).

(** [only P m]: every event of [m] satisfies [P], whatever the state and
    whether or not [m] raises. *)
Definition only (P : event -> Prop) {A : Type} (m : M A) : Prop :=
  forall s, Forall (fun te : tagged => P (snd te)) (trace m s).

(** What the model predicts for a batch and the loss of that prediction,
    with the collaborators in state [w]. *)
Definition batch_predictions (w : world) (b : batch) : list prediction :=
  model_forward w (fst b).

Definition batch_loss (w : world) (b : batch) : pyfloat :=
  criterion w (model_forward w (fst b)) (snd b).

(** The calls [_evaluate_on_data] makes for one batch. *)
Definition batch_events (self : TrainModel) (w : world) (b : batch)
  : list tagged :=
  (if use_cuda self then [(None, TensorsCuda)] else [])
    ++ [(None, Forward); (None, Criterion (batch_loss w b))].

(** The rows of the targets of a batch set, one batch after the other. *)
Definition all_targets (data : list batch) : list target :=
  concat (map snd data).

End Observations.

(** ** The notions the properties are stated with *)

Definition is_ok {A : Type} (r : result A) : bool :=
  match r with Ok _ => true | Raise _ => false end.


Section BestSlot.

Context `{Collaborators}.



(** Events that belong to the training step and to nothing else. *)
Definition is_training (e : event) : bool :=
  match e with
  | ModelTrain | SetMode _ | Sample _ | ZeroGrad | Backward
  | OptimizerStep | TrainReturn _ => true
  | _ => false
  end.

End BestSlot.





(** ** A scripted set of collaborators *)

(** Collaborators whose answers are read from a script: the state counts
    the score reports made so far; the loss of every batch is the entry of
    [losses] at that count and the scoring engine's report the entry of
    [reports] (the last one once the script is exhausted).  The model
    predicts its input. *)
Definition scripted (losses : list pyfloat)
    (reports : list (gmap string pyval))
    (validation_set : list (list Z * list Z)) : Collaborators :=
  {| world := nat;
     example := Z;
     target := Z;
     prediction := Z;
     state_dict := unit;
     optim_state := unit;
     model_train := fun w => w;
     model_eval := fun w => w;
     model_forward := fun _ xs => xs;
     model_state_dict := fun _ => tt;
     model_class_name := fun _ => "Net";
     load_model_from_state_dict := fun _ w => w;
     model_data_parallel := fun w => w;
     model_cuda := fun w => w;
     criterion := fun w _ _ => List.nth w losses (Fin 0);
     criterion_cuda := fun w => w;
     loss_backward := fun _ _ w => w;
     optimizer_new := fun w => w;
     optimizer_zero_grad := fun w => w;
     optimizer_step := fun w => w;
     optimizer_state_dict := fun _ => tt;
     optimizer_load_state_dict := fun _ w => w;
     optimizer_state_cuda := fun w => w;
     scheduler_new := fun _ _ _ w => w;
     scheduler_step := fun _ w => w;
     sampler_modes := fun _ => ["train"; "validate"];
     sampler_set_mode := fun _ w => w;
     sampler_sample := fun _ w => (([1], [1]), w);
     sampler_get_validation_set :=
       fun _ _ w => ((validation_set, concat (map snd validation_set)), w);
     sampler_get_test_set := fun _ _ w => (([], []), w);
     sampler_save_dataset_to_file := fun _ _ w => w;
     metrics_update :=
       fun _ _ w => (List.nth w reports (List.last reports ∅), S w) |}.

(** The arguments of a construction with the given step budget and
    cadences, everything else at its default. *)
Definition args_of `{Collaborators} (batch_size max_steps report : Z)
    (save : option Z) (resume : option Checkpoint) : Args.t :=
  {| Args.batch_size := batch_size;
     Args.max_steps := max_steps;
     Args.report_stats_every_n_steps := report;
     Args.save_checkpoint_every_n_steps := save;
     Args.report_gt_feature_n_positives := 10;
     Args.n_validation_samples := None;
     Args.n_test_samples := None;
     Args.cpu_n_threads := 32;
     Args.use_cuda := false;
     Args.data_parallel := false;
     Args.logging_verbosity := 2;
     Args.checkpoint_resume := resume |}.

(** A state with empty checkpoint slots. *)
Definition initial_state `{Collaborators} (w : world) : St :=
  {| ext := w; latest := None; best := None |}.

(** A scripted run used to exercise the statements: four validation
    losses, the second of them NaN, and score reports that hold
    ["roc_auc"]. *)
Definition report_with (roc_auc : pyval) : gmap string pyval :=
  <["roc_auc" := roc_auc]> ∅.

Definition demo : Collaborators :=
  scripted [Fin (3 # 10); NaN; Fin (9 # 10); Fin (5 # 10)]
           [report_with (PyFloat (Fin (2049 # 4096)));
            report_with PyNone;
            report_with (PyFloat (Fin 0));
            report_with (PyFloat (Fin (7 # 10)))]
           [([1; 2], [1; 2]); ([3], [3])].

(** An orchestrator object over [demo], as a construction without
    checkpoint leaves it. *)
Definition demo_self (start_step max_steps report save : Z)
  : @TrainModel demo :=
  @Build_TrainModel demo 4 max_steps report save false false
    [([1; 2], [1; 2]); ([3], [3])] [1; 2; 3] None start_step PInf ∅.

Definition demo_state : @St demo := @initial_state demo O.

(** The claim that a construction from a checkpoint at step [s0] with
    [max_steps = m] completes and that the run then drives the steps
    [s0, s0 + m). *)
Definition resume_claim `{Collaborators} (a : Args.t) (s : St) (s0 m : Z)
  : Prop :=
  exists self,
    outcome (__init__ a) s = Ok self /\
    steps_driven (trace (train_and_validate self) (final (__init__ a) s)) =
    py_range s0 (s0 + m).

(** A configuration the specification calls invalid. *)
Definition invalid_configuration `{Collaborators} (a : Args.t) : Prop :=
  Args.batch_size a <= 0 \/ Args.max_steps a < 0 \/
  Args.report_stats_every_n_steps a <= 0 \/
  (exists c, Args.save_checkpoint_every_n_steps a = Some c /\ c <= 0).

Definition valid_configuration `{Collaborators} (a : Args.t) : Prop :=
  Args.batch_size a > 0 /\ Args.max_steps a >= 0 /\
  Args.report_stats_every_n_steps a > 0 /\
  (forall c, Args.save_checkpoint_every_n_steps a = Some c -> c > 0).

(** The claim that constructing with an invalid configuration raises
    before anything has been done. *)
Definition fails_fast_claim `{Collaborators} (a : Args.t) (s : St) : Prop :=
  invalid_configuration a ->
  is_ok (outcome (__init__ a) s) = false /\ trace (__init__ a) s = [].

(** The invariant of a constructed object. *)
Definition configuration_invariant `{Collaborators} (self : TrainModel)
  : Prop :=
  batch_size self > 0 /\ max_steps self >= 0 /\
  nth_step_report_stats self > 0 /\ nth_step_save_checkpoint self > 0.

(** The checkpoint cadence the constructor derives from its arguments. *)
Definition effective_save_cadence `{Collaborators} (a : Args.t) : Z :=
  match Args.save_checkpoint_every_n_steps a with
  | Some c => if c =? 0 then Args.report_stats_every_n_steps a else c
  | None => Args.report_stats_every_n_steps a
  end.

(** What [validate] computes when it is called with the collaborators in
    state [w]: the average validation loss, the prediction table, the
    report of the scoring engine, and the state it leaves. *)
Definition validation_loss_in `{Collaborators} (self : TrainModel) (w : world)
  : pyfloat :=
  np_average (map (batch_loss (model_eval w)) (_validation_data self)).

Definition validation_table `{Collaborators} (self : TrainModel) (w : world)
  : list prediction :=
  concat (map (batch_predictions (model_eval w)) (_validation_data self)).

Definition score_report `{Collaborators} (self : TrainModel) (w : world)
  : gmap string pyval :=
  fst (metrics_update (validation_table self w)
                      (_all_validation_targets self) (model_eval w)).

Definition after_validate `{Collaborators} (self : TrainModel) (s : St) : St :=
  with_ext (fun w => snd (metrics_update (validation_table self (ext s))
                                         (_all_validation_targets self) w))
           (with_ext model_eval s).

Definition validate_events `{Collaborators} (self : TrainModel) (w : world)
  : list tagged :=
  (None, ModelEval)
    :: flat_map (batch_events self (model_eval w)) (_validation_data self)
    ++ [(None, MetricsUpdate); (None, Log (LogAverage (score_report self w)))].

(** The checkpoint that a save at [step] with best score [min_loss]
    writes in state [s]. *)
Definition checkpoint_in `{Collaborators} (step : Z) (min_loss : pyfloat)
    (s : St) : Checkpoint :=
  {| ck_step := step;
     ck_arch := model_class_name (ext s);
     ck_state_dict := model_state_dict (ext s);
     ck_min_loss := min_loss;
     ck_optimizer := optimizer_state_dict (ext s) |}.

(** The events of the reporting branch from the comparison with the
    running best score on. *)
Definition best_events `{Collaborators} (step : Z) (train_loss : pyfloat)
    (validation_loss min_loss : pyfloat) (s : St) : list tagged :=
  let is_best := float_lt validation_loss min_loss in
  let state := checkpoint_in step (py_min validation_loss min_loss) s in
  [(None, BestEvaluated validation_loss min_loss is_best);
   (None, Log (LogSaving step)); (None, TorchSave state)]
    ++ (if is_best then [(None, CopyBest state)] else [])
    ++ [(None, Log (LogStats step train_loss (PyFloat validation_loss)))].

(** The state the reporting branch leaves when it started the best
    evaluation in state [s]. *)
Definition after_best `{Collaborators} (step : Z)
    (validation_loss min_loss : pyfloat) (s : St) : St :=
  let state := checkpoint_in step (py_min validation_loss min_loss) s in
  {| ext := ext s;
     latest := Some state;
     best := if float_lt validation_loss min_loss then Some state
             else best s |}.

(** Events that the step loop never makes: those of the constructor, the
    creation of the scheduler and the closing call of the sampler. *)
Definition outside_loop `{Collaborators} (e : event) : bool :=
  match e with
  | OptimizerNew | SetNumThreads _ | DataParallel | Cuda | Makedirs
  | InitializeLogger _ | GetValidationSet _ _ | GetTestSet _ _
  | SaveTestTargets | PerformanceMetricsNew _ | TorchLoad | LoadModelState
  | OptimizerLoadState | MetricsLoggerNew _ | TrainLogHeader
  | ValidationLogHeader | SchedulerNew _ _ _ | SaveDataset _ _ => true
  | _ => false
  end.

Definition is_scheduler_new `{Collaborators} (e : event) : bool :=
  match e with SchedulerNew _ _ _ => true | _ => false end.

(** The finite binary64 numbers: [m * 2 ^ e] with a mantissa of at most
    53 bits and an exponent in the range of the format. *)
Definition is_binary64 (x : Q) : Prop :=
  exists m e : Z,
    Z.abs m < 2 ^ 53 /\ -1074 <= e <= 971 /\ (x == inject_Z m * 2 ^ e)%Q.

(** [v] is a binary64 number nearest to [x]: what a correctly rounded
    operation whose exact result is [x] returns. *)
Definition nearest_binary64 (x v : Q) : Prop :=
  is_binary64 v /\
  forall w, is_binary64 w -> (Qabs (v - x) <= Qabs (w - x))%Q.

(** [v] is a float that stands for [x] rounded to three decimal digits:
    a binary64 number nearest to a multiple of 1/1000 that is at most
    half a unit of the third decimal away from [x]. *)
Definition rounded_to_3_decimals (x v : Q) : Prop :=
  exists n : Z,
    (Qabs (inject_Z n / 1000 - x) <= 1 # 2000)%Q /\
    nearest_binary64 (inject_Z n / 1000) v.

(** [v] is a float that stands for [x] rounded up to three decimal
    digits: a binary64 number nearest to the least multiple of 1/1000
    that is not below [x]. *)
Definition rounded_up_to_3_decimals (x v : Q) : Prop :=
  exists n : Z,
    (inject_Z n - 1 < x * 1000 <= inject_Z n)%Q /\
    nearest_binary64 (inject_Z n / 1000) v.

(** [v] is what [math.ceil(x * 1000.0) / 1000.0] evaluates to in binary64
    arithmetic: the product is rounded to a nearest binary64 number [p],
    and so is the quotient of the least integer not below [p] by 1000. *)
Definition ceil_of_thousandths (x v : Q) : Prop :=
  exists p,
    nearest_binary64 (x * 1000) p /\
    nearest_binary64 (inject_Z (Qceiling p) / 1000) v.

(** Collaborators whose score reports hold no ["roc_auc"] entry. *)
Definition demo_without_roc_auc : Collaborators :=
  scripted [Fin (3 # 10)]
           [<["average_precision" := PyFloat (Fin (1 # 2))]> ∅]
           [([1; 2], [1; 2]); ([3], [3])].

Definition self_without_roc_auc : @TrainModel demo_without_roc_auc :=
  @Build_TrainModel demo_without_roc_auc 4 10 5 5 false false
    [([1; 2], [1; 2]); ([3], [3])] [1; 2; 3] None 0 PInf ∅.

(** The two conditions of the loop body. *)
Definition reporting_step `{Collaborators} (self : TrainModel) (step : Z)
  : bool :=
  negb (step =? 0) && (step mod nth_step_report_stats self =? 0).

Definition saving_step `{Collaborators} (self : TrainModel) (step : Z)
  : bool :=
  step mod nth_step_save_checkpoint self =? 0.

(** The scoring engine reports the secondary metric: every report it
    gives holds a ["roc_auc"] entry that is [None] or a finite float
    whose product with 1000.0 is finite (as is the product of every float
    of magnitude below [2 ^ 1023 / 1000]; an area under a curve lies
    between 0 and 1). *)
Definition reports_roc_auc `{Collaborators} (self : TrainModel) : Prop :=
  forall w, exists roc,
    score_report self w !! "roc_auc" = Some roc /\
    (roc = PyNone \/
     exists q p, roc = PyFloat (Fin q) /\ float_mul_1000 (Fin q) = Fin p).




(** The state in which the loop of [train_and_validate] starts: the
    scheduler has been created. *)
Definition loop_start `{Collaborators} (self : TrainModel) (s : St) : St :=
  with_ext (scheduler_new "max" 16 (8 # 10)) s.

(** The state in which the first iteration of the loop leaves the
    collaborators and the checkpoint slots. *)
Definition after_first_step `{Collaborators} (self : TrainModel) (s : St)
  : St :=
  final (loop_body self (_start_step self) (_min_loss self))
        (loop_start self s).

(** The claim that a fresh run with [max_steps = 10] and both cadences 5
    writes checkpoints at the steps 0 and 5 only, and that step 5, and no
    other step, has one validation pass, one train-log line, one
    validation-log line and one best evaluation. *)
Definition cadence_claim `{Collaborators} (self : TrainModel) (s : St)
  : Prop :=
  let t := trace (train_and_validate self) s in
  (forall i, In i (steps_of is_torch_save t) <-> i = 0 \/ i = 5) /\
  steps_of is_validation_pass t = [5] /\
  steps_of is_train_log t = [5] /\
  steps_of is_validation_log t = [5] /\
  steps_of is_best_evaluated t = [5].

(** Collaborators whose sampler has no validation example. *)
Definition demo_without_validation : Collaborators :=
  scripted [Fin (3 # 10)] [report_with (PyFloat (Fin (7 # 10)))] [].

(** ** The test evaluation *)

(** The collaborators [evaluate] needs beside the others: the scoring
    engine of the test set ([self._test_metrics]), which is another object
    than the one of the validation set. *)
Class TestScoring `{Collaborators} : Type := {
  feature_scores : Type;
  test_metrics_update :
    list prediction -> list target -> world -> gmap string pyval * world;
  write_feature_scores_to_file : world -> feature_scores * world;
  visualize : list prediction -> list target -> world -> world
}.

(** What [evaluate] does beside the calls of [_evaluate_on_data]. *)
Inductive test_event `{Collaborators} : Type :=
| TestMetricsUpdate (predictions : list prediction) (targets : list target)
| SaveTestPredictions (data : list prediction)
| LogTestAverage (scores : gmap string pyval)
| WriteFeatureScores
| Visualize (predictions : list prediction) (targets : list target).

(** [evaluate]: the attributes [_test_data] and [_all_test_targets] exist
    only when the constructor created the test set. *)
Definition evaluate `{TestScoring} (self : TrainModel) (s : St)
  : (result (gmap string pyval * feature_scores) * St)
    * list (event + test_event) :=
  match _test_data self with
  | None => (Raise (AttributeError "_test_data"), s, [])
  | Some (test_data, all_test_targets) =>
      match _evaluate_on_data self test_data s with
      | (Raise e, s1, t1) => (Raise e, s1, map inl (map snd t1))
      | (Ok (average_loss, all_predictions), s1, t1) =>
          let updated :=
            test_metrics_update all_predictions all_test_targets (ext s1) in
          let average_scores := fst updated in
          let written := write_feature_scores_to_file (snd updated) in
          let feature_scores_dict := fst written in
          (Ok (<["loss" := PyFloat average_loss]> average_scores,
               feature_scores_dict),
           {| ext := visualize all_predictions all_test_targets (snd written);
              latest := latest s1;
              best := best s1 |},
           map inl (map snd t1)
             ++ [inr (TestMetricsUpdate all_predictions all_test_targets);
                 inr (SaveTestPredictions all_predictions);
                 inr (LogTestAverage average_scores);
                 inr WriteFeatureScores;
                 inr (Visualize all_predictions all_test_targets)])
      end
  end.

(** A test scoring engine for the scripted collaborators. *)
Definition scripted_test_scoring (C : Collaborators)
    (report : gmap string pyval) : @TestScoring C :=
  {| feature_scores := unit;
     test_metrics_update := fun _ _ w => (report, w);
     write_feature_scores_to_file := fun w => (tt, w);
     visualize := fun _ _ w => w |}.

(** ** More notions for the properties of the loop *)

(** Events of the reporting branch only. *)
Definition is_reporting_event `{Collaborators} (e : event) : bool :=
  match e with
  | ModelEval | MetricsUpdate | TrainLog _ | ValidationLog _ _
  | SchedulerStep _ | BestEvaluated _ _ _ | CopyBest _
  | Log (LogAverage _) | Log (LogStats _ _ _) => true
  | _ => false
  end.

Definition is_save_dataset `{Collaborators} (e : event) : bool :=
  match e with SaveDataset _ _ => true | _ => false end.

(** The arguments of the calls an iteration at [step] makes: checkpoints
    carry that step, the sampler is in mode ["train"] and is asked for
    [batch_size] examples. *)
Definition labelled_for `{Collaborators} (self : TrainModel) (step : Z)
    (e : event) : Prop :=
  match e with
  | TorchSave state => ck_step state = step
  | CopyBest state => ck_step state = step
  | Log (LogSaving i) => i = step
  | Log (LogStats i _ _) => i = step
  | Log (LogBatchSampled n) => n = batch_size self
  | Sample n => n = batch_size self
  | SetMode mode => mode = "train"
  | _ => True
  end.

(** An orchestrator object over [demo] with an empty validation set. *)
Definition demo_self_no_validation (max_steps report save : Z)
  : @TrainModel demo :=
  @Build_TrainModel demo 4 max_steps report save false false
    [] [] None 0 PInf ∅.

(** An orchestrator object over [demo] with a test set. *)
Definition demo_self_with_test : @TrainModel demo :=
  @Build_TrainModel demo 4 10 5 5 false false
    [([1; 2], [1; 2]); ([3], [3])] [1; 2; 3]
    (Some ([([7; 8], [7; 8]); ([9], [9])], [7; 8; 9])) 0 PInf ∅.

Definition demo_test_scoring : @TestScoring demo :=
  scripted_test_scoring demo (report_with (PyFloat (Fin (9 # 10)))).

(** What the constructor does after the read of [self.max_step] in its
    resume block. *)
Definition follows_resume_block `{Collaborators} (e : event) : bool :=
  match e with
  | OptimizerLoadState | MetricsLoggerNew _ | TrainLogHeader
  | ValidationLogHeader | Log (LogResuming _ _) => true
  | _ => false
  end.

(** What [_create_test_set] does. *)
Definition is_test_set_event `{Collaborators} (e : event) : bool :=
  match e with
  | GetTestSet _ _ | SaveTestTargets | Log (LogTestSetLoaded _ _) => true
  | _ => false
  end.

(** The calls of [evaluate] on the test scoring engine and the output
    directory, and its calls on the other collaborators. *)
Definition test_calls `{Collaborators} (t : list (event + test_event))
  : list test_event :=
  flat_map (fun x => match x with inr e => [e] | inl _ => [] end) t.

Definition model_calls `{Collaborators} (t : list (event + test_event))
  : list event :=
  flat_map (fun x => match x with inl e => [e] | inr _ => [] end) t.

(** The prediction table and the average loss of a list of batches when
    [_evaluate_on_data] is called with the collaborators in state [w]. *)
Definition table_of `{Collaborators} (data : list batch) (w : world)
  : list prediction :=
  concat (map (batch_predictions (model_eval w)) data).

Definition average_loss_of `{Collaborators} (data : list batch) (w : world)
  : pyfloat :=
  np_average (map (batch_loss (model_eval w)) data).


(** ** Running computations *)

Section Running.

Context `{Collaborators}.

Lemma bind_ok {A B : Type} (m : M A) (f : A -> M B) s a s1 t1 :
  m s = (Ok a, s1, t1) ->
  bind m f s = (fst (f a s1), t1 ++ snd (f a s1)).
Proof.
  intros E. unfold bind. rewrite E.
  destruct (f a s1) as [[r s2] t2]. reflexivity.
Qed.

Lemma bind_raise {A B : Type} (m : M A) (f : A -> M B) s e s1 t1 :
  m s = (Raise e, s1, t1) ->
  bind m f s = (Raise e, s1, t1).
Proof. intros E. unfold bind. rewrite E. reflexivity. Qed.

(** The trace of a sequence: what the first part did, then what the
    second did if the first returned. *)
Lemma trace_bind {A B : Type} (m : M A) (f : A -> M B) s :
  trace (bind m f) s =
  trace m s ++ match outcome m s with
               | Ok a => trace (f a) (final m s)
               | Raise _ => []
               end.
Proof.
  unfold trace, outcome, final, bind.
  destruct (m s) as [[[a|e] s1] t1]; simpl.
  - destruct (f a s1) as [[r s2] t2]. reflexivity.
  - symmetry. apply app_nil_r.
Qed.

Lemma outcome_bind {A B : Type} (m : M A) (f : A -> M B) s :
  outcome (bind m f) s =
  match outcome m s with
  | Ok a => outcome (f a) (final m s)
  | Raise e => Raise e
  end.
Proof.
  unfold outcome, final, bind.
  destruct (m s) as [[[a|e] s1] t1]; simpl; [|reflexivity].
  destruct (f a s1) as [[r s2] t2]. reflexivity.
Qed.

Lemma final_bind {A B : Type} (m : M A) (f : A -> M B) s :
  final (bind m f) s =
  match outcome m s with
  | Ok a => final (f a) (final m s)
  | Raise e => final m s
  end.
Proof.
  unfold outcome, final, bind.
  destruct (m s) as [[[a|e] s1] t1]; simpl; [|reflexivity].
  destruct (f a s1) as [[r s2] t2]. reflexivity.
Qed.

Lemma only_ret P {A : Type} (a : A) : only P (ret a).
Proof. intros s. constructor. Qed.

Lemma only_lift P {A : Type} (r : result A) : only P (lift r).
Proof. intros s. constructor. Qed.

Lemma only_ask P {A : Type} (f : world -> A) : only P (ask f).
Proof. intros s. constructor. Qed.

Lemma only_emit (P : event -> Prop) e : P e -> only P (emit e).
Proof. intros HP s. repeat constructor. exact HP. Qed.

Lemma only_call (P : event -> Prop) f e : P e -> only P (call f e).
Proof. intros HP s. repeat constructor. exact HP. Qed.

Lemma only_callr (P : event -> Prop) {A : Type} (f : world -> A * world) e :
  P e -> only P (callr f e).
Proof. intros HP s. repeat constructor. exact HP. Qed.

Lemma only_bind P {A B : Type} (m : M A) (f : A -> M B) :
  only P m -> (forall a, only P (f a)) -> only P (bind m f).
Proof.
  intros Hm Hf s. rewrite trace_bind. apply Forall_app. split.
  - apply Hm.
  - destruct (outcome m s); [apply Hf | constructor].
Qed.

Lemma only_if P {A : Type} (b : bool) (m1 m2 : M A) :
  only P m1 -> only P m2 -> only P (if b then m1 else m2).
Proof. destruct b; auto. Qed.

Lemma only_at_step P {A : Type} i (m : M A) : only P m -> only P (at_step i m).
Proof.
  intros Hm s. specialize (Hm s). unfold trace, at_step in *.
  destruct (m s) as [[r s'] t]. simpl in *.
  induction Hm; simpl; constructor; auto.
Qed.

Lemma only_apply P {A : Type} (m : M A) s :
  only P m -> Forall (fun te : tagged => P (snd te)) (trace m s).
Proof. intros Hm. apply Hm. Qed.

Lemma filter_none (p : event -> bool) (t : list tagged) :
  Forall (fun te : tagged => p (snd te) = false) t ->
  List.filter p (map snd t) = [].
Proof.
  induction 1 as [|te t Hte _ IH]; simpl; [reflexivity|].
  rewrite Hte. exact IH.
Qed.

End Running.

(** ** The evaluation routine *)

Section Evaluation.

Context `{Collaborators}.

Lemma evaluate_batches_eq self data : forall batch_losses all_predictions s,
  evaluate_batches self data batch_losses all_predictions s =
  (Ok (batch_losses ++ map (batch_loss (ext s)) data,
       all_predictions ++ map (batch_predictions (ext s)) data),
   s, flat_map (batch_events self (ext s)) data).
Proof.
  induction data as [|[inputs targets] rest IH]; intros bl ap s; simpl.
  - unfold ret. rewrite !app_nil_r. reflexivity.
  - unfold bind at 1.
    assert (Hc : (if use_cuda self then emit TensorsCuda else ret tt) s =
                 (Ok tt, s, if use_cuda self then [(None, TensorsCuda)] else [])).
    { destruct (use_cuda self); reflexivity. }
    rewrite Hc. unfold bind, ask, emit. simpl.
    rewrite IH. simpl. unfold batch_events, batch_loss, batch_predictions.
    simpl. rewrite <- !app_assoc. simpl.
    reflexivity.
Qed.

Lemma _evaluate_on_data_eq self data s :
  data <> [] ->
  _evaluate_on_data self data s =
  (Ok (np_average (map (batch_loss (model_eval (ext s))) data),
       concat (map (batch_predictions (model_eval (ext s))) data)),
   with_ext model_eval s,
   (None, ModelEval) :: flat_map (batch_events self (model_eval (ext s))) data).
Proof.
  intros Hne. unfold _evaluate_on_data, bind, call.
  rewrite evaluate_batches_eq. simpl.
  destruct data as [|b rest]; [congruence|]. simpl.
  rewrite app_nil_r. reflexivity.
Qed.

Lemma _evaluate_on_data_empty self s :
  outcome (_evaluate_on_data self []) s = Raise ValueError.
Proof. reflexivity. Qed.

Lemma length_concat_map_eq {A B C : Type} (f : A -> list B) (g : A -> list C)
    (l : list A) :
  Forall (fun a => length (f a) = length (g a)) l ->
  length (concat (map f l)) = length (concat (map g l)).
Proof.
  induction 1 as [|a l Ha _ IH]; simpl; [reflexivity|].
  rewrite !length_app. rewrite Ha, IH. reflexivity.
Qed.

End Evaluation.

(** ** One training step *)

Section Train.

Context `{Collaborators}.

(** [train] returns, and this is all it does. *)
Lemma train_run self s :
  exists loss s',
    train self s =
    (Ok loss, s',
     [(None, ModelTrain); (None, SetMode "train");
      (None, Sample (batch_size self));
      (None, Log (LogBatchSampled (batch_size self)))]
       ++ (if use_cuda self then [(None, TensorsCuda)] else [])
       ++ [(None, Forward); (None, Criterion loss); (None, ZeroGrad);
           (None, Backward); (None, OptimizerStep);
           (None, TrainReturn loss)]).
Proof.
  unfold train, _get_batch, bind, call, callr, emit, ask, ret.
  destruct (use_cuda self); simpl; eauto.
Qed.

Lemma train_outcome self s : is_ok (outcome (train self) s) = true.
Proof.
  destruct (train_run self s) as (loss & s' & E).
  unfold outcome. rewrite E. reflexivity.
Qed.

Lemma filter_train p self s :
  p (Log (LogBatchSampled (batch_size self))) = false ->
  p (SetMode "train") = false -> p (Sample (batch_size self)) = false ->
  p TensorsCuda = false -> p Forward = false -> p ZeroGrad = false ->
  p Backward = false -> (forall l, p (Criterion l) = false) ->
  exists loss,
    List.filter p (map snd (trace (train self) s)) =
    List.filter p [ModelTrain; OptimizerStep; TrainReturn loss].
Proof.
  intros H1 H2 H3 H4 H5 H6 H7 H8.
  destruct (train_run self s) as (loss & s' & E).
  exists loss. unfold trace. rewrite E.
  destruct (use_cuda self); simpl;
    rewrite ?H1, ?H2, ?H3, ?H4, ?H5, ?H6, ?H7, ?H8; reflexivity.
Qed.

End Train.

(** ** What each part of an iteration may do *)

Section Footprints.

Context `{Collaborators}.

Variable P : event -> Prop.

Lemma only_evaluate_batches self data :
  P TensorsCuda -> P Forward -> (forall l, P (Criterion l)) ->
  forall batch_losses all_predictions,
    only P (evaluate_batches self data batch_losses all_predictions).
Proof.
  intros H1 H2 H3.
  induction data as [|[inputs targets] rest IH]; intros bl ap; simpl.
  - apply only_ret.
  - apply only_bind; [apply only_if; [apply only_emit; assumption
                                     | apply only_ret] |].
    intros _. apply only_bind; [apply only_ask|]. intros predictions.
    apply only_bind; [apply only_emit; assumption|]. intros _.
    apply only_bind; [apply only_ask|]. intros loss.
    apply only_bind; [apply only_emit; apply H3|]. intros _.
    apply IH.
Qed.

Lemma only_validate self :
  P ModelEval -> P TensorsCuda -> P Forward -> (forall l, P (Criterion l)) ->
  P MetricsUpdate -> (forall m, P (Log m)) ->
  only P (validate self).
Proof.
  intros H1 H2 H3 H4 H5 H6. unfold validate, _evaluate_on_data.
  apply only_bind.
  - apply only_bind; [apply only_call; assumption|]. intros _.
    apply only_bind; [apply only_evaluate_batches; assumption|]. intros acc.
    apply only_bind; [apply only_lift|]. intros ?. apply only_ret.
  - intros r. apply only_bind; [apply only_callr; assumption|]. intros sc.
    apply only_bind; [apply only_emit; apply H6|]. intros _. apply only_ret.
Qed.

Lemma only_save_checkpoint state is_best :
  (forall m, P (Log m)) -> (forall st, P (TorchSave st)) ->
  (forall st, P (CopyBest st)) ->
  only P (_save_checkpoint state is_best).
Proof.
  intros H1 H2 H3. unfold _save_checkpoint.
  apply only_bind; [apply only_emit; apply H1|]. intros _.
  apply only_bind.
  - intros s. repeat constructor. apply H2.
  - intros _. destruct is_best; [|apply only_ret].
    intros s. unfold trace, copy_to_best.
    destruct (latest s); repeat constructor. apply H3.
Qed.

Lemma only_report_stats self step train_loss min_loss :
  P ModelEval -> P TensorsCuda -> P Forward -> (forall l, P (Criterion l)) ->
  P MetricsUpdate -> (forall m, P (Log m)) ->
  (forall l, P (TrainLog l)) -> (forall l r, P (ValidationLog l r)) ->
  (forall v, P (SchedulerStep v)) -> (forall v m b, P (BestEvaluated v m b)) ->
  (forall st, P (TorchSave st)) -> (forall st, P (CopyBest st)) ->
  only P (report_stats self step train_loss min_loss).
Proof.
  intros. unfold report_stats, checkpoint_state.
  apply only_bind; [apply only_validate; assumption|]. intros valid_scores.
  apply only_bind; [apply only_lift|]. intros validation_loss.
  apply only_bind; [apply only_emit; auto|]. intros _.
  apply only_bind; [apply only_lift|]. intros cond.
  apply only_bind.
  { apply only_if.
    - apply only_bind; [apply only_lift|]. intros roc.
      apply only_bind; [apply only_emit; auto|]. intros _.
      apply only_bind; [apply only_lift|]. intros r.
      apply only_bind; [apply only_lift|]. intros v.
      apply only_call; auto.
    - apply only_emit; auto. }
  intros _. apply only_bind; [apply only_lift|]. intros vl.
  apply only_bind; [apply only_emit; auto|]. intros _.
  apply only_bind; [apply only_ask|]. intros state.
  apply only_bind; [apply only_save_checkpoint; assumption|]. intros _.
  apply only_bind; [apply only_emit; auto|]. intros _. apply only_ret.
Qed.

End Footprints.

Section Iteration.

Context `{Collaborators}.

(** An iteration is one training step followed by events that are not
    training events. *)
Lemma loop_body_split self step min_loss s :
  exists rest,
    trace (loop_body self step min_loss) s = trace (train self) s ++ rest /\
    Forall (fun te : tagged => is_training (snd te) = false) rest.
Proof.
  unfold loop_body. rewrite trace_bind.
  eexists. split; [reflexivity|].
  destruct (outcome (train self) s) as [train_loss|e]; [|constructor].
  apply (only_apply (fun e => is_training e = false)).
  apply only_bind.
  { destruct (step =? 0); [apply only_ret|].
    apply only_bind; [apply only_lift|]. intros ?. apply only_ret. }
  intros reporting. apply only_bind.
  { destruct reporting; [|apply only_ret].
    apply only_report_stats; intros; reflexivity. }
  intros m. apply only_bind; [apply only_lift|]. intros r.
  apply only_bind; [|intros; apply only_ret].
  destruct (r =? 0); [|apply only_ret].
  unfold checkpoint_state. apply only_bind; [apply only_ask|]. intros st.
  apply only_save_checkpoint; intros; reflexivity.
Qed.

End Iteration.

(** ** The step loop *)

Section Loop.

Context `{Collaborators}.


Lemma in_py_range a b z : In z (py_range a b) <-> a <= z < b.
Proof.
  unfold py_range. rewrite in_map_iff. split.
  - intros (k & <- & Hk). apply in_seq in Hk. lia.
  - intros Hz. exists (Z.to_nat (z - a)). split; [lia|].
    apply in_seq. lia.
Qed.

Lemma py_range_cons a b : a < b -> py_range a b = a :: py_range (a + 1) b.
Proof.
  intros Hab. unfold py_range.
  replace (Z.to_nat (b - a)) with (S (Z.to_nat (b - (a + 1)))) by lia.
  simpl. f_equal; [lia|].
  rewrite <- seq_shift, map_map. apply map_ext. intros k. lia.
Qed.

Lemma py_range_empty a b : b <= a -> py_range a b = [].
Proof.
  intros Hab. unfold py_range.
  replace (Z.to_nat (b - a)) with O by lia. reflexivity.
Qed.


Lemma steps_of_app p (t1 t2 : list tagged) :
  steps_of p (t1 ++ t2) = steps_of p t1 ++ steps_of p t2.
Proof. unfold steps_of. apply flat_map_app. Qed.

Lemma outcome_at_step {A : Type} i (m : M A) s :
  outcome (at_step i m) s = outcome m s.
Proof. unfold outcome, at_step. destruct (m s) as [[r s'] t]. reflexivity. Qed.

Lemma final_at_step {A : Type} i (m : M A) s :
  final (at_step i m) s = final m s.
Proof. unfold final, at_step. destruct (m s) as [[r s'] t]. reflexivity. Qed.

Lemma trace_at_step {A : Type} i (m : M A) s :
  trace (at_step i m) s = map (fun te : tagged => (Some i, snd te)) (trace m s).
Proof. unfold trace, at_step. destruct (m s) as [[r s'] t]. reflexivity. Qed.

Lemma steps_of_at_step {A : Type} p i (m : M A) s :
  steps_of p (trace (at_step i m) s) =
  repeat i (count_events p (map snd (trace m s))).
Proof.
  rewrite trace_at_step. unfold count_events, steps_of.
  induction (trace m s) as [|te t IH]; simpl; [reflexivity|].
  destruct (p (snd te)); simpl; rewrite IH; reflexivity.
Qed.

Lemma events_at_app i (t1 t2 : list tagged) :
  events_at i (t1 ++ t2) = events_at i t1 ++ events_at i t2.
Proof. unfold events_at. rewrite List.filter_app, map_app. reflexivity. Qed.

Lemma events_at_at_step_same {A : Type} i (m : M A) s :
  events_at i (trace (at_step i m) s) = map snd (trace m s).
Proof.
  rewrite trace_at_step. unfold events_at.
  induction (trace m s) as [|te t IH]; simpl; [reflexivity|].
  rewrite Z.eqb_refl. simpl. rewrite IH. reflexivity.
Qed.

Lemma events_at_at_step_other {A : Type} i j (m : M A) s :
  j <> i -> events_at i (trace (at_step j m) s) = [].
Proof.
  intros Hne. rewrite trace_at_step. unfold events_at.
  induction (trace m s) as [|te t IH]; simpl; [reflexivity|].
  destruct (Z.eqb_spec j i); [contradiction|]. exact IH.
Qed.

(** One iteration of the loop, then the others. *)
Lemma for_steps_cons_trace self i rest min_loss s :
  trace (for_steps self (i :: rest) min_loss) s =
  trace (at_step i (loop_body self i min_loss)) s ++
  match outcome (loop_body self i min_loss) s with
  | Ok m' => trace (for_steps self rest m') (final (loop_body self i min_loss) s)
  | Raise _ => []
  end.
Proof.
  simpl. rewrite trace_bind, outcome_at_step, final_at_step. reflexivity.
Qed.

Lemma for_steps_cons_outcome self i rest min_loss s :
  outcome (for_steps self (i :: rest) min_loss) s =
  match outcome (loop_body self i min_loss) s with
  | Ok m' =>
      outcome (for_steps self rest m') (final (loop_body self i min_loss) s)
  | Raise e => Raise e
  end.
Proof.
  simpl. rewrite outcome_bind, outcome_at_step, final_at_step. reflexivity.
Qed.

(** The loop returns when each of its iterations does. *)
Lemma for_steps_ok self steps :
  (forall i, In i steps -> forall m s,
      is_ok (outcome (loop_body self i m) s) = true) ->
  forall m s, is_ok (outcome (for_steps self steps m) s) = true.
Proof.
  induction steps as [|i rest IH]; intros Hbody m s; [reflexivity|].
  rewrite for_steps_cons_outcome.
  pose proof (Hbody i (or_introl eq_refl) m s) as Hi.
  destruct (outcome (loop_body self i m) s) as [m'|e]; [|discriminate].
  apply IH. intros j Hj. apply Hbody. right. exact Hj.
Qed.

(** When the loop returns, an event that happens [k i] times in every
    returning iteration [i] happens at exactly these steps. *)
Lemma for_steps_steps_of self p (k : Z -> nat) steps :
  (forall i, In i steps -> forall m s,
      is_ok (outcome (loop_body self i m) s) = true ->
      count_events p (map snd (trace (loop_body self i m) s)) = k i) ->
  forall m s,
    is_ok (outcome (for_steps self steps m) s) = true ->
    steps_of p (trace (for_steps self steps m) s) =
    flat_map (fun i => repeat i (k i)) steps.
Proof.
  induction steps as [|i rest IH]; intros Hbody m s Hok; [reflexivity|].
  rewrite for_steps_cons_outcome in Hok.
  rewrite for_steps_cons_trace, steps_of_app, steps_of_at_step.
  pose proof (Hbody i (or_introl eq_refl) m s) as Hi.
  destruct (outcome (loop_body self i m) s) as [m'|e]; [|discriminate].
  rewrite (Hi eq_refl). simpl. f_equal.
  apply IH; [|exact Hok]. intros j Hj. apply Hbody. right. exact Hj.
Qed.

(** Whether or not the loop returns, an event that happens once in every
    iteration happens at the steps of a prefix of the range, once each. *)
Lemma for_steps_prefix self p steps :
  (forall i m s,
      count_events p (map snd (trace (loop_body self i m) s)) = 1%nat) ->
  forall m s, exists n : nat,
    steps_of p (trace (for_steps self steps m) s) = firstn n steps.
Proof.
  intros Hbody.
  induction steps as [|i rest IH]; intros m s; [exists O; reflexivity|].
  rewrite for_steps_cons_trace, steps_of_app, steps_of_at_step, Hbody.
  destruct (outcome (loop_body self i m) s) as [m'|e].
  - destruct (IH m' (final (loop_body self i m) s)) as [n Hn].
    exists (S n). simpl. rewrite Hn. reflexivity.
  - exists 1%nat. reflexivity.
Qed.



Lemma train_and_validate_trace self s :
  trace (train_and_validate self) s =
  [(None, Log (LogTrainStart (max_steps self) (batch_size self)));
   (None, SchedulerNew "max" 16 (8 # 10))]
    ++ trace (for_steps self (py_range (_start_step self) (max_steps self))
                        (_min_loss self)) (loop_start self s)
    ++ (if is_ok (outcome
                    (for_steps self
                       (py_range (_start_step self) (max_steps self))
                       (_min_loss self)) (loop_start self s))
        then [(None, SaveDataset "train" true)] else []).
Proof.
  unfold train_and_validate, loop_start.
  rewrite trace_bind. simpl. rewrite trace_bind. simpl.
  rewrite trace_bind. unfold final at 1. simpl.
  set (loop := for_steps self _ _).
  unfold outcome at 1 2. unfold final. simpl.
  destruct (loop _) as [[[m|e] s'] t]; simpl; reflexivity.
Qed.

Lemma train_and_validate_outcome self s :
  is_ok (outcome (train_and_validate self) s) =
  is_ok (outcome (for_steps self
                    (py_range (_start_step self) (max_steps self))
                    (_min_loss self)) (loop_start self s)).
Proof.
  unfold train_and_validate, loop_start.
  rewrite outcome_bind. simpl. rewrite outcome_bind. simpl.
  rewrite outcome_bind. unfold final at 1. simpl.
  set (loop := for_steps self _ _).
  unfold outcome, final. simpl.
  destruct (loop _) as [[[m|e] s'] t]; simpl; reflexivity.
Qed.

(** The state a run ends in: the one its loop ends in, after the closing
    call of the sampler when the loop returned. *)
Lemma train_and_validate_final self s :
  let loop := for_steps self (py_range (_start_step self) (max_steps self))
                        (_min_loss self) in
  final (train_and_validate self) s =
  if is_ok (outcome loop (loop_start self s))
  then with_ext (sampler_save_dataset_to_file "train" true)
                (final loop (loop_start self s))
  else final loop (loop_start self s).
Proof.
  cbv zeta. unfold train_and_validate, loop_start.
  set (loop := for_steps self _ _).
  unfold final, outcome, bind, emit, call. cbn [fst snd].
  destruct (loop _) as [[[m|e] s'] t]; reflexivity.
Qed.

(** A loop over one step is its iteration. *)
Lemma for_steps_single self i m s :
  outcome (for_steps self [i] m) s = outcome (loop_body self i m) s /\
  final (for_steps self [i] m) s = final (loop_body self i m) s.
Proof.
  split.
  - rewrite for_steps_cons_outcome.
    destruct (outcome (loop_body self i m) s); reflexivity.
  - cbn [for_steps]. rewrite final_bind, outcome_at_step, final_at_step.
    destruct (outcome (loop_body self i m) s); reflexivity.
Qed.

Lemma steps_of_train_and_validate p self s :
  steps_of p (trace (train_and_validate self) s) =
  steps_of p (trace (for_steps self
                       (py_range (_start_step self) (max_steps self))
                       (_min_loss self)) (loop_start self s)).
Proof.
  rewrite train_and_validate_trace. rewrite !steps_of_app. simpl.
  destruct (is_ok _); simpl; rewrite app_nil_r; reflexivity.
Qed.

End Loop.

(** ** Training steps and the steps a run drives *)

Section Steps.

Context `{Collaborators}.

Lemma loop_body_filter_training p self i m s :
  (forall e, is_training e = false -> p e = false) ->
  p (SetMode "train") = false -> p (Sample (batch_size self)) = false ->
  p ZeroGrad = false -> p Backward = false ->
  exists loss,
    List.filter p (map snd (trace (loop_body self i m) s)) =
    List.filter p [ModelTrain; OptimizerStep; TrainReturn loss].
Proof.
  intros Hp H1 H2 H3 H4.
  destruct (loop_body_split self i m s) as (rest & E & Hrest).
  assert (Ht : exists loss,
             List.filter p (map snd (trace (train self) s)) =
             List.filter p [ModelTrain; OptimizerStep; TrainReturn loss]).
  { apply filter_train; try assumption; try (apply Hp; reflexivity).
    intros l. apply Hp. reflexivity. }
  destruct Ht as (loss & Ht).
  exists loss. rewrite E, map_app, List.filter_app.
  rewrite (filter_none p rest), app_nil_r; [exact Ht|].
  eapply Forall_impl; [exact Hrest|]. intros te Hte. apply Hp. exact Hte.
Qed.

Lemma loop_body_train_calls self i m s :
  count_events is_train_call (map snd (trace (loop_body self i m) s)) = 1%nat.
Proof.
  assert (E : exists loss,
             List.filter is_train_call (map snd (trace (loop_body self i m) s)) =
             List.filter is_train_call [ModelTrain; OptimizerStep; TrainReturn loss]).
  { apply loop_body_filter_training; try reflexivity.
    intros [] He; try reflexivity; discriminate. }
  destruct E as (loss & E). unfold count_events. rewrite E. reflexivity.
Qed.



Lemma flat_map_repeat_once (l : list Z) :
  flat_map (fun i => repeat i 1) l = l.
Proof.
  induction l as [|i l IH]; [reflexivity|].
  cbn [flat_map repeat app]. f_equal. exact IH.
Qed.

(** When the run returns, an event that happens once per iteration
    happens at each step of [range(start_step, max_steps)], once. *)
Lemma once_per_step p self s :
  (forall i m s',
      count_events p (map snd (trace (loop_body self i m) s')) = 1%nat) ->
  is_ok (outcome (train_and_validate self) s) = true ->
  steps_of p (trace (train_and_validate self) s) =
  py_range (_start_step self) (max_steps self).
Proof.
  intros Hp Hok. rewrite train_and_validate_outcome in Hok.
  rewrite steps_of_train_and_validate.
  rewrite (for_steps_steps_of self p (fun _ => 1%nat)); [| |exact Hok].
  - apply flat_map_repeat_once.
  - intros. apply Hp.
Qed.




(** Whether or not the run returns, the steps it drives are the first
    ones of [range(start_step, max_steps)]. *)
Lemma run_drives_prefix self s :
  exists n : nat,
    steps_driven (trace (train_and_validate self) s) =
    firstn n (py_range (_start_step self) (max_steps self)).
Proof.
  unfold steps_driven. rewrite steps_of_train_and_validate.
  apply for_steps_prefix. apply loop_body_train_calls.
Qed.

End Steps.



(** ** Construction *)

Section Construction.

Context `{Collaborators}.

(** A construction without checkpoint returns an object that holds the
    arguments as they were given. *)
Lemma init_fresh (a : Args.t) s :
  Args.checkpoint_resume a = None ->
  exists self,
    outcome (__init__ a) s = Ok self /\
    batch_size self = Args.batch_size a /\
    max_steps self = Args.max_steps a /\
    nth_step_report_stats self = Args.report_stats_every_n_steps a /\
    nth_step_save_checkpoint self = effective_save_cadence a /\
    _start_step self = 0 /\
    _min_loss self = PInf.
Proof.
  intros Hres. unfold __init__, effective_save_cadence, outcome.
  rewrite Hres.
  unfold _create_validation_set, _create_test_set, bind, call, callr, emit,
    ask, ret, py_not.
  destruct (Args.data_parallel a), (Args.use_cuda a); simpl;
    match goal with
    | |- context [existsb ?f ?l] => destruct (existsb f l)
    end; simpl;
    (eexists; split; [reflexivity|]; simpl;
     destruct (Args.save_checkpoint_every_n_steps a) as [c|];
     [destruct (c =? 0)|]; repeat split; reflexivity).
Qed.

(** A construction from a checkpoint stops at the read of the attribute
    [max_step], which no assignment has created. *)
Lemma init_resume_raises (a : Args.t) checkpoint s :
  Args.checkpoint_resume a = Some checkpoint ->
  outcome (__init__ a) s = Raise (AttributeError "max_step").
Proof.
  intros Hres. unfold __init__, outcome. rewrite Hres.
  unfold _create_validation_set, _create_test_set, resume_from, bind, call,
    callr, emit, ask, ret, lift.
  destruct (Args.data_parallel a), (Args.use_cuda a); simpl;
    match goal with
    | |- context [existsb ?f ?l] => destruct (existsb f l)
    end; reflexivity.
Qed.

End Construction.

(** C1: the resume block reads [self.max_step] where the constructor
    assigned [self.max_steps], so no construction from a checkpoint
    completes: whatever the checkpoint's step [s0] and the configured
    [max_steps = m], the constructor raises [AttributeError] and no run
    follows, where the specification has the run cover [s0, s0 + m). *)
Theorem resumed_construction_never_completes `{Collaborators}
    (a : Args.t) checkpoint s s0 m :
  Args.checkpoint_resume a = Some checkpoint ->
  outcome (__init__ a) s = Raise (AttributeError "max_step") /\
  ~ resume_claim a s s0 m.
Proof.
  intros Hres.
  pose proof (init_resume_raises a checkpoint s Hres) as E.
  split; [exact E|].
  intros (self & Hok & _). rewrite E in Hok. discriminate Hok.
Qed.

Lemma resumed_construction_never_completes_witness :
  outcome (@__init__ demo
             (@args_of demo 4 5 5 (Some 5)
                       (Some (@Build_Checkpoint demo 8 "Net" tt PInf tt))))
          demo_state
  = Raise (AttributeError "max_step") /\
  ~ resume_claim
      (@args_of demo 4 5 5 (Some 5)
                (Some (@Build_Checkpoint demo 8 "Net" tt PInf tt)))
      demo_state 8 5.
Proof.
  apply (@resumed_construction_never_completes demo
           (@args_of demo 4 5 5 (Some 5)
                     (Some (@Build_Checkpoint demo 8 "Net" tt PInf tt)))
           (@Build_Checkpoint demo 8 "Net" tt PInf tt) demo_state 8 5).
  reflexivity.
Defined.

(** C3, as stated, fails: a configuration with batch size 0, a negative
    step budget and non-positive cadences is constructed without error. *)
Lemma fails_fast_claim_fails :
  ~ fails_fast_claim (@args_of demo 0 (-1) 0 (Some (-3)) None) demo_state.
Proof.
  intros Hclaim. destruct Hclaim as [Hraise _].
  - left. simpl. lia.
  - vm_compute in Hraise. discriminate Hraise.
Qed.

(** C3, as the code has it: a construction without checkpoint validates
    nothing; it returns an object holding the batch size, the step budget
    and the reporting cadence as given and the checkpoint cadence as given
    unless it is [None] or 0, when the reporting cadence replaces it.  For
    a valid configuration the invariant holds on that object. *)
Theorem construction_keeps_configuration `{Collaborators} (a : Args.t) s :
  Args.checkpoint_resume a = None ->
  exists self,
    outcome (__init__ a) s = Ok self /\
    batch_size self = Args.batch_size a /\
    max_steps self = Args.max_steps a /\
    nth_step_report_stats self = Args.report_stats_every_n_steps a /\
    nth_step_save_checkpoint self = effective_save_cadence a /\
    (valid_configuration a -> configuration_invariant self).
Proof.
  intros Hres.
  destruct (init_fresh a s Hres) as (self & Hok & Hb & Hm & Hr & Hc & _ & _).
  exists self. repeat (split; [assumption|]).
  intros (Vb & Vm & Vr & Vc). unfold configuration_invariant.
  rewrite Hb, Hm, Hr, Hc. repeat (split; [assumption|]).
  unfold effective_save_cadence.
  destruct (Args.save_checkpoint_every_n_steps a) as [c|]; [|assumption].
  specialize (Vc c eq_refl). destruct (Z.eqb_spec c 0); lia.
Qed.

Lemma construction_keeps_configuration_witness :
  exists self,
    outcome (@__init__ demo (@args_of demo 4 10 5 (Some 5) None)) demo_state
    = Ok self /\
    configuration_invariant self.
Proof.
  destruct (@construction_keeps_configuration demo
              (@args_of demo 4 10 5 (Some 5) None) demo_state eq_refl)
    as (self & Hok & _ & _ & _ & _ & Hinv).
  exists self. split; [exact Hok|]. apply Hinv.
  unfold valid_configuration. simpl. repeat split; try lia.
  intros c Hc. injection Hc as <-. lia.
Defined.

(** ** The first iteration *)

Section FirstIteration.

Context `{Collaborators}.

Lemma events_at_for_steps_absent self i steps : forall m s,
  ~ In i steps -> events_at i (trace (for_steps self steps m) s) = [].
Proof.
  induction steps as [|j rest IH]; intros m s Hni; [reflexivity|].
  rewrite for_steps_cons_trace, events_at_app.
  rewrite events_at_at_step_other by (intros ->; apply Hni; left; reflexivity).
  destruct (outcome (loop_body self j m) s); [|reflexivity].
  apply IH. intros Hin. apply Hni. right. exact Hin.
Qed.

Lemma events_at_run self i s :
  events_at i (trace (train_and_validate self) s) =
  events_at i (trace (for_steps self
                        (py_range (_start_step self) (max_steps self))
                        (_min_loss self)) (loop_start self s)).
Proof.
  rewrite train_and_validate_trace, !events_at_app.
  destruct (is_ok _); simpl; rewrite app_nil_r; reflexivity.
Qed.

(** Step 0 with a non-zero checkpoint cadence: the training step, then
    one checkpoint write that is not tagged best and records the current
    [min_loss]. *)
Lemma loop_body_step0 self min_loss s :
  nth_step_save_checkpoint self <> 0 ->
  exists state,
    trace (loop_body self 0 min_loss) s =
    trace (train self) s
      ++ [(None, Log (LogSaving 0)); (None, TorchSave state)] /\
    ck_step state = 0 /\ ck_min_loss state = min_loss.
Proof.
  intros Hc. unfold loop_body, trace.
  destruct (train_run self s) as (loss & s1 & E).
  rewrite (bind_ok _ _ _ _ _ _ E). rewrite E. simpl.
  unfold py_mod. destruct (Z.eqb_spec (nth_step_save_checkpoint self) 0);
    [contradiction|].
  rewrite Zmod_0_l.
  unfold checkpoint_state, _save_checkpoint, torch_save, bind, lift, ret,
    ask, emit. simpl.
  eexists. split; [reflexivity|]. split; reflexivity.
Qed.

(** The training step leaves the checkpoint slots alone. *)
Lemma train_slots self s :
  latest (final (train self) s) = latest s /\
  best (final (train self) s) = best s.
Proof.
  unfold final, train, _get_batch, bind, call, callr, emit, ask, ret.
  destruct (use_cuda self); split; reflexivity.
Qed.

(** Step 0 with a non-zero checkpoint cadence, with the state it
    leaves: the latest slot holds the checkpoint, the best slot is
    untouched. *)
Lemma loop_body_step0_final self min_loss s :
  nth_step_save_checkpoint self <> 0 ->
  exists state,
    trace (loop_body self 0 min_loss) s =
    trace (train self) s
      ++ [(None, Log (LogSaving 0)); (None, TorchSave state)] /\
    outcome (loop_body self 0 min_loss) s = Ok min_loss /\
    ck_step state = 0 /\ ck_min_loss state = min_loss /\
    latest (final (loop_body self 0 min_loss) s) = Some state /\
    best (final (loop_body self 0 min_loss) s) = best s.
Proof.
  intros Hc.
  destruct (train_slots self s) as [_ Hbest].
  unfold loop_body, trace, outcome, final in *.
  destruct (train_run self s) as (loss & s1 & E).
  rewrite (bind_ok _ _ _ _ _ _ E). rewrite E in *. cbn [fst snd] in *.
  simpl.
  unfold py_mod. destruct (Z.eqb_spec (nth_step_save_checkpoint self) 0);
    [contradiction|].
  rewrite Zmod_0_l.
  unfold checkpoint_state, _save_checkpoint, torch_save, bind, lift, ret,
    ask, emit. simpl.
  eexists. split; [reflexivity|]. split; [reflexivity|].
  split; [reflexivity|]. split; [reflexivity|]. split; [reflexivity|].
  exact Hbest.
Qed.

Lemma filter_train_none p self s :
  (forall e, is_training e = true -> p e = false) ->
  p (Log (LogBatchSampled (batch_size self))) = false ->
  p TensorsCuda = false -> p Forward = false ->
  (forall l, p (Criterion l) = false) ->
  List.filter p (map snd (trace (train self) s)) = [].
Proof.
  intros Hp H1 H2 H3 H4.
  destruct (train_run self s) as (loss & s' & E). unfold trace. rewrite E.
  destruct (use_cuda self); simpl;
    rewrite ?H1, ?H2, ?H3, ?H4, ?(Hp ModelTrain eq_refl),
      ?(Hp (SetMode "train") eq_refl),
      ?(Hp (Sample (batch_size self)) eq_refl), ?(Hp ZeroGrad eq_refl),
      ?(Hp Backward eq_refl), ?(Hp OptimizerStep eq_refl),
      ?(Hp (TrainReturn loss) eq_refl); reflexivity.
Qed.

(** The events of step 0 of a run that starts at step 0. *)
Lemma events_at_first_step self s :
  _start_step self = 0 -> max_steps self >= 1 ->
  events_at 0 (trace (train_and_validate self) s) =
  map snd (trace (loop_body self 0 (_min_loss self)) (loop_start self s)).
Proof.
  intros Hs Hm. rewrite events_at_run, Hs.
  rewrite py_range_cons by lia.
  rewrite for_steps_cons_trace, events_at_app, events_at_at_step_same.
  destruct (outcome _ _); [|apply app_nil_r].
  rewrite events_at_for_steps_absent; [apply app_nil_r|].
  rewrite in_py_range. lia.
Qed.

End FirstIteration.

(** C9: in a run constructed without checkpoint, with [max_steps >= 1]
    and a checkpoint cadence that is not 0 (the one given, or the
    reporting cadence when none or 0 is given), step 0 writes exactly one
    checkpoint; it is not copied to the best slot, its [step] is 0 and
    its [min_loss] is +infinity.  After step 0 the latest slot holds that
    checkpoint and the best slot is as the constructor left it; this is
    the state the run ends in when [max_steps = 1]. *)
Theorem first_step_writes_plain_checkpoint `{Collaborators} (a : Args.t) s :
  Args.checkpoint_resume a = None ->
  Args.max_steps a >= 1 ->
  effective_save_cadence a <> 0 ->
  exists self state,
    outcome (__init__ a) s = Ok self /\
    let s0 := final (__init__ a) s in
    let step0 := events_at 0 (trace (train_and_validate self) s0) in
    List.filter is_torch_save step0 = [TorchSave state] /\
    List.filter is_copy_best step0 = [] /\
    ck_step state = 0 /\ ck_min_loss state = PInf /\
    latest (after_first_step self s0) = Some state /\
    best (after_first_step self s0) = best s0 /\
    (Args.max_steps a = 1 ->
     latest (final (train_and_validate self) s0) = Some state /\
     best (final (train_and_validate self) s0) = best s0).
Proof.
  intros Hres Hmax Hcad0.
  destruct (init_fresh a s Hres) as (self & Hok & _ & Hm & _ & Hcad & Hs & Hl).
  assert (Hcad' : nth_step_save_checkpoint self <> 0)
    by (rewrite Hcad; exact Hcad0).
  destruct (loop_body_step0_final self (_min_loss self)
              (loop_start self (final (__init__ a) s)) Hcad')
    as (state & Et & Eo & Hstep & Hloss & Hlatest & Hbest).
  exists self, state. split; [exact Hok|]. cbv zeta.
  rewrite events_at_first_step by (rewrite ?Hm; lia || assumption).
  rewrite Et, map_app, !List.filter_app.
  rewrite !filter_train_none; try reflexivity;
    try (intros [] He; try reflexivity; discriminate He).
  unfold after_first_step. rewrite Hs.
  split; [reflexivity|]. split; [reflexivity|]. split; [exact Hstep|].
  split; [rewrite <- Hl; exact Hloss|]. split; [exact Hlatest|].
  split; [exact Hbest|].
  intros Hone.
  rewrite train_and_validate_final. cbv zeta.
  rewrite Hs, Hm, Hone. change (py_range 0 1) with [0].
  destruct (for_steps_single self 0 (_min_loss self)
              (loop_start self (final (__init__ a) s))) as [-> ->].
  rewrite Eo. cbn [is_ok]. unfold with_ext. cbn [latest best].
  split; [exact Hlatest|exact Hbest].
Qed.

Lemma first_step_writes_plain_checkpoint_witness :
  exists self state,
    outcome (@__init__ demo (@args_of demo 4 3 5 None None)) demo_state
    = Ok self /\
    latest (after_first_step self
              (final (@__init__ demo (@args_of demo 4 3 5 None None))
                     demo_state))
    = Some state /\
    ck_min_loss state = PInf.
Proof.
  destruct (@first_step_writes_plain_checkpoint demo
              (@args_of demo 4 3 5 None None) demo_state)
    as (self & state & Hok & _ & _ & _ & Hloss & Hlatest & _).
  - reflexivity.
  - simpl. lia.
  - discriminate.
  - exists self, state. split; [exact Hok|]. split; assumption.
Defined.

(** ** Evaluation order *)

(** C6: for a batch set of at least one batch, [_evaluate_on_data] calls
    the model and the loss once per batch, in the order of the batches,
    and returns the average of the per-batch losses with the predictions
    of the batches one after the other.  When the model predicts one row
    per example and every batch has one target per example, the table has
    one row per target, and the rows found where the targets of a batch
    are in the concatenated targets are the predictions of that batch. *)
Theorem evaluation_keeps_batch_order `{Collaborators} self
    (data : list batch) s :
  data <> [] ->
  (forall w xs, length (model_forward w xs) = length xs) ->
  Forall (fun b : batch => length (fst b) = length (snd b)) data ->
  let w := model_eval (ext s) in
  let table := concat (map (batch_predictions w) data) in
  outcome (_evaluate_on_data self data) s =
    Ok (np_average (map (batch_loss w) data), table) /\
  trace (_evaluate_on_data self data) s =
    (None, ModelEval) :: flat_map (batch_events self w) data /\
  length table = length (all_targets data) /\
  (forall (k : nat) (b : batch),
      nth_error data k = Some b ->
      firstn (length (snd b))
             (skipn (length (all_targets (firstn k data))) table)
      = batch_predictions w b).
Proof.
  intros Hne Hrows Hbatches w table. subst w table.
  unfold outcome, trace. rewrite _evaluate_on_data_eq by exact Hne. simpl.
  set (w := model_eval (ext s)).
  assert (Hlen : forall l : list batch,
             Forall (fun b : batch => length (fst b) = length (snd b)) l ->
             length (concat (map (batch_predictions w) l))
             = length (all_targets l)).
  { intros l Hl. unfold all_targets. apply length_concat_map_eq.
    eapply Forall_impl; [exact Hl|]. intros b Hb. simpl in Hb.
    unfold batch_predictions. rewrite Hrows. exact Hb. }
  split; [reflexivity|]. split; [reflexivity|]. split; [apply Hlen, Hbatches|].
  intros k b Hk.
  destruct (nth_error_split _ _ Hk) as (l1 & l2 & -> & Hl1).
  apply Forall_app in Hbatches. destruct Hbatches as [Hb1 Hb2].
  rewrite take_app_length' by (symmetry; exact Hl1).
  rewrite map_app, concat_app. simpl.
  rewrite <- (Hlen l1 Hb1), drop_app_length.
  apply take_app_length'.
  unfold batch_predictions. rewrite Hrows.
  inversion Hb2; subst. symmetry. assumption.
Qed.

Lemma evaluation_keeps_batch_order_witness :
  outcome (_evaluate_on_data (demo_self 0 10 5 5)
             [([1; 2], [1; 2]); ([3], [3])]) demo_state
  = Ok (Fin ((0 + (3 # 10) + (3 # 10)) / inject_Z (Z.of_nat 2)), [1; 2; 3]).
Proof.
  apply (@evaluation_keeps_batch_order demo (demo_self 0 10 5 5)
           [([1; 2], [1; 2]); ([3], [3])] demo_state).
  - discriminate.
  - intros w xs. reflexivity.
  - repeat constructor.
Defined.

(** ** Rounding to binary64 *)

Section Binary64.

Open Scope Q_scope.

Lemma pow2_pos (e : Z) : 0 < 2 ^ e.
Proof. apply Qpower_0_lt. reflexivity. Qed.

Lemma pow2_add (a b : Z) : 2 ^ (a + b) == 2 ^ a * 2 ^ b.
Proof. apply Qpower_plus. discriminate. Qed.

Lemma pow2_le (a b : Z) : (a <= b)%Z -> 2 ^ a <= 2 ^ b.
Proof. intros Hab. apply Qpower_le_compat_l; [exact Hab|discriminate]. Qed.

Lemma pow2_lt (a b : Z) : (a < b)%Z -> 2 ^ a < 2 ^ b.
Proof. intros Hab. apply Qpower_lt_compat_l; [exact Hab|reflexivity]. Qed.

Lemma pow2_inject (a : Z) : (0 <= a)%Z -> 2 ^ a == inject_Z (2 ^ a).
Proof. intros Ha. symmetry. apply (Zpower_Qpower 2 a Ha). Qed.

Lemma pow2_succ (a : Z) : 2 ^ (a + 1) == 2 * 2 ^ a.
Proof. rewrite pow2_add. change (2 ^ 1) with 2. ring. Qed.

(** [x] lies between the powers of 2 that the bit lengths of its
    numerator and denominator give. *)
Lemma log2_bracket (x : Q) :
  0 < x ->
  let l := (Z.log2 (Qnum x) - Z.log2 (Z.pos (Qden x)))%Z in
  2 ^ (l - 1) < x /\ x < 2 ^ (l + 1).
Proof.
  intros Hx l. destruct x as [n d]. cbn [Qnum Qden] in l.
  assert (Hn : (0 < n)%Z).
  { unfold Qlt in Hx. cbn in Hx. lia. }
  destruct (Z.log2_spec n Hn) as [Hn1 Hn2].
  destruct (Z.log2_spec (Z.pos d) eq_refl) as [Hd1 Hd2].
  pose proof (Z.log2_nonneg n) as Hln.
  pose proof (Z.log2_nonneg (Z.pos d)) as Hld.
  set (ln := Z.log2 n) in *. set (ld := Z.log2 (Z.pos d)) in *.
  assert (HA : 2 ^ ln <= inject_Z n).
  { rewrite pow2_inject by exact Hln. rewrite <- Zle_Qle. exact Hn1. }
  assert (HA' : inject_Z n < 2 * 2 ^ ln).
  { rewrite <- pow2_succ, pow2_inject by lia. rewrite <- Zlt_Qlt.
    exact Hn2. }
  assert (HB : 2 ^ ld <= inject_Z (Z.pos d)).
  { rewrite pow2_inject by exact Hld. rewrite <- Zle_Qle. exact Hd1. }
  assert (HB' : inject_Z (Z.pos d) < 2 * 2 ^ ld).
  { rewrite <- pow2_succ, pow2_inject by lia. rewrite <- Zlt_Qlt.
    exact Hd2. }
  assert (Hx' : (n # d) * inject_Z (Z.pos d) == inject_Z n).
  { unfold Qeq, Qmult, inject_Z. cbn. lia. }
  assert (Hl1 : 2 ^ (l - 1) * (2 * 2 ^ ld) == 2 ^ ln).
  { rewrite <- pow2_succ, <- pow2_add. subst l.
    replace (ln - ld - 1 + (ld + 1))%Z with ln by lia. reflexivity. }
  assert (Hl2 : 2 ^ (l + 1) * 2 ^ ld == 2 * 2 ^ ln).
  { rewrite <- pow2_succ, <- pow2_add. subst l.
    replace (ln - ld + 1 + ld)%Z with (ln + 1)%Z by lia. reflexivity. }
  pose proof (pow2_pos (l - 1)) as P1. pose proof (pow2_pos (l + 1)) as P2.
  pose proof (pow2_pos ln) as P3. pose proof (pow2_pos ld) as P4.
  set (X := n # d) in *. set (D := inject_Z (Z.pos d)) in *.
  set (N := inject_Z n) in *.
  set (A := 2 ^ ln) in *. set (B := 2 ^ ld) in *.
  set (L1 := 2 ^ (l - 1)) in *. set (L2 := 2 ^ (l + 1)) in *.
  split; nra.
Qed.

Lemma ulp_exponent_spec (x : Q) :
  0 < x ->
  let e := ulp_exponent x in
  (-1074 <= e)%Z /\ x < 2 ^ 53 * 2 ^ e /\
  ((-1074 < e)%Z -> 2 ^ 52 * 2 ^ e <= x).
Proof.
  intros Hx e. subst e. unfold ulp_exponent.
  destruct (log2_bracket x Hx) as [Hlo Hhi]. cbv zeta in Hlo, Hhi.
  set (l := (Z.log2 (Qnum x) - Z.log2 (Z.pos (Qden x)))%Z) in *.
  set (r := if Qle_bool (2 ^ l) x then (l - 52)%Z else (l - 53)%Z).
  assert (Hr : 2 ^ 52 * 2 ^ r <= x /\ x < 2 ^ 53 * 2 ^ r).
  { subst r. destruct (Qle_bool (2 ^ l) x) eqn:Hc.
    - apply Qle_bool_iff in Hc. rewrite <- !pow2_add.
      replace (52 + (l - 52))%Z with l by lia.
      replace (53 + (l - 52))%Z with (l + 1)%Z by lia.
      split; assumption.
    - assert (Hc' : x < 2 ^ l).
      { apply Qnot_le_lt. intros Hle. apply Qle_bool_iff in Hle.
        congruence. }
      rewrite <- !pow2_add.
      replace (52 + (l - 53))%Z with (l - 1)%Z by lia.
      replace (53 + (l - 53))%Z with l by lia.
      split; [apply Qlt_le_weak|]; assumption. }
  destruct Hr as [Hr1 Hr2].
  split; [lia|].
  destruct (Z.max_spec r (-1074)) as [[Hlt ->]|[Hge ->]].
  - split; [|lia].
    pose proof (pow2_lt r (-1074) Hlt) as Hp.
    pose proof (pow2_pos 53) as P.
    set (R := 2 ^ r) in *. set (M := 2 ^ (-1074)) in *.
    set (K := 2 ^ 53) in *. nra.
  - split; [exact Hr2|]. intros _. exact Hr1.
Qed.

Lemma round_half_even_bounds (y : Q) :
  let m := round_half_even y in
  (Qfloor y <= m <= Qfloor y + 1)%Z /\
  forall j : Z, Qabs (inject_Z m - y) <= Qabs (inject_Z j - y).
Proof.
  intros m. subst m. unfold round_half_even.
  pose proof (Qfloor_le y) as Hf1. pose proof (Qlt_floor y) as Hf2.
  rewrite inject_Z_plus in Hf2. change (inject_Z 1) with 1 in Hf2.
  set (f := Qfloor y) in *.
  assert (Hj : forall j : Z, inject_Z j <= inject_Z f \/
                             inject_Z f + 1 <= inject_Z j).
  { intros j. destruct (Z_le_gt_dec j f) as [Hle|Hgt].
    - left. rewrite <- Zle_Qle. exact Hle.
    - right. change 1 with (inject_Z 1). rewrite <- inject_Z_plus.
      rewrite <- Zle_Qle. lia. }
  assert (Hup : forall j : Z,
             1 # 2 <= y - inject_Z f ->
             Qabs (inject_Z (f + 1) - y) <= Qabs (inject_Z j - y)).
  { intros j Hr. rewrite inject_Z_plus. change (inject_Z 1) with 1.
    destruct (Hj j); apply Qabs_case; intros; apply Qabs_case; intros;
      lra. }
  assert (Hdown : forall j : Z,
             y - inject_Z f <= 1 # 2 ->
             Qabs (inject_Z f - y) <= Qabs (inject_Z j - y)).
  { intros j Hr.
    destruct (Hj j); apply Qabs_case; intros; apply Qabs_case; intros;
      lra. }
  destruct (y - inject_Z f ?= 1 # 2) eqn:Hc.
  - apply Qeq_alt in Hc. destruct (Z.even f).
    + split; [lia|]. intros j. apply Hdown. lra.
    + split; [lia|]. intros j. apply Hup. lra.
  - apply Qlt_alt in Hc. split; [lia|]. intros j. apply Hdown. lra.
  - apply Qgt_alt in Hc. split; [lia|]. intros j. apply Hup. lra.
Qed.

Lemma scaled_distance (E y a b : Q) :
  0 < E -> Qabs (a - y) <= Qabs (b - y) ->
  Qabs (a * E - y * E) <= Qabs (b * E - y * E).
Proof.
  intros HE Hab.
  assert (Ha : a * E - y * E == (a - y) * E) by ring.
  assert (Hb : b * E - y * E == (b - y) * E) by ring.
  rewrite Ha, Hb, !Qabs_Qmult, (Qabs_pos E) by lra.
  apply Qmult_le_compat_r; [exact Hab|lra].
Qed.

Lemma is_binary64_opp (x : Q) : is_binary64 x -> is_binary64 (- x).
Proof.
  intros (m & e & Hm & He & Hx). exists (- m)%Z, e.
  split; [lia|]. split; [exact He|].
  rewrite Hx, inject_Z_opp. ring.
Qed.

Lemma is_binary64_0 : is_binary64 0.
Proof. exists 0%Z, 0%Z. split; [lia|]. split; [lia|]. reflexivity. Qed.

Lemma nearest_binary64_opp (x v : Q) :
  nearest_binary64 x v -> nearest_binary64 (- x) (- v).
Proof.
  intros [Hv Hn]. split; [apply is_binary64_opp; exact Hv|].
  intros w Hw. specialize (Hn (- w) (is_binary64_opp w Hw)).
  assert (E1 : - v - - x == - (v - x)) by ring.
  assert (E2 : w - - x == - (- w - x)) by ring.
  rewrite E1, E2, !Qabs_opp. exact Hn.
Qed.

Lemma nearest_binary64_comp (x x' v v' : Q) :
  x == x' -> v == v' -> nearest_binary64 x v -> nearest_binary64 x' v'.
Proof.
  intros Hx Hv [(m & e & Hm & He & Hr) Hn]. split.
  - exists m, e. rewrite <- Hv. split; [exact Hm|]. split; [exact He|exact Hr].
  - intros w Hw. rewrite <- Hx, <- Hv. apply Hn. exact Hw.
Qed.

(** A number of the format whose exponent is at least [e] is an integer
    multiple of [2 ^ e]. *)
Lemma binary64_multiple (m' e' e : Z) :
  (e <= e')%Z ->
  inject_Z m' * 2 ^ e' == inject_Z (m' * 2 ^ (e' - e)) * 2 ^ e.
Proof.
  intros Hle. rewrite inject_Z_mult, <- pow2_inject by lia.
  rewrite <- Qmult_assoc, <- pow2_add.
  replace (e' - e + e)%Z with e' by lia. reflexivity.
Qed.

(** Rounding a positive number: the result is a number of the format,
    and no number of the format is nearer. *)
Lemma round_binary64_pos_nearest (x v : Q) :
  0 < x -> round_binary64_pos x = Some v -> nearest_binary64 x v.
Proof.
  intros Hx Hr. unfold round_binary64_pos in Hr.
  destruct (ulp_exponent_spec x Hx) as (He1 & He2 & He3).
  cbv zeta in He1, He2, He3.
  set (e := ulp_exponent x) in *.
  pose proof (pow2_pos e) as HE.
  set (y := x / 2 ^ e) in *.
  assert (Hy : x == y * 2 ^ e).
  { unfold y. field. lra. }
  destruct (round_half_even_bounds y) as [Hm Hnear]. cbv zeta in Hm, Hnear.
  set (m := round_half_even y) in *.
  destruct (Qle_bool (2 ^ 1024) (inject_Z m * 2 ^ e)) eqn:Hov;
    [discriminate|].
  assert (Hv : inject_Z m * 2 ^ e == v).
  { assert (E : Qred (inject_Z m * 2 ^ e) = v) by congruence.
    rewrite <- E. symmetry. exact (Qred_correct (inject_Z m * 2 ^ e)). }
  clear Hr.
  assert (Hfin : inject_Z m * 2 ^ e < 2 ^ 1024).
  { apply Qnot_le_lt. intros Hle. apply Qle_bool_iff in Hle. congruence. }
  apply (nearest_binary64_comp x x (inject_Z m * 2 ^ e) v);
    [reflexivity|exact Hv|]. clear Hv.
  (* the scaled number and the integers around it *)
  assert (Hy53 : y < inject_Z (2 ^ 53)).
  { rewrite <- pow2_inject by lia. apply (Qmult_lt_r _ _ (2 ^ e) HE).
    rewrite <- Hy. exact He2. }
  assert (Hy0 : 0 <= y).
  { apply Qlt_le_weak. apply (Qmult_lt_r _ _ (2 ^ e) HE).
    rewrite <- Hy. lra. }
  assert (Hm53 : (m <= 2 ^ 53)%Z).
  { assert (Qfloor y < 2 ^ 53)%Z; [|lia].
    rewrite Zlt_Qlt. eapply Qle_lt_trans; [apply Qfloor_le|exact Hy53]. }
  assert (Hm0 : (0 <= m)%Z).
  { assert (0 <= Qfloor y)%Z; [|lia].
    rewrite <- (Qfloor_Z 0). apply Qfloor_resp_le. exact Hy0. }
  assert (Hnormal : (-1074 < e)%Z -> (2 ^ 52 <= m)%Z).
  { intros Hgt. specialize (He3 Hgt).
    assert (inject_Z (2 ^ 52) <= y).
    { rewrite <- pow2_inject by lia. apply (Qmult_le_r _ _ (2 ^ e) HE).
      rewrite <- Hy. exact He3. }
    assert (2 ^ 52 <= Qfloor y)%Z; [|lia].
    rewrite <- (Qfloor_Z (2 ^ 52)). apply Qfloor_resp_le. assumption. }
  split.
  - (* a number of the format *)
    destruct (Z.eq_dec m (2 ^ 53)%Z) as [Hmax|Hnmax].
    + assert (He : (e < 971)%Z).
      { apply (Qpower_lt_compat_l_inv 2); [|reflexivity].
        rewrite Hmax, <- pow2_inject in Hfin by lia.
        replace 1024%Z with (53 + 971)%Z in Hfin by lia.
        rewrite (pow2_add 53 971) in Hfin.
        pose proof (pow2_pos 53). pose proof (pow2_pos 971).
        set (A := 2 ^ 53) in *. set (B := 2 ^ 971) in *.
        set (C := 2 ^ e) in *. nra. }
      exists (2 ^ 52)%Z, (e + 1)%Z. split; [lia|]. split; [lia|].
      rewrite Hmax, <- !pow2_inject, <- !pow2_add by lia.
      replace (52 + (e + 1))%Z with (53 + e)%Z by lia. reflexivity.
    + exists m, e. split; [lia|]. split; [|reflexivity].
      split; [exact He1|].
      destruct (Z_le_gt_dec e 971) as [Hle|Hgt]; [exact Hle|exfalso].
      assert (Hm52 : (2 ^ 52 <= m)%Z) by (apply Hnormal; lia).
      rewrite Zle_Qle in Hm52. rewrite <- pow2_inject in Hm52 by lia.
      assert (Hp : 2 ^ 972 <= 2 ^ e) by (apply pow2_le; lia).
      replace 1024%Z with (52 + 972)%Z in Hfin by lia.
      rewrite (pow2_add 52 972) in Hfin.
      pose proof (pow2_pos 52). pose proof (pow2_pos 972).
      set (A := 2 ^ 52) in *. set (B := 2 ^ 972) in *.
      set (C := 2 ^ e) in *. set (M := inject_Z m) in *. nra.
  - (* none is nearer *)
    intros w (m' & e' & Hm' & He' & Hw).
    rewrite Hw. rewrite Hy at 1 2.
    destruct (Z_le_gt_dec e e') as [Hle|Hgt].
    + rewrite (binary64_multiple m' e' e Hle).
      apply scaled_distance; [exact HE|]. apply Hnear.
    + (* [w] is below the binade of [x] *)
      assert (Hm52 : (2 ^ 52 <= m)%Z) by (apply Hnormal; lia).
      specialize (He3 ltac:(lia)).
      assert (Hw' : Qabs (inject_Z m' * 2 ^ e') < 2 ^ 52 * 2 ^ e).
      { rewrite Qabs_Qmult, (Qabs_pos (2 ^ e')) by
          (apply Qlt_le_weak, pow2_pos).
        assert (Ha : Qabs (inject_Z m') < 2 ^ 53).
        { rewrite pow2_inject by lia. unfold inject_Z at 1.
          rewrite <- Zabs_Qabs. fold (inject_Z (Z.abs m')).
          rewrite <- Zlt_Qlt. exact Hm'. }
        assert (Hp : 2 ^ e' <= 2 ^ (e - 1)) by (apply pow2_le; lia).
        assert (Hs : 2 ^ 53 * 2 ^ (e - 1) == 2 ^ 52 * 2 ^ e).
        { rewrite <- !pow2_add. replace (53 + (e - 1))%Z with (52 + e)%Z
            by lia. reflexivity. }
        pose proof (pow2_pos e'). pose proof (pow2_pos 53).
        pose proof (Qabs_nonneg (inject_Z m')).
        set (A := Qabs (inject_Z m')) in *. set (B := 2 ^ e') in *.
        set (K := 2 ^ 53) in *. set (P := 2 ^ (e - 1)) in *.
        set (R := 2 ^ 52 * 2 ^ e) in *. nra. }
      assert (Hbase : Qabs (inject_Z m * 2 ^ e - y * 2 ^ e)
                      <= Qabs (inject_Z (2 ^ 52) * 2 ^ e - y * 2 ^ e)).
      { apply scaled_distance; [exact HE|]. apply Hnear. }
      eapply Qle_trans; [exact Hbase|].
      rewrite <- pow2_inject, <- Hy by lia.
      set (W := inject_Z m' * 2 ^ e') in *.
      set (R := 2 ^ 52 * 2 ^ e) in *.
      revert Hw'. apply Qabs_case; intros; apply Qabs_case; intros;
        apply Qabs_case; intros; lra.
Qed.

(** [binary64 x] is a number of the format nearest to [x]. *)
Lemma binary64_nearest (x v : Q) :
  binary64 x = Fin v -> nearest_binary64 x v.
Proof.
  unfold binary64. destruct (x ?= 0) eqn:Hc.
  - apply Qeq_alt in Hc. intros E. injection E as <-.
    apply (nearest_binary64_comp 0 x 0 0);
      [symmetry; exact Hc|reflexivity|].
    split; [apply is_binary64_0|]. intros w _.
    assert (E : 0 - 0 == 0) by ring. rewrite E. apply Qabs_nonneg.
  - apply Qlt_alt in Hc.
    destruct (round_binary64_pos (- x)) as [u|] eqn:Hr; [|discriminate].
    intros E. injection E as <-.
    apply (nearest_binary64_comp (- - x) x (- u) (- u));
      [ring|reflexivity|].
    apply nearest_binary64_opp.
    apply round_binary64_pos_nearest; [lra|exact Hr].
  - apply Qgt_alt in Hc.
    destruct (round_binary64_pos x) as [u|] eqn:Hr; [|discriminate].
    intros E. injection E as <-.
    apply round_binary64_pos_nearest; [lra|exact Hr].
Qed.

(** A number of the format rounds to itself. *)
Lemma nearest_binary64_exact (x v : Q) :
  is_binary64 x -> nearest_binary64 x v -> v == x.
Proof.
  intros Hx [_ Hn]. specialize (Hn x Hx).
  assert (E : x - x == 0) by ring. rewrite E in Hn.
  revert Hn. apply Qabs_case; intros; change (Qabs 0) with 0 in *; lra.
Qed.

(** Below [2 ^ 1023] in magnitude nothing overflows. *)
Lemma round_binary64_pos_finite (x : Q) :
  0 < x -> x < 2 ^ 1023 -> exists v, round_binary64_pos x = Some v.
Proof.
  intros Hx Hlt. unfold round_binary64_pos.
  destruct (ulp_exponent_spec x Hx) as (He1 & He2 & He3).
  cbv zeta in He1, He2, He3.
  set (e := ulp_exponent x) in *.
  pose proof (pow2_pos e) as HE.
  set (y := x / 2 ^ e) in *.
  assert (Hy : x == y * 2 ^ e).
  { unfold y. field. lra. }
  destruct (round_half_even_bounds y) as [Hm _]. cbv zeta in Hm.
  set (m := round_half_even y) in *.
  assert (Hy53 : y < inject_Z (2 ^ 53)).
  { rewrite <- pow2_inject by lia. apply (Qmult_lt_r _ _ (2 ^ e) HE).
    rewrite <- Hy. exact He2. }
  assert (Hm53 : (m <= 2 ^ 53)%Z).
  { assert (Qfloor y < 2 ^ 53)%Z; [|lia].
    rewrite Zlt_Qlt. eapply Qle_lt_trans; [apply Qfloor_le|exact Hy53]. }
  assert (Hfin : inject_Z m * 2 ^ e < 2 ^ 1024).
  { rewrite Zle_Qle in Hm53. rewrite <- pow2_inject in Hm53 by lia.
    assert (Hp : 2 ^ e <= 2 ^ 970).
    { destruct (Z_le_gt_dec e 970) as [Hle|Hgt]; [apply pow2_le; exact Hle|].
      exfalso. specialize (He3 ltac:(lia)).
      assert (Hq : 2 ^ 971 <= 2 ^ e) by (apply pow2_le; lia).
      replace 1023%Z with (52 + 971)%Z in Hlt by lia.
      rewrite (pow2_add 52 971) in Hlt.
      pose proof (pow2_pos 52). pose proof (pow2_pos 971).
      set (A := 2 ^ 52) in *. set (B := 2 ^ 971) in *.
      set (C := 2 ^ e) in *. nra. }
    assert (Hs : 2 ^ 53 * 2 ^ 970 < 2 ^ 1024).
    { rewrite <- pow2_add. apply pow2_lt. lia. }
    pose proof (pow2_pos 53).
    set (A := 2 ^ 53) in *. set (B := 2 ^ 970) in *.
    set (C := 2 ^ e) in *. set (M := inject_Z m) in *.
    set (T := 2 ^ 1024) in *. nra. }
  destruct (Qle_bool (2 ^ 1024) (inject_Z m * 2 ^ e)) eqn:Hov.
  - apply Qle_bool_iff in Hov. lra.
  - eexists. reflexivity.
Qed.

Lemma binary64_finite (x : Q) :
  Qabs x < 2 ^ 1023 -> exists v, binary64 x = Fin v.
Proof.
  intros Hlt. unfold binary64. destruct (x ?= 0) eqn:Hc.
  - eexists. reflexivity.
  - apply Qlt_alt in Hc.
    destruct (round_binary64_pos_finite (- x)) as [v ->].
    + lra.
    + rewrite <- Qabs_opp in Hlt. rewrite Qabs_pos in Hlt by lra. exact Hlt.
    + eexists. reflexivity.
  - apply Qgt_alt in Hc.
    destruct (round_binary64_pos_finite x) as [v ->].
    + lra.
    + rewrite Qabs_pos in Hlt by lra. exact Hlt.
    + eexists. reflexivity.
Qed.

(** A number of the format is below [2 ^ 1024] in magnitude. *)
Lemma is_binary64_bound (v : Q) : is_binary64 v -> Qabs v < 2 ^ 1024.
Proof.
  intros (m & e & Hm & He & Hv).
  rewrite Hv, Qabs_Qmult, (Qabs_pos (2 ^ e)) by
    (apply Qlt_le_weak, pow2_pos).
  assert (Ha : Qabs (inject_Z m) < 2 ^ 53).
  { rewrite pow2_inject by lia. unfold inject_Z at 1.
    rewrite <- Zabs_Qabs. fold (inject_Z (Z.abs m)).
    rewrite <- Zlt_Qlt. exact Hm. }
  assert (Hp : 2 ^ e <= 2 ^ 971) by (apply pow2_le; lia).
  replace 1024%Z with (53 + 971)%Z by lia. rewrite (pow2_add 53 971).
  pose proof (pow2_pos e). pose proof (pow2_pos 53).
  pose proof (Qabs_nonneg (inject_Z m)).
  set (A := Qabs (inject_Z m)) in *. set (B := 2 ^ e) in *.
  set (K := 2 ^ 53) in *. set (T := 2 ^ 971) in *. nra.
Qed.

Lemma binary64_not_nan (x : Q) : binary64 x <> NaN.
Proof.
  unfold binary64. destruct (x ?= 0); [discriminate| |].
  - destruct (round_binary64_pos (- x)); discriminate.
  - destruct (round_binary64_pos x); discriminate.
Qed.

(** The quotient by 1000 of the ceiling of a binary64 number is finite
    in binary64. *)
Lemma int_div_1000_finite (p : Q) :
  is_binary64 p -> exists v, int_div_1000 (Qceiling p) = Fin v.
Proof.
  intros Hp. apply is_binary64_bound in Hp.
  unfold int_div_1000. apply binary64_finite.
  pose proof (Qle_ceiling p) as H1. pose proof (Qceiling_lt p) as H2.
  unfold Z.sub in H2. rewrite inject_Z_plus in H2.
  change (inject_Z (- (1))) with (- (1)) in H2.
  set (c := inject_Z (Qceiling p)) in *.
  assert (Hc : Qabs c < 2 ^ 1024 + 1).
  { revert Hp. apply Qabs_case; intros; apply Qabs_case; intros; lra. }
  assert (Hs : 2 ^ 1024 == 2 * 2 ^ 1023).
  { rewrite <- pow2_succ. reflexivity. }
  assert (H1023 : 1 <= 2 ^ 1023).
  { change 1 with (2 ^ 0). apply pow2_le. lia. }
  assert (E : c / 1000 == c * (1 # 1000)) by (field; discriminate).
  rewrite E, Qabs_Qmult. change (Qabs (1 # 1000)) with (1 # 1000).
  set (T := 2 ^ 1024) in *. set (U := 2 ^ 1023) in *.
  set (C := Qabs c) in *. lra.
Qed.

End Binary64.

(** ** The reporting branch *)

Section Reporting.

Context `{Collaborators}.

Lemma validate_eq self s :
  _validation_data self <> [] ->
  validate self s =
  (Ok (<["loss" := PyFloat (validation_loss_in self (ext s))]>
         (score_report self (ext s))),
   after_validate self s,
   validate_events self (ext s)).
Proof.
  intros Hne. unfold validate.
  rewrite (bind_ok _ _ _ _ _ _ (_evaluate_on_data_eq self _ s Hne)).
  unfold bind, callr, emit, ret, validate_events, score_report,
    validation_loss_in, validation_table, after_validate, with_ext.
  simpl. reflexivity.
Qed.

Lemma validate_empty (self : TrainModel) s :
  _validation_data self = [] ->
  outcome (validate self) s = Raise ValueError.
Proof. intros E. unfold validate. rewrite E. reflexivity. Qed.


Lemma getitem_loss (scores : gmap string pyval) v :
  getitem (<["loss" := v]> scores) "loss" = Ok v.
Proof. unfold getitem. rewrite lookup_insert_eq. reflexivity. Qed.

Lemma getitem_roc_auc (scores : gmap string pyval) v :
  getitem (<["loss" := v]> scores) "roc_auc" = getitem scores "roc_auc".
Proof.
  unfold getitem. rewrite lookup_insert_ne by discriminate. reflexivity.
Qed.

(** The report has no ["roc_auc"] entry: the branch raises [KeyError]
    after the train-log line. *)
Lemma report_stats_missing self step train_loss min_loss s :
  _validation_data self <> [] ->
  score_report self (ext s) !! "roc_auc" = None ->
  report_stats self step train_loss min_loss s =
  (Raise (KeyError "roc_auc"), after_validate self s,
   validate_events self (ext s) ++ [(None, TrainLog train_loss)]).
Proof.
  intros Hne Hroc. unfold report_stats, bind, lift, emit.
  rewrite validate_eq by exact Hne. cbv beta iota.
  rewrite getitem_loss. cbv beta iota.
  rewrite getitem_roc_auc. unfold getitem. rewrite Hroc. reflexivity.
Qed.

(** The report has a falsy ["roc_auc"] entry: "NA" is logged and the
    scheduler is not stepped. *)
Lemma report_stats_falsy self step train_loss min_loss s roc :
  _validation_data self <> [] ->
  score_report self (ext s) !! "roc_auc" = Some roc ->
  truthy roc = false ->
  let vl := validation_loss_in self (ext s) in
  report_stats self step train_loss min_loss s =
  (Ok (py_min vl min_loss),
   after_best step vl min_loss (after_validate self s),
   validate_events self (ext s)
     ++ [(None, TrainLog train_loss);
         (None, ValidationLog (PyFloat vl) None)]
     ++ best_events step train_loss vl min_loss (after_validate self s)).
Proof.
  intros Hne Hroc Hfalse vl. subst vl.
  unfold report_stats, bind, lift, emit.
  rewrite validate_eq by exact Hne. cbv beta iota.
  rewrite getitem_loss. cbv beta iota.
  rewrite getitem_roc_auc. unfold getitem. rewrite Hroc. cbv beta iota.
  rewrite Hfalse. cbv beta iota.
  unfold as_float, checkpoint_state, ask, _save_checkpoint, torch_save,
    copy_to_best, bind, emit, ret, best_events, after_best, checkpoint_in.
  cbv beta iota.
  destruct (float_lt (validation_loss_in self (ext s)) min_loss);
    simpl; reflexivity.
Qed.

(** [math.ceil(x * 1000.0) / 1000.0] when the product is finite, and when
    it is not. *)
Lemma quantize_finite q p :
  float_mul_1000 (Fin q) = Fin p ->
  quantize (Fin q) = Ok (int_div_1000 (Qceiling p)).
Proof. intros E. unfold quantize. rewrite E. reflexivity. Qed.

Lemma quantize_overflow q :
  (forall p, float_mul_1000 (Fin q) <> Fin p) ->
  quantize (Fin q) = Raise OverflowError.
Proof.
  intros Hp. unfold quantize.
  pose proof (binary64_not_nan (q * 1000)) as Hnan.
  change (float_mul_1000 (Fin q)) with (binary64 (q * 1000)) in *.
  destruct (binary64 (q * 1000)) as [p| | |];
    [exfalso; exact (Hp p eq_refl)|reflexivity|reflexivity|
     exfalso; exact (Hnan eq_refl)].
Qed.

(** The report has a truthy finite ["roc_auc"] entry whose quantisation
    is [v]: the value is logged and the scheduler is stepped with [v]. *)
Lemma report_stats_truthy self step train_loss min_loss s q v :
  _validation_data self <> [] ->
  score_report self (ext s) !! "roc_auc" = Some (PyFloat (Fin q)) ->
  truthy (PyFloat (Fin q)) = true ->
  quantize (Fin q) = Ok v ->
  let vl := validation_loss_in self (ext s) in
  let s1 := with_ext (scheduler_step v) (after_validate self s) in
  report_stats self step train_loss min_loss s =
  (Ok (py_min vl min_loss),
   after_best step vl min_loss s1,
   validate_events self (ext s)
     ++ [(None, TrainLog train_loss);
         (None, ValidationLog (PyFloat vl) (Some (PyFloat (Fin q))));
         (None, SchedulerStep v)]
     ++ best_events step train_loss vl min_loss s1).
Proof.
  intros Hne Hroc Htrue Hq vl s1. subst vl s1.
  unfold report_stats, bind, lift, emit.
  rewrite validate_eq by exact Hne. cbv beta iota.
  rewrite getitem_loss. cbv beta iota.
  rewrite getitem_roc_auc. unfold getitem. rewrite Hroc. cbv beta iota.
  rewrite Htrue. cbv beta iota.
  unfold as_float. cbv beta iota. rewrite Hq. cbv beta iota.
  unfold call, checkpoint_state, ask, _save_checkpoint, torch_save,
    copy_to_best, bind, emit, ret, best_events, after_best, checkpoint_in.
  cbv beta iota.
  destruct (float_lt (validation_loss_in self (ext s)) min_loss);
    reflexivity.
Qed.

(** The report has a truthy finite ["roc_auc"] entry whose quantisation
    raises: the branch raises after the validation-log line. *)
Lemma report_stats_quantize_raises self step train_loss min_loss s q e :
  _validation_data self <> [] ->
  score_report self (ext s) !! "roc_auc" = Some (PyFloat (Fin q)) ->
  truthy (PyFloat (Fin q)) = true ->
  quantize (Fin q) = Raise e ->
  report_stats self step train_loss min_loss s =
  (Raise e, after_validate self s,
   validate_events self (ext s)
     ++ [(None, TrainLog train_loss);
         (None, ValidationLog (PyFloat (validation_loss_in self (ext s)))
                              (Some (PyFloat (Fin q))))]).
Proof.
  intros Hne Hroc Htrue Hq.
  unfold report_stats, bind, lift, emit.
  rewrite validate_eq by exact Hne. cbv beta iota.
  rewrite getitem_loss. cbv beta iota.
  rewrite getitem_roc_auc. unfold getitem. rewrite Hroc. cbv beta iota.
  rewrite Htrue. cbv beta iota.
  unfold as_float. cbv beta iota. rewrite Hq. reflexivity.
Qed.

End Reporting.

Section ReportingEvents.

Context `{Collaborators}.

Lemma filter_validate_events p self w :
  p ModelEval = false -> p TensorsCuda = false -> p Forward = false ->
  (forall l, p (Criterion l) = false) -> p MetricsUpdate = false ->
  (forall m, p (Log m) = false) ->
  List.filter p (map snd (validate_events self w)) = [].
Proof.
  intros H1 H2 H3 H4 H5 H6. unfold validate_events. simpl. rewrite H1.
  rewrite map_app, List.filter_app. simpl. rewrite H5, H6, app_nil_r.
  induction (_validation_data self) as [|b l IH]; simpl; [reflexivity|].
  rewrite map_app, List.filter_app, IH, app_nil_r.
  unfold batch_events. destruct (use_cuda self); simpl;
    rewrite ?H2, ?H3, ?H4; reflexivity.
Qed.

(** What the loop may do. *)
Lemma only_loop_body self step min_loss :
  only (fun e => outside_loop e = false) (loop_body self step min_loss).
Proof.
  intros s.
  destruct (loop_body_split self step min_loss s) as (rest & E & Hrest).
  rewrite E. apply Forall_app. split.
  - destruct (train_run self s) as (loss & s' & Et). unfold trace.
    rewrite Et. destruct (use_cuda self); repeat constructor.
  - unfold loop_body in E. rewrite trace_bind in E.
    apply app_inv_head in E. subst rest.
    destruct (outcome (train self) s) as [train_loss|e]; [|constructor].
    apply (only_apply (fun e => outside_loop e = false)).
    apply only_bind.
    { destruct (step =? 0); [apply only_ret|].
      apply only_bind; [apply only_lift|]. intros ?. apply only_ret. }
    intros reporting. apply only_bind.
    { destruct reporting; [|apply only_ret].
      apply only_report_stats; intros; reflexivity. }
    intros m. apply only_bind; [apply only_lift|]. intros r.
    apply only_bind; [|intros; apply only_ret].
    destruct (r =? 0); [|apply only_ret].
    unfold checkpoint_state. apply only_bind; [apply only_ask|]. intros st.
    apply only_save_checkpoint; intros; reflexivity.
Qed.

Lemma only_for_steps self steps : forall min_loss,
  only (fun e => outside_loop e = false) (for_steps self steps min_loss).
Proof.
  induction steps as [|i rest IH]; intros m; simpl.
  - apply only_ret.
  - apply only_bind; [apply only_at_step, only_loop_body|]. intros m'.
    apply IH.
Qed.

(** The run creates one scheduler: mode ["max"], patience 16, factor
    0.8. *)
Lemma one_scheduler self s :
  List.filter is_scheduler_new (map snd (trace (train_and_validate self) s))
  = [SchedulerNew "max" 16 (8 # 10)].
Proof.
  rewrite train_and_validate_trace. simpl. f_equal.
  rewrite map_app, List.filter_app.
  rewrite (filter_none is_scheduler_new).
  - destruct (is_ok _); reflexivity.
  - eapply Forall_impl; [apply only_for_steps|].
    intros [tag []] He; simpl in *; try reflexivity; discriminate He.
Qed.

(** A finite score whose product with 1000.0 is not finite: the branch
    raises [OverflowError] after the validation-log line, and the
    scheduler is not stepped. *)
Lemma overflow_of_product self step train_loss min_loss s q :
  _validation_data self <> [] ->
  score_report self (ext s) !! "roc_auc" = Some (PyFloat (Fin q)) ->
  truthy (PyFloat (Fin q)) = true ->
  (forall p, float_mul_1000 (Fin q) <> Fin p) ->
  outcome (report_stats self step train_loss min_loss) s
  = Raise OverflowError /\
  List.filter is_scheduler_step
    (map snd (trace (report_stats self step train_loss min_loss) s)) = [].
Proof.
  intros Hne Hroc Htrue Hp. unfold outcome, trace.
  rewrite (report_stats_quantize_raises self step train_loss min_loss s q
             OverflowError Hne Hroc Htrue (quantize_overflow q Hp)).
  cbn [fst snd]. split; [reflexivity|].
  rewrite !map_app, !List.filter_app.
  rewrite !filter_validate_events by (intros; reflexivity).
  reflexivity.
Qed.

End ReportingEvents.

(** ** The secondary metric *)

(** C2 on a run whose score report has no ["roc_auc"] entry, with
    [max_steps = 10] and both cadences 5: the reporting branch of step 5
    raises [KeyError] out of the loop after the train-log line; no
    validation-log line is written, nothing is checkpointed at step 5 and
    steps 6 to 9 are not run. *)
Theorem missing_roc_auc_raises_key_error :
  let t := trace (train_and_validate self_without_roc_auc)
                 (@initial_state demo_without_roc_auc O) in
  outcome (train_and_validate self_without_roc_auc)
          (@initial_state demo_without_roc_auc O)
  = Raise (KeyError "roc_auc") /\
  steps_driven t = [0; 1; 2; 3; 4; 5] /\
  steps_of is_train_log t = [5] /\
  steps_of is_validation_log t = [] /\
  steps_of is_scheduler_step t = [] /\
  steps_of is_torch_save t = [0].
Proof. vm_compute. repeat split; reflexivity. Qed.

(** C10: when the report holds a falsy ["roc_auc"] value (0 and [None]
    are such values), the reporting branch returns, its validation-log
    line is the one with the sentinel "NA", and the scheduler is not
    stepped. *)
Theorem falsy_roc_auc_is_treated_as_absent `{Collaborators}
    self step train_loss min_loss s roc :
  _validation_data self <> [] ->
  score_report self (ext s) !! "roc_auc" = Some roc ->
  truthy roc = false ->
  let t := map snd (trace (report_stats self step train_loss min_loss) s) in
  is_ok (outcome (report_stats self step train_loss min_loss) s) = true /\
  List.filter is_validation_log t
  = [ValidationLog (PyFloat (validation_loss_in self (ext s))) None] /\
  List.filter is_scheduler_step t = [] /\
  truthy (PyFloat (Fin 0)) = false /\ truthy PyNone = false.
Proof.
  intros Hne Hroc Hfalse t. subst t. unfold outcome, trace.
  rewrite (report_stats_falsy self step train_loss min_loss s roc Hne Hroc
             Hfalse).
  cbn [fst snd].
  rewrite !map_app, !List.filter_app.
  rewrite !filter_validate_events by (intros; reflexivity).
  unfold best_events.
  destruct (float_lt (validation_loss_in self (ext s)) min_loss);
    repeat split; reflexivity.
Qed.

Lemma falsy_roc_auc_is_treated_as_absent_witness :
  List.filter is_scheduler_step
    (map snd (trace (report_stats (demo_self 0 10 5 5) 5 (Fin 1) PInf)
                    (@initial_state demo 2%nat)))
  = [].
Proof.
  apply (@falsy_roc_auc_is_treated_as_absent demo (demo_self 0 10 5 5) 5
           (Fin 1) PInf (@initial_state demo 2%nat) (PyFloat (Fin 0))).
  - discriminate.
  - vm_compute. reflexivity.
  - reflexivity.
Defined.

(** C4, as stated, fails: for the reported score 2049/4096
    (0.500244...), the run hands the float 0.501 to the scheduler, which
    is not that score rounded to three decimal digits (0.5). *)
Lemma scheduler_value_is_not_rounded :
  score_report (demo_self 0 10 5 5) O !! "roc_auc"
  = Some (PyFloat (Fin (2049 # 4096))) /\
  List.filter is_scheduler_step
    (map snd (trace (train_and_validate (demo_self 0 10 5 5)) demo_state))
  = [SchedulerStep (Fin (4512606826625237 # 9007199254740992))] /\
  ~ rounded_to_3_decimals (2049 # 4096)
      (4512606826625237 # 9007199254740992).
Proof.
  split; [reflexivity|]. split; [reflexivity|].
  intros (n & Hn & Hnear).
  assert (En : n = 500).
  { apply Qabs_Qle_condition in Hn. destruct Hn as [H1 H2].
    unfold Qle, Qminus, Qplus, Qopp, Qdiv, Qmult, Qinv, inject_Z in H1, H2.
    simpl in H1, H2. lia. }
  subst n.
  assert (Hhalf : is_binary64 (inject_Z 500 / 1000)).
  { exists 1, (-1). split; [reflexivity|]. split; [lia|reflexivity]. }
  pose proof (nearest_binary64_exact _ _ Hhalf Hnear) as E.
  vm_compute in E. discriminate E.
Qed.

(** C4, as the code has it: when the report holds a truthy finite
    ["roc_auc"] value [q], the scheduler is stepped once, with
    [math.ceil(q * 1000.0) / 1000.0] as binary64 arithmetic evaluates it:
    the product is rounded to a nearest binary64 number [p], and the
    quotient by 1000 of the least integer not below [p] is rounded again.
    When the product [q * 1000] is itself a binary64 number, this is the
    float that stands for [q] rounded up to three decimal digits.  The
    product overflows only for [|q * 1000| >= 2 ^ 1023]; the branch then
    raises [OverflowError] and the scheduler is not stepped.  The
    scheduler of a run is created with mode ["max"], a patience of 16 and
    a factor of 0.8. *)
Theorem scheduler_gets_ceiling_of_thousandths `{Collaborators}
    self step train_loss min_loss s (q : Q) :
  _validation_data self <> [] ->
  score_report self (ext s) !! "roc_auc" = Some (PyFloat (Fin q)) ->
  truthy (PyFloat (Fin q)) = true ->
  let t := map snd (trace (report_stats self step train_loss min_loss) s) in
  ((exists v,
       List.filter is_scheduler_step t = [SchedulerStep (Fin v)] /\
       ceil_of_thousandths q v /\
       (is_binary64 (q * 1000) -> rounded_up_to_3_decimals q v)) \/
   ((2 ^ 1023 <= Qabs (q * 1000))%Q /\
    outcome (report_stats self step train_loss min_loss) s
    = Raise OverflowError /\
    List.filter is_scheduler_step t = [])) /\
  List.filter is_scheduler_new (map snd (trace (train_and_validate self) s))
  = [SchedulerNew "max" 16 (8 # 10)].
Proof.
  intros Hne Hroc Htrue t. subst t. split; [|apply one_scheduler].
  assert (Hover : (forall p, float_mul_1000 (Fin q) <> Fin p) ->
                  (2 ^ 1023 <= Qabs (q * 1000))%Q /\
                  outcome (report_stats self step train_loss min_loss) s
                  = Raise OverflowError /\
                  List.filter is_scheduler_step
                    (map snd (trace (report_stats self step train_loss
                                       min_loss) s)) = []).
  { intros Hnot.
    split; [|apply (overflow_of_product self step train_loss min_loss s q);
             assumption].
    destruct (Qlt_le_dec (Qabs (q * 1000)) (2 ^ 1023)) as [Hlt|Hle];
      [|exact Hle].
    destruct (binary64_finite _ Hlt) as [v Hv]. exfalso. exact (Hnot v Hv). }
  destruct (float_mul_1000 (Fin q)) as [p| | |] eqn:Hp.
  - left.
    assert (Hnp : nearest_binary64 (q * 1000) p)
      by (apply binary64_nearest; exact Hp).
    destruct (int_div_1000_finite p (proj1 Hnp)) as [v Hv].
    assert (Hnv : nearest_binary64 (inject_Z (Qceiling p) / 1000) v)
      by (apply binary64_nearest; exact Hv).
    exists v. split; [|split].
    + unfold trace.
      rewrite (report_stats_truthy self step train_loss min_loss s q (Fin v)
                 Hne Hroc Htrue)
        by (rewrite (quantize_finite q p Hp), Hv; reflexivity).
      cbn [fst snd].
      rewrite !map_app, !List.filter_app.
      rewrite !filter_validate_events by (intros; reflexivity).
      unfold best_events.
      destruct (float_lt (validation_loss_in self (ext s)) min_loss);
        reflexivity.
    + exists p. split; assumption.
    + intros Hex. exists (Qceiling p). split; [|exact Hnv].
      pose proof (nearest_binary64_exact _ _ Hex Hnp) as E.
      pose proof (Qle_ceiling p) as H1. pose proof (Qceiling_lt p) as H2.
      unfold Z.sub in H2. rewrite inject_Z_plus in H2.
      change (inject_Z (- (1))) with (- (1))%Q in H2.
      rewrite <- E. split; lra.
  - right. apply Hover. intros p. discriminate.
  - right. apply Hover. intros p. discriminate.
  - exfalso. exact (binary64_not_nan (q * 1000) Hp).
Qed.

(** Two floats on which the rounding shows: the product of the float
    0.9 (which lies above 9/10) with 1000.0 rounds to 900.0, so the
    scheduler gets the float 0.9 back, not 0.901; the product of
    [2 ^ 1020] with 1000.0 is an infinity, on which [math.ceil] raises. *)
Lemma quantize_rounds_and_overflows :
  quantize (Fin (8106479329266893 # 9007199254740992))
  = Ok (Fin (8106479329266893 # 9007199254740992)) /\
  float_mul_1000 (Fin (8106479329266893 # 9007199254740992)) = Fin 900 /\
  quantize (Fin (inject_Z (2 ^ 1020))) = Raise OverflowError.
Proof. repeat split; vm_compute; reflexivity. Qed.

Lemma scheduler_gets_ceiling_of_thousandths_witness :
  exists v,
    List.filter is_scheduler_step
      (map snd (trace (report_stats (demo_self 0 10 5 5) 5 (Fin 1) PInf)
                      demo_state))
    = [SchedulerStep (Fin v)] /\
    ceil_of_thousandths (2049 # 4096) v /\
    rounded_up_to_3_decimals (2049 # 4096) v.
Proof.
  destruct (@scheduler_gets_ceiling_of_thousandths demo (demo_self 0 10 5 5)
              5 (Fin 1) PInf demo_state (2049 # 4096))
    as [[(v & Hs & Hc & Hup)|(Hbig & _)] _].
  - discriminate.
  - vm_compute. reflexivity.
  - reflexivity.
  - exists v. split; [exact Hs|]. split; [exact Hc|]. apply Hup.
    exists 2049000, (-12). split; [reflexivity|]. split; [lia|reflexivity].
  - exfalso. revert Hbig. apply Qlt_not_le. vm_compute. reflexivity.
Defined.

(** ** Cadences *)

Section Cadences.

Context `{Collaborators}.

Lemma filter_validation_pass self w :
  List.filter is_validation_pass (map snd (validate_events self w))
  = [ModelEval].
Proof.
  unfold validate_events. simpl. f_equal.
  rewrite map_app, List.filter_app. simpl. rewrite app_nil_r.
  induction (_validation_data self) as [|b l IH]; simpl; [reflexivity|].
  rewrite map_app, List.filter_app, IH, app_nil_r.
  unfold batch_events. destruct (use_cuda self); reflexivity.
Qed.

(** A reporting interval whose report holds the secondary metric: the
    branch returns after one validation pass, one train-log line, one
    validation-log line, one best evaluation and one checkpoint write. *)
Lemma report_stats_profile self step train_loss min_loss s :
  _validation_data self <> [] ->
  reports_roc_auc self ->
  let t := map snd (trace (report_stats self step train_loss min_loss) s) in
  is_ok (outcome (report_stats self step train_loss min_loss) s) = true /\
  count_events is_validation_pass t = 1%nat /\
  count_events is_train_log t = 1%nat /\
  count_events is_validation_log t = 1%nat /\
  count_events is_best_evaluated t = 1%nat /\
  count_events is_torch_save t = 1%nat.
Proof.
  intros Hne Hrep t. subst t.
  destruct (Hrep (ext s)) as (roc & Hroc & Hcase).
  assert (Hsplit : truthy roc = false \/
                   exists q p, roc = PyFloat (Fin q) /\
                               float_mul_1000 (Fin q) = Fin p /\
                               truthy roc = true).
  { destruct Hcase as [->|(q & p & -> & Hp)]; [left; reflexivity|].
    destruct (truthy (PyFloat (Fin q))) eqn:E; [right|left; reflexivity].
    exists q, p. split; [reflexivity|]. split; [exact Hp|reflexivity]. }
  unfold outcome, trace, count_events.
  destruct Hsplit as [Hfalse|(q & p & -> & Hp & Htrue)].
  - rewrite (report_stats_falsy self step train_loss min_loss s roc Hne Hroc
               Hfalse).
    cbn [fst snd]. rewrite !map_app, !List.filter_app.
    rewrite filter_validation_pass.
    rewrite !filter_validate_events by (intros; reflexivity).
    unfold best_events.
    destruct (float_lt (validation_loss_in self (ext s)) min_loss);
      repeat split; reflexivity.
  - rewrite (report_stats_truthy self step train_loss min_loss s q _ Hne
               Hroc Htrue (quantize_finite q p Hp)).
    cbn [fst snd]. rewrite !map_app, !List.filter_app.
    rewrite filter_validation_pass.
    rewrite !filter_validate_events by (intros; reflexivity).
    unfold best_events.
    destruct (float_lt (validation_loss_in self (ext s)) min_loss);
      repeat split; reflexivity.
Qed.

Lemma run_ret {A : Type} (a : A) s :
  outcome (ret a) s = Ok a /\ final (ret a) s = s /\ trace (ret a) s = [].
Proof. repeat split. Qed.

Lemma run_lift {A : Type} (r : result A) s :
  outcome (lift r) s = r /\ final (lift r) s = s /\ trace (lift r) s = [].
Proof. repeat split. Qed.

Lemma run_save_plain state s :
  outcome (_save_checkpoint state false) s = Ok tt /\
  trace (_save_checkpoint state false) s =
  [(None, Log (LogSaving (ck_step state))); (None, TorchSave state)].
Proof. split; reflexivity. Qed.

(** The part of an iteration that follows the reporting branch. *)
Lemma saving_part self step (min_loss : pyfloat) s :
  nth_step_save_checkpoint self <> 0 ->
  let m :=
    (r <- lift (py_mod step (nth_step_save_checkpoint self)) ;;
     (if r =? 0 then
        state <- checkpoint_state step min_loss ;;
        _save_checkpoint state false
      else ret tt) ;;;
     ret min_loss) in
  outcome m s = Ok min_loss /\
  map snd (trace m s) =
  if saving_step self step
  then [Log (LogSaving step); TorchSave (checkpoint_in step min_loss s)]
  else [].
Proof.
  intros Hc m. subst m. unfold saving_step, py_mod.
  destruct (Z.eqb_spec (nth_step_save_checkpoint self) 0); [contradiction|].
  unfold outcome, trace, bind, lift, ret, checkpoint_state, ask,
    _save_checkpoint, emit, torch_save, checkpoint_in.
  cbn [fst snd].
  destruct (step mod nth_step_save_checkpoint self =? 0); split; reflexivity.
Qed.

(** The condition [step and step % self.nth_step_report_stats == 0]. *)
Lemma reporting_condition self step s :
  nth_step_report_stats self <> 0 ->
  let c :=
    (if step =? 0 then ret false
     else r <- lift (py_mod step (nth_step_report_stats self)) ;;
          ret (r =? 0)) in
  outcome c s = Ok (reporting_step self step) /\
  final c s = s /\ trace c s = [].
Proof.
  intros Hr c. subst c. unfold reporting_step, py_mod.
  destruct (Z.eqb_spec (nth_step_report_stats self) 0); [contradiction|].
  destruct (step =? 0); repeat split.
Qed.

(** The events of one iteration when both cadences are non-zero: the
    training step, the reporting branch at a reporting step, and, unless
    that branch raised, one more checkpoint write at a saving step. *)
Lemma loop_body_events self step min_loss s :
  nth_step_report_stats self <> 0 ->
  nth_step_save_checkpoint self <> 0 ->
  exists train_loss,
    outcome (train self) s = Ok train_loss /\
    let s1 := final (train self) s in
    let report := report_stats self step train_loss min_loss in
    if reporting_step self step then
      match outcome report s1 with
      | Ok m' =>
          is_ok (outcome (loop_body self step min_loss) s) = true /\
          map snd (trace (loop_body self step min_loss) s) =
          map snd (trace (train self) s) ++ map snd (trace report s1)
            ++ (if saving_step self step
                then [Log (LogSaving step);
                      TorchSave (checkpoint_in step m' (final report s1))]
                else [])
      | Raise e =>
          outcome (loop_body self step min_loss) s = Raise e /\
          map snd (trace (loop_body self step min_loss) s) =
          map snd (trace (train self) s) ++ map snd (trace report s1)
      end
    else
      is_ok (outcome (loop_body self step min_loss) s) = true /\
      map snd (trace (loop_body self step min_loss) s) =
      map snd (trace (train self) s)
        ++ (if saving_step self step
            then [Log (LogSaving step);
                  TorchSave (checkpoint_in step min_loss s1)]
            else []).
Proof.
  intros Hr Hc.
  destruct (train_run self s) as (train_loss & s1 & E).
  exists train_loss.
  assert (Eo : outcome (train self) s = Ok train_loss)
    by (unfold outcome; rewrite E; reflexivity).
  assert (Ef : final (train self) s = s1)
    by (unfold final; rewrite E; reflexivity).
  split; [exact Eo|]. cbv zeta. rewrite Ef.
  unfold loop_body. rewrite trace_bind, outcome_bind, Eo, Ef.
  rewrite map_app.
  rewrite trace_bind, outcome_bind.
  destruct (reporting_condition self step s1 Hr) as (-> & -> & ->).
  cbn [app]. rewrite trace_bind, outcome_bind.
  destruct (reporting_step self step).
  - destruct (outcome (report_stats self step train_loss min_loss) s1)
      as [m'|e].
    + destruct (saving_part self step m'
                  (final (report_stats self step train_loss min_loss) s1)
                  Hc) as [Ho Ht].
      rewrite Ho, map_app, Ht. split; reflexivity.
    + rewrite app_nil_r. split; reflexivity.
  - destruct (run_ret min_loss s1) as (-> & -> & ->).
    destruct (saving_part self step min_loss s1 Hc) as [Ho Ht].
    rewrite Ho. cbn [app]. rewrite Ht. split; reflexivity.
Qed.

(** The profile of one iteration when both cadences are non-zero and the
    reports hold the secondary metric. *)
Lemma loop_body_profile self step min_loss s :
  nth_step_report_stats self <> 0 ->
  nth_step_save_checkpoint self <> 0 ->
  _validation_data self <> [] ->
  reports_roc_auc self ->
  let t := map snd (trace (loop_body self step min_loss) s) in
  let once := if reporting_step self step then 1%nat else 0%nat in
  is_ok (outcome (loop_body self step min_loss) s) = true /\
  count_events is_torch_save t
  = (once + if saving_step self step then 1 else 0)%nat /\
  count_events is_validation_pass t = once /\
  count_events is_train_log t = once /\
  count_events is_validation_log t = once /\
  count_events is_best_evaluated t = once.
Proof.
  intros Hr Hc Hne Hrep t once. subst t once.
  destruct (loop_body_events self step min_loss s Hr Hc)
    as (train_loss & _ & Hev). cbv zeta in Hev.
  assert (Htrain : forall p,
             (forall e, is_training e = true -> p e = false) ->
             p (Log (LogBatchSampled (batch_size self))) = false ->
             p TensorsCuda = false -> p Forward = false ->
             (forall l, p (Criterion l) = false) ->
             List.filter p (map snd (trace (train self) s)) = []).
  { intros p. apply filter_train_none. }
  destruct (report_stats_profile self step train_loss min_loss
              (final (train self) s) Hne Hrep)
    as (Hok & H1 & H2 & H3 & H4 & H5).
  unfold count_events in *.
  destruct (reporting_step self step).
  - destruct (outcome (report_stats self step train_loss min_loss)
                      (final (train self) s)) as [m'|e]; [|discriminate Hok].
    destruct Hev as [Ho Ht]. rewrite Ht. split; [exact Ho|].
    rewrite !List.filter_app, !length_app, H1, H2, H3, H4, H5.
    rewrite !Htrain by
      (try reflexivity; intros [] He; try reflexivity; discriminate He).
    destruct (saving_step self step); repeat split; reflexivity.
  - destruct Hev as [Ho Ht]. rewrite Ht. split; [exact Ho|].
    rewrite !List.filter_app, !length_app.
    rewrite !Htrain by
      (try reflexivity; intros [] He; try reflexivity; discriminate He).
    destruct (saving_step self step); repeat split; reflexivity.
Qed.

End Cadences.

(** C7, as stated, fails: the claim has no condition on the validation
    set or on the score reports.  Over a sampler without validation
    example the construction returns an object with [max_steps = 10] and
    both cadences 5, and its run raises [ValueError] at step 5: the only
    checkpoint is the one of step 0 and no train-log line is written. *)
Lemma cadence_claim_fails :
  let self :=
    @Build_TrainModel demo_without_validation 4 10 5 5 false false [] []
      None 0 PInf ∅ in
  let s := final (@__init__ demo_without_validation
                    (@args_of demo_without_validation 4 10 5 (Some 5) None))
                 (@initial_state demo_without_validation O) in
  outcome (@__init__ demo_without_validation
             (@args_of demo_without_validation 4 10 5 (Some 5) None))
          (@initial_state demo_without_validation O)
  = Ok self /\
  outcome (train_and_validate self) s = Raise ValueError /\
  steps_of is_torch_save (trace (train_and_validate self) s) = [0] /\
  steps_of is_train_log (trace (train_and_validate self) s) = [] /\
  ~ cadence_claim self s.
Proof.
  cbv zeta. split; [reflexivity|]. split; [reflexivity|].
  split; [reflexivity|]. split; [reflexivity|].
  intros (_ & _ & Hlog & _).
  assert (Hne : (@nil Z) <> [5]) by discriminate.
  apply Hne. rewrite <- Hlog. reflexivity.
Qed.

(** C7, as the code has it: with [max_steps = 10] and both cadences 5, a
    run from step 0 over a non-empty validation set whose score reports
    hold the secondary metric returns after the steps 0 to 9; checkpoints
    are written at steps 0 and 5 only (two writes at step 5: the one of
    the reporting branch and the one of the checkpoint cadence); step 5,
    and no other step, has one validation pass, one train-log line, one
    validation-log line and one best evaluation. *)
Theorem cadence_scenario `{Collaborators} self s :
  _start_step self = 0 ->
  max_steps self = 10 ->
  nth_step_report_stats self = 5 ->
  nth_step_save_checkpoint self = 5 ->
  _validation_data self <> [] ->
  reports_roc_auc self ->
  let t := trace (train_and_validate self) s in
  is_ok (outcome (train_and_validate self) s) = true /\
  steps_driven t = [0; 1; 2; 3; 4; 5; 6; 7; 8; 9] /\
  steps_of is_torch_save t = [0; 5; 5] /\
  steps_of is_validation_pass t = [5] /\
  steps_of is_train_log t = [5] /\
  steps_of is_validation_log t = [5] /\
  steps_of is_best_evaluated t = [5] /\
  cadence_claim self s.
Proof.
  intros Hs Hm Hr Hc Hne Hrep t. subst t.
  assert (Hr0 : nth_step_report_stats self <> 0) by lia.
  assert (Hc0 : nth_step_save_checkpoint self <> 0) by lia.
  assert (Hok : is_ok (outcome (train_and_validate self) s) = true).
  { rewrite train_and_validate_outcome. apply for_steps_ok.
    intros i _ m s'. apply loop_body_profile; assumption. }
  split; [exact Hok|]. split.
  { unfold steps_driven.
    rewrite once_per_step by (apply loop_body_train_calls || exact Hok).
    rewrite Hs, Hm. reflexivity. }
  unfold cadence_claim.
  rewrite train_and_validate_outcome in Hok.
  rewrite !steps_of_train_and_validate.
  set (once := fun i : Z =>
                 if negb (i =? 0) && (i mod 5 =? 0) then 1%nat else 0%nat).
  assert (Honce : forall i, (if reporting_step self i then 1%nat else 0%nat)
                            = once i).
  { intros i. unfold reporting_step, once. rewrite Hr. reflexivity. }
  rewrite (for_steps_steps_of self is_torch_save
             (fun i => (once i + (if (i mod 5 =? 0)%Z then 1 else 0))%nat));
    [| |exact Hok].
  2:{ intros i _ m s' _. rewrite <- Honce.
      destruct (loop_body_profile self i m s' Hr0 Hc0 Hne Hrep)
        as (_ & -> & _). unfold saving_step. rewrite Hc. reflexivity. }
  rewrite (for_steps_steps_of self is_validation_pass once); [| |exact Hok].
  2:{ intros i _ m s' _. rewrite <- Honce.
      apply (loop_body_profile self i m s' Hr0 Hc0 Hne Hrep). }
  rewrite (for_steps_steps_of self is_train_log once); [| |exact Hok].
  2:{ intros i _ m s' _. rewrite <- Honce.
      apply (loop_body_profile self i m s' Hr0 Hc0 Hne Hrep). }
  rewrite (for_steps_steps_of self is_validation_log once); [| |exact Hok].
  2:{ intros i _ m s' _. rewrite <- Honce.
      apply (loop_body_profile self i m s' Hr0 Hc0 Hne Hrep). }
  rewrite (for_steps_steps_of self is_best_evaluated once); [| |exact Hok].
  2:{ intros i _ m s' _. rewrite <- Honce.
      apply (loop_body_profile self i m s' Hr0 Hc0 Hne Hrep). }
  rewrite Hs, Hm.
  repeat (split; [reflexivity|]).
  split; [|repeat split; reflexivity].
  intros i. change (In i [0; 5; 5] <-> i = 0 \/ i = 5). simpl. intuition.
Qed.

Lemma cadence_scenario_witness :
  steps_of is_torch_save
    (trace (train_and_validate (demo_self 0 10 5 5)) demo_state)
  = [0; 5; 5] /\
  cadence_claim (demo_self 0 10 5 5) demo_state.
Proof.
  destruct (@cadence_scenario demo (demo_self 0 10 5 5) demo_state)
    as (_ & _ & H1 & _ & _ & _ & _ & H2).
  - reflexivity.
  - reflexivity.
  - reflexivity.
  - reflexivity.
  - discriminate.
  - intros w. unfold score_report. simpl.
    destruct w as [|[|[|[|[|w]]]]]; simpl; unfold report_with;
      eexists; (split; [apply lookup_insert_eq|]);
      first [left; reflexivity
            |right; eexists; eexists; split; [reflexivity|];
             lazy; reflexivity].
  - split; assumption.
Defined.

(** ** Order on floats *)

Section FloatOrder.








Lemma float_lt_not_nan_r a b : float_lt a b = true -> is_nan b = false.
Proof. destruct a, b; simpl; try discriminate; reflexivity. Qed.





End FloatOrder.

(** ** The best checkpoint slot *)

Section BestCheckpoint.

Context `{Collaborators}.








Lemma map_snd_at_step {A : Type} i (m : M A) s :
  map snd (trace (at_step i m) s) = map snd (trace m s).
Proof.
  rewrite trace_at_step, map_map. reflexivity.
Qed.



End BestCheckpoint.




(** ** Further properties of the run *)

Section RunEdges.

Context `{Collaborators}.

Lemma filter_outside_loop_none p self steps min_loss s :
  (forall e, outside_loop e = false -> p e = false) ->
  List.filter p (map snd (trace (for_steps self steps min_loss) s)) = [].
Proof.
  intros Hp. apply filter_none.
  eapply Forall_impl; [apply only_for_steps|].
  intros te Hte. apply Hp. exact Hte.
Qed.

End RunEdges.

(** X1: the sampler's train dataset is finalised
    ([save_dataset_to_file("train", close_filehandle=True)]) exactly once,
    as the last thing the run does, when the run returns, and not at all
    when an exception leaves the loop. *)
Theorem sampler_finalised_iff_run_returns `{Collaborators} self s :
  let t := map snd (trace (train_and_validate self) s) in
  List.filter is_save_dataset t
  = (if is_ok (outcome (train_and_validate self) s)
     then [SaveDataset "train" true] else []) /\
  (is_ok (outcome (train_and_validate self) s) = true ->
   exists before, t = before ++ [SaveDataset "train" true]).
Proof.
  cbv zeta. rewrite train_and_validate_outcome, train_and_validate_trace.
  set (loop := for_steps self _ _).
  assert (Hloop : List.filter is_save_dataset
                    (map snd (trace loop (loop_start self s))) = []).
  { apply filter_outside_loop_none.
    intros [] He; try reflexivity; discriminate He. }
  split.
  - cbn [app map snd List.filter is_save_dataset].
    rewrite map_app, List.filter_app, Hloop.
    destruct (is_ok _); reflexivity.
  - intros Hok. rewrite Hok.
    exists ([Log (LogTrainStart (max_steps self) (batch_size self));
             SchedulerNew "max" 16 (8 # 10)]
              ++ map snd (trace loop (loop_start self s))).
    rewrite !map_app, <- app_assoc. reflexivity.
Qed.

(** X2: when [max_steps <= start_step] the loop body never runs: the run
    returns after logging its start, creating the scheduler and
    finalising the sampler's train dataset; no training step, no
    validation, and both checkpoint slots are left as they were. *)
Theorem run_over_empty_range `{Collaborators} self s :
  max_steps self <= _start_step self ->
  outcome (train_and_validate self) s = Ok tt /\
  map snd (trace (train_and_validate self) s)
  = [Log (LogTrainStart (max_steps self) (batch_size self));
     SchedulerNew "max" 16 (8 # 10); SaveDataset "train" true] /\
  latest (final (train_and_validate self) s) = latest s /\
  best (final (train_and_validate self) s) = best s.
Proof.
  intros Hle. unfold train_and_validate, outcome, final, trace.
  rewrite (py_range_empty _ _ Hle). repeat split.
Qed.

Lemma run_over_empty_range_witness :
  map snd (trace (train_and_validate (demo_self 7 3 5 5)) demo_state)
  = [Log (LogTrainStart 3 4); SchedulerNew "max" 16 (8 # 10);
     SaveDataset "train" true].
Proof.
  apply (@run_over_empty_range demo (demo_self 7 3 5 5) demo_state).
  simpl. lia.
Defined.

(** X3: [validate] returns the report of the scoring engine with
    ["loss"] set to the average validation loss: the entry replaces a
    ["loss"] entry of the scoring engine, every other metric is passed
    through unchanged, and neither checkpoint slot is touched. *)
Theorem validate_adds_the_loss `{Collaborators} self s :
  _validation_data self <> [] ->
  exists report,
    outcome (validate self) s = Ok report /\
    report !! "loss" = Some (PyFloat (validation_loss_in self (ext s))) /\
    (forall key, key <> "loss" ->
                 report !! key = score_report self (ext s) !! key) /\
    latest (final (validate self) s) = latest s /\
    best (final (validate self) s) = best s.
Proof.
  intros Hne. unfold outcome, final. rewrite (validate_eq self s Hne).
  eexists. split; [reflexivity|]. split; [apply lookup_insert_eq|].
  split; [|split; reflexivity].
  intros key Hkey. apply lookup_insert_ne. congruence.
Qed.

Lemma validate_adds_the_loss_witness :
  exists report,
    outcome (validate (demo_self 0 10 5 5)) demo_state = Ok report /\
    report !! "loss"
    = Some (PyFloat (validation_loss_in (demo_self 0 10 5 5) O)).
Proof.
  destruct (@validate_adds_the_loss demo (demo_self 0 10 5 5) demo_state)
    as (report & Hok & Hloss & _).
  - discriminate.
  - exists report. split; assumption.
Defined.

(** X4: [_evaluate_on_data] changes nothing but the mode of the model:
    whatever the batch set (the empty one included) it leaves the
    collaborators as [model.eval()] leaves them, keeps both checkpoint
    slots, and makes no call of the training step (no sampling, no
    gradient reset, no backward pass, no optimizer update). *)
Theorem evaluation_only_switches_the_mode `{Collaborators} self
    (data : list batch) s :
  final (_evaluate_on_data self data) s = with_ext model_eval s /\
  List.filter is_training (map snd (trace (_evaluate_on_data self data) s))
  = [].
Proof.
  destruct data as [|b rest].
  - split; reflexivity.
  - unfold final, trace.
    rewrite (_evaluate_on_data_eq self (b :: rest) s) by discriminate.
    split; [reflexivity|]. cbn [fst snd map List.filter is_training].
    induction (b :: rest) as [|x l IH]; [reflexivity|].
    cbn [flat_map]. rewrite map_app, List.filter_app, IH, app_nil_r.
    unfold batch_events. destruct (use_cuda self); reflexivity.
Qed.

Section MoreReporting.

Context `{Collaborators}.

(** The report has a ["roc_auc"] entry that is NaN or an infinity:
    [math.ceil] raises after the validation-log line. *)
Lemma report_stats_nonfinite self step train_loss min_loss s f :
  _validation_data self <> [] ->
  score_report self (ext s) !! "roc_auc" = Some (PyFloat f) ->
  (forall q, f <> Fin q) ->
  report_stats self step train_loss min_loss s =
  (Raise (if is_nan f then ValueError else OverflowError),
   after_validate self s,
   validate_events self (ext s)
     ++ [(None, TrainLog train_loss);
         (None, ValidationLog (PyFloat (validation_loss_in self (ext s)))
                              (Some (PyFloat f)))]).
Proof.
  intros Hne Hroc Hf.
  unfold report_stats, bind, lift, emit.
  rewrite validate_eq by exact Hne. cbv beta iota.
  rewrite getitem_loss. cbv beta iota.
  rewrite getitem_roc_auc. unfold getitem. rewrite Hroc. cbv beta iota.
  destruct f as [q| | |]; [exfalso; exact (Hf q eq_refl)| | |]; reflexivity.
Qed.

End MoreReporting.

(** X5: when the report holds a ["roc_auc"] value that is NaN or
    infinite, the reporting branch raises ([ValueError] for NaN,
    [OverflowError] for an infinity, from [math.ceil]) after the train-log
    and validation-log lines: the scheduler is not stepped, no best
    evaluation is made and no checkpoint is written. *)
Theorem nonfinite_roc_auc_raises `{Collaborators}
    self step train_loss min_loss s f :
  _validation_data self <> [] ->
  score_report self (ext s) !! "roc_auc" = Some (PyFloat f) ->
  (forall q, f <> Fin q) ->
  let t := map snd (trace (report_stats self step train_loss min_loss) s) in
  outcome (report_stats self step train_loss min_loss) s
  = Raise (if is_nan f then ValueError else OverflowError) /\
  List.filter is_validation_log t
  = [ValidationLog (PyFloat (validation_loss_in self (ext s)))
                   (Some (PyFloat f))] /\
  List.filter is_scheduler_step t = [] /\
  List.filter is_best_evaluated t = [] /\
  List.filter is_torch_save t = [].
Proof.
  intros Hne Hroc Hf t. subst t. unfold outcome, trace.
  rewrite (report_stats_nonfinite self step train_loss min_loss s f Hne Hroc
             Hf).
  cbn [fst snd]. rewrite !map_app, !List.filter_app.
  rewrite !filter_validate_events by (intros; reflexivity).
  repeat split.
Qed.

Lemma nonfinite_roc_auc_raises_witness :
  outcome (report_stats
             (@Build_TrainModel
                (scripted [Fin (3 # 10)] [report_with (PyFloat NaN)] [])
                4 10 5 5 false false [([1], [1])] [1] None 0 PInf ∅)
             5 (Fin 1) PInf)
          (@initial_state
             (scripted [Fin (3 # 10)] [report_with (PyFloat NaN)] []) O)
  = Raise ValueError.
Proof.
  apply (@nonfinite_roc_auc_raises
           (scripted [Fin (3 # 10)] [report_with (PyFloat NaN)] [])
           (@Build_TrainModel
              (scripted [Fin (3 # 10)] [report_with (PyFloat NaN)] [])
              4 10 5 5 false false [([1], [1])] [1] None 0 PInf ∅)
           5 (Fin 1) PInf
           (@initial_state
              (scripted [Fin (3 # 10)] [report_with (PyFloat NaN)] []) O)
           NaN).
  - discriminate.
  - vm_compute. reflexivity.
  - intros q. discriminate.
Defined.

(** X6: at a step where both cadences fire, the checkpoint of the
    reporting branch and the checkpoint of the checkpoint cadence are the
    same dict: same step, same [min_loss], same model and optimizer
    state.  The second write repeats the first. *)
Theorem aligned_cadences_write_one_checkpoint_twice `{Collaborators}
    self step min_loss s :
  nth_step_report_stats self <> 0 ->
  nth_step_save_checkpoint self <> 0 ->
  _validation_data self <> [] ->
  reports_roc_auc self ->
  reporting_step self step = true ->
  saving_step self step = true ->
  exists state,
    List.filter is_torch_save
      (map snd (trace (loop_body self step min_loss) s))
    = [TorchSave state; TorchSave state] /\
    ck_step state = step.
Proof.
  intros Hr Hc Hne Hrep Hreporting Hsaving.
  destruct (loop_body_events self step min_loss s Hr Hc)
    as (train_loss & _ & Hev). cbv zeta in Hev.
  rewrite Hreporting, Hsaving in Hev.
  set (s1 := final (train self) s) in *.
  assert (Htrain : List.filter is_torch_save (map snd (trace (train self) s))
                   = []).
  { apply filter_train_none; try reflexivity.
    intros [] He; try reflexivity; discriminate He. }
  destruct (Hrep (ext s1)) as (roc & Hroc & Hcase).
  assert (Hsplit : truthy roc = false \/
                   exists q p, roc = PyFloat (Fin q) /\
                               float_mul_1000 (Fin q) = Fin p /\
                               truthy roc = true).
  { destruct Hcase as [->|(q & p & -> & Hp)]; [left; reflexivity|].
    destruct (truthy (PyFloat (Fin q))) eqn:E; [right|left; reflexivity].
    exists q, p. split; [reflexivity|]. split; [exact Hp|reflexivity]. }
  destruct Hsplit as [Hfalse|(q & p & -> & Hp & Htrue)].
  - pose proof (report_stats_falsy self step train_loss min_loss s1 roc Hne
                  Hroc Hfalse) as E. cbv zeta in E.
    assert (Eo : outcome (report_stats self step train_loss min_loss) s1
                 = fst (fst (report_stats self step train_loss min_loss s1)))
      by reflexivity.
    assert (Et : trace (report_stats self step train_loss min_loss) s1
                 = snd (report_stats self step train_loss min_loss s1))
      by reflexivity.
    assert (Ef : final (report_stats self step train_loss min_loss) s1
                 = snd (fst (report_stats self step train_loss min_loss s1)))
      by reflexivity.
    rewrite E in Eo, Et, Ef. cbn [fst snd] in Eo, Et, Ef.
    rewrite Eo, Et, Ef in Hev. destruct Hev as [_ Ht].
    eexists. rewrite Ht, !List.filter_app, Htrain.
    rewrite !map_app, !List.filter_app.
    rewrite !filter_validate_events by (intros; reflexivity).
    unfold best_events.
    destruct (float_lt (validation_loss_in self (ext s1)) min_loss);
      split; reflexivity.
  - pose proof (report_stats_truthy self step train_loss min_loss s1 q _
                  Hne Hroc Htrue (quantize_finite q p Hp)) as E.
    cbv zeta in E.
    assert (Eo : outcome (report_stats self step train_loss min_loss) s1
                 = fst (fst (report_stats self step train_loss min_loss s1)))
      by reflexivity.
    assert (Et : trace (report_stats self step train_loss min_loss) s1
                 = snd (report_stats self step train_loss min_loss s1))
      by reflexivity.
    assert (Ef : final (report_stats self step train_loss min_loss) s1
                 = snd (fst (report_stats self step train_loss min_loss s1)))
      by reflexivity.
    rewrite E in Eo, Et, Ef. cbn [fst snd] in Eo, Et, Ef.
    rewrite Eo, Et, Ef in Hev. destruct Hev as [_ Ht].
    eexists. rewrite Ht, !List.filter_app, Htrain.
    rewrite !map_app, !List.filter_app.
    rewrite !filter_validate_events by (intros; reflexivity).
    unfold best_events.
    destruct (float_lt (validation_loss_in self (ext s1)) min_loss);
      split; reflexivity.
Qed.

Lemma aligned_cadences_write_one_checkpoint_twice_witness :
  exists state,
    List.filter is_torch_save
      (map snd (trace (loop_body (demo_self 0 10 5 5) 5 PInf) demo_state))
    = [TorchSave state; TorchSave state].
Proof.
  destruct (@aligned_cadences_write_one_checkpoint_twice demo
              (demo_self 0 10 5 5) 5 PInf demo_state)
    as (state & Hs & _).
  - discriminate.
  - discriminate.
  - discriminate.
  - intros w. unfold score_report. simpl.
    destruct w as [|[|[|[|[|w]]]]]; simpl; unfold report_with;
      eexists; (split; [apply lookup_insert_eq|]);
      first [left; reflexivity
            |right; eexists; eexists; split; [reflexivity|];
             lazy; reflexivity].
  - reflexivity.
  - reflexivity.
  - exists state. exact Hs.
Defined.

(** ** The shape of an iteration, whatever the cadences *)

Section IterationShape.

Context `{Collaborators}.

Lemma reporting_step_true self step :
  reporting_step self step = true ->
  step <> 0 /\ nth_step_report_stats self <> 0 /\
  step mod nth_step_report_stats self = 0.
Proof.
  unfold reporting_step. rewrite andb_true_iff, negb_true_iff.
  intros [Hs Hm]. apply Z.eqb_neq in Hs. apply Z.eqb_eq in Hm.
  repeat split; try assumption.
  intros Hr. rewrite Hr, Z.mod_0_r in Hm. contradiction.
Qed.

(** The condition of the reporting branch, for every cadence: it makes no
    call, and when it is evaluated without error its value is
    [reporting_step]. *)
Lemma reporting_condition_general self step s :
  let c :=
    (if step =? 0 then ret false
     else r <- lift (py_mod step (nth_step_report_stats self)) ;;
          ret (r =? 0)) in
  trace c s = [] /\ final c s = s /\
  match outcome c s with
  | Ok b => b = reporting_step self step
  | Raise e =>
      e = ZeroDivisionError /\ nth_step_report_stats self = 0 /\ step <> 0
  end.
Proof.
  cbv zeta. unfold reporting_step, py_mod.
  destruct (Z.eqb_spec step 0) as [->|Hs]; [repeat split|].
  destruct (Z.eqb_spec (nth_step_report_stats self) 0) as [Hr|Hr];
    repeat split; assumption.
Qed.

(** The checkpoint cadence part of an iteration, for every cadence: one
    plain checkpoint write when the cadence is not 0 and divides the step,
    nothing otherwise (a cadence of 0 raises). *)
Lemma saving_part_general self step (min_loss : pyfloat) s :
  let k :=
    (r <- lift (py_mod step (nth_step_save_checkpoint self)) ;;
     (if r =? 0 then
        state <- checkpoint_state step min_loss ;;
        _save_checkpoint state false
      else ret tt) ;;;
     ret min_loss) in
  trace k s
  = (if negb (nth_step_save_checkpoint self =? 0) && saving_step self step
     then [(None, Log (LogSaving step));
           (None, TorchSave (checkpoint_in step min_loss s))]
     else []) /\
  outcome k s
  = (if nth_step_save_checkpoint self =? 0 then Raise ZeroDivisionError
     else Ok min_loss).
Proof.
  cbv zeta. unfold saving_step, py_mod.
  destruct (nth_step_save_checkpoint self =? 0); [split; reflexivity|].
  unfold outcome, trace, bind, lift, ret, checkpoint_state, ask,
    _save_checkpoint, emit, torch_save, checkpoint_in.
  simpl. destruct (step mod nth_step_save_checkpoint self =? 0);
    split; reflexivity.
Qed.

(** An iteration, for every cadence and every score report: the training
    step; then, at a reporting step and only there, the reporting branch;
    then, unless something raised, the checkpoint cadence part. *)
Lemma loop_body_shape self step min_loss s :
  exists train_loss,
    outcome (train self) s = Ok train_loss /\
    let s1 := final (train self) s in
    let report := report_stats self step train_loss min_loss in
    if reporting_step self step then
      exists saved,
        trace (loop_body self step min_loss) s
        = trace (train self) s ++ trace report s1 ++ saved /\
        (saved = [] \/
         exists m',
           outcome report s1 = Ok m' /\
           nth_step_save_checkpoint self <> 0 /\
           saving_step self step = true /\
           saved = [(None, Log (LogSaving step));
                    (None, TorchSave (checkpoint_in step m'
                                        (final report s1)))])
    else
      trace (loop_body self step min_loss) s = trace (train self) s \/
      (nth_step_save_checkpoint self <> 0 /\
       saving_step self step = true /\
       trace (loop_body self step min_loss) s
       = trace (train self) s
           ++ [(None, Log (LogSaving step));
               (None, TorchSave (checkpoint_in step min_loss s1))]).
Proof.
  destruct (train_run self s) as (train_loss & s1 & E).
  exists train_loss.
  assert (Eo : outcome (train self) s = Ok train_loss)
    by (unfold outcome; rewrite E; reflexivity).
  assert (Ef : final (train self) s = s1)
    by (unfold final; rewrite E; reflexivity).
  split; [exact Eo|]. cbv zeta. rewrite Ef.
  unfold loop_body. rewrite trace_bind, Eo, Ef.
  rewrite trace_bind.
  destruct (reporting_condition_general self step s1) as (-> & -> & Hc).
  cbn [app].
  assert (Hsave : forall m s2,
             let k :=
               (r <- lift (py_mod step (nth_step_save_checkpoint self)) ;;
                (if r =? 0 then
                   state <- checkpoint_state step m ;;
                   _save_checkpoint state false
                 else ret tt) ;;;
                ret m) in
             trace k s2 = [] \/
             (nth_step_save_checkpoint self <> 0 /\
              saving_step self step = true /\
              trace k s2 = [(None, Log (LogSaving step));
                            (None, TorchSave (checkpoint_in step m s2))])).
  { intros m s2 k. subst k.
    destruct (saving_part_general self step m s2) as [-> _].
    destruct (Z.eqb_spec (nth_step_save_checkpoint self) 0);
      [left; reflexivity|].
    destruct (saving_step self step); [right|left]; repeat split.
    assumption. }
  destruct (outcome _ s1) as [b|e] in Hc |- *.
  - subst b. rewrite trace_bind.
    destruct (reporting_step self step).
    + destruct (outcome (report_stats self step train_loss min_loss) s1)
        as [m'|e] eqn:Hrep.
      * destruct (Hsave m'
                    (final (report_stats self step train_loss min_loss) s1))
          as [->|(Hc0 & Hs & ->)].
        -- exists []. split; [reflexivity|left; reflexivity].
        -- eexists. split; [reflexivity|]. right. exists m'.
           repeat split; assumption.
      * exists []. split; [reflexivity|left; reflexivity].
    + destruct (run_ret min_loss s1) as (-> & -> & ->). cbn [app].
      destruct (Hsave min_loss s1) as [->|(Hc0 & Hs & ->)].
      * left. rewrite app_nil_r. reflexivity.
      * right. repeat split; assumption.
  - destruct Hc as (_ & Hr & Hs).
    assert (Hnot : reporting_step self step = false).
    { unfold reporting_step. rewrite Hr, Z.mod_0_r.
      destruct (Z.eqb_spec step 0); [contradiction|reflexivity]. }
    rewrite Hnot. left. rewrite app_nil_r. reflexivity.
Qed.

(** A property of the events of every iteration, indexed by the step,
    holds of the events of the loop with the step they carry. *)
Lemma for_steps_forall self (Q : Z -> event -> Prop) steps :
  (forall i min_loss s,
      Forall (fun te : tagged => Q i (snd te))
             (trace (loop_body self i min_loss) s)) ->
  forall min_loss s,
    Forall (fun te : tagged =>
              match fst te with Some i => Q i (snd te) | None => True end)
           (trace (for_steps self steps min_loss) s).
Proof.
  intros Hbody.
  induction steps as [|i rest IH]; intros m s; [constructor|].
  rewrite for_steps_cons_trace. apply Forall_app. split.
  - rewrite trace_at_step. apply Forall_map.
    eapply Forall_impl; [apply Hbody|]. intros te Hte. exact Hte.
  - destruct (outcome (loop_body self i m) s); [apply IH|constructor].
Qed.

Lemma run_forall self (Q : Z -> event -> Prop) s :
  (forall i min_loss s',
      Forall (fun te : tagged => Q i (snd te))
             (trace (loop_body self i min_loss) s')) ->
  forall i e,
    In (Some i, e) (trace (train_and_validate self) s) -> Q i e.
Proof.
  intros Hbody i e Hin.
  rewrite train_and_validate_trace in Hin.
  apply in_app_or in Hin. destruct Hin as [Hin|Hin].
  { destruct Hin as [Hin|[Hin|[]]]; discriminate Hin. }
  apply in_app_or in Hin. destruct Hin as [Hin|Hin].
  - pose proof (for_steps_forall self Q
                  (py_range (_start_step self) (max_steps self)) Hbody
                  (_min_loss self) (loop_start self s)) as Hall.
    rewrite List.Forall_forall in Hall. exact (Hall _ Hin).
  - destruct (is_ok _); [|contradiction].
    destruct Hin as [Hin|[]]. discriminate Hin.
Qed.

Lemma train_trace_forall (P : event -> Prop) self s :
  P ModelTrain -> P (SetMode "train") -> P (Sample (batch_size self)) ->
  P (Log (LogBatchSampled (batch_size self))) -> P TensorsCuda ->
  P Forward -> (forall l, P (Criterion l)) -> P ZeroGrad -> P Backward ->
  P OptimizerStep -> (forall l, P (TrainReturn l)) ->
  Forall (fun te : tagged => P (snd te)) (trace (train self) s).
Proof.
  intros. destruct (train_run self s) as (loss & s' & E).
  unfold trace. rewrite E.
  destruct (use_cuda self); repeat constructor; simpl; auto.
Qed.

End IterationShape.

Section Labels.

Context `{Collaborators}.

Variable P : event -> Prop.

Lemma only_validate_events self :
  P ModelEval -> P TensorsCuda -> P Forward -> (forall l, P (Criterion l)) ->
  P MetricsUpdate -> (forall scores, P (Log (LogAverage scores))) ->
  only P (validate self).
Proof.
  intros H1 H2 H3 H4 H5 H6. unfold validate, _evaluate_on_data.
  apply only_bind.
  - apply only_bind; [apply only_call; assumption|]. intros _.
    apply only_bind; [apply only_evaluate_batches; assumption|]. intros acc.
    apply only_bind; [apply only_lift|]. intros ?. apply only_ret.
  - intros r. apply only_bind; [apply only_callr; assumption|]. intros sc.
    apply only_bind; [apply only_emit; apply H6|]. intros _. apply only_ret.
Qed.

Lemma only_save_checkpoint_state state is_best :
  P (Log (LogSaving (ck_step state))) -> P (TorchSave state) ->
  P (CopyBest state) ->
  only P (_save_checkpoint state is_best).
Proof.
  intros H1 H2 H3 s.
  unfold trace, _save_checkpoint, bind, emit, torch_save, copy_to_best, ret.
  destruct is_best; simpl; repeat constructor; assumption.
Qed.

Lemma only_report_stats_events self step train_loss min_loss :
  P ModelEval -> P TensorsCuda -> P Forward -> (forall l, P (Criterion l)) ->
  P MetricsUpdate -> (forall scores, P (Log (LogAverage scores))) ->
  (forall l, P (TrainLog l)) -> (forall l r, P (ValidationLog l r)) ->
  (forall v, P (SchedulerStep v)) -> (forall v m b, P (BestEvaluated v m b)) ->
  P (Log (LogSaving step)) ->
  (forall l v, P (Log (LogStats step l v))) ->
  (forall st, ck_step st = step -> P (TorchSave st)) ->
  (forall st, ck_step st = step -> P (CopyBest st)) ->
  only P (report_stats self step train_loss min_loss).
Proof.
  intros. unfold report_stats.
  apply only_bind; [apply only_validate_events; assumption|].
  intros valid_scores.
  apply only_bind; [apply only_lift|]. intros validation_loss.
  apply only_bind; [apply only_emit; auto|]. intros _.
  apply only_bind; [apply only_lift|]. intros cond.
  apply only_bind.
  { apply only_if.
    - apply only_bind; [apply only_lift|]. intros roc.
      apply only_bind; [apply only_emit; auto|]. intros _.
      apply only_bind; [apply only_lift|]. intros r.
      apply only_bind; [apply only_lift|]. intros v.
      apply only_call; auto.
    - apply only_emit; auto. }
  intros _. apply only_bind; [apply only_lift|]. intros vl.
  apply only_bind; [apply only_emit; auto|]. intros _.
  intros s. unfold checkpoint_state. rewrite trace_bind.
  apply Forall_app. split; [constructor|]. cbn [outcome ask fst].
  apply (only_apply P). apply only_bind.
  - apply only_save_checkpoint_state; auto.
  - intros _. apply only_bind; [apply only_emit; auto|]. intros _.
    apply only_ret.
Qed.

End Labels.

Section WhereThingsHappen.

Context `{Collaborators}.

Lemma loop_body_reporting_events self step min_loss s :
  Forall (fun te : tagged =>
            is_reporting_event (snd te) = true ->
            reporting_step self step = true)
         (trace (loop_body self step min_loss) s).
Proof.
  destruct (reporting_step self step) eqn:Hrep.
  { apply List.Forall_forall. intros te _ _. reflexivity. }
  destruct (loop_body_shape self step min_loss s) as (train_loss & _ & Hsh).
  cbv zeta in Hsh. rewrite Hrep in Hsh.
  assert (Htrain : Forall (fun te : tagged =>
                             is_reporting_event (snd te) = true ->
                             false = true) (trace (train self) s)).
  { apply (train_trace_forall
             (fun e => is_reporting_event e = true -> false = true));
      intros; assumption. }
  destruct Hsh as [->|(_ & _ & ->)]; [exact Htrain|].
  apply Forall_app. split; [exact Htrain|].
  constructor; [intros He; exact He|].
  constructor; [intros He; exact He|].
  constructor.
Qed.

Lemma loop_body_checkpoint_steps self step min_loss s :
  Forall (fun te : tagged =>
            is_torch_save (snd te) = true ->
            reporting_step self step = true \/
            (nth_step_save_checkpoint self <> 0 /\
             saving_step self step = true))
         (trace (loop_body self step min_loss) s).
Proof.
  destruct (reporting_step self step) eqn:Hrep.
  { apply List.Forall_forall. intros te _ _. left. reflexivity. }
  destruct (loop_body_shape self step min_loss s) as (train_loss & _ & Hsh).
  cbv zeta in Hsh. rewrite Hrep in Hsh.
  assert (Htrain : Forall (fun te : tagged =>
                             is_torch_save (snd te) = true ->
                             false = true \/
                             (nth_step_save_checkpoint self <> 0 /\
                              saving_step self step = true))
                          (trace (train self) s)).
  { apply (train_trace_forall
             (fun e => is_torch_save e = true -> _));
      intros; discriminate. }
  destruct Hsh as [->|(Hc & Hs & ->)]; [exact Htrain|].
  apply Forall_app. split; [exact Htrain|].
  constructor; [intros _; right; split; assumption|].
  constructor; [intros _; right; split; assumption|].
  constructor.
Qed.

Lemma loop_body_labelled self step min_loss s :
  Forall (fun te : tagged => labelled_for self step (snd te))
         (trace (loop_body self step min_loss) s).
Proof.
  destruct (loop_body_shape self step min_loss s) as (train_loss & _ & Hsh).
  cbv zeta in Hsh.
  assert (Htrain : Forall (fun te : tagged => labelled_for self step (snd te))
                          (trace (train self) s)).
  { apply (train_trace_forall (labelled_for self step));
      intros; reflexivity. }
  destruct (reporting_step self step).
  - destruct Hsh as (saved & -> & Hsaved).
    apply Forall_app. split; [exact Htrain|]. apply Forall_app. split.
    + apply (only_apply (labelled_for self step)).
      apply only_report_stats_events; intros; simpl; auto.
    + destruct Hsaved as [->|(m' & _ & _ & _ & ->)]; repeat constructor.
  - destruct Hsh as [->|(_ & _ & ->)]; [exact Htrain|].
    apply Forall_app. split; [exact Htrain|]. repeat constructor.
Qed.

End WhereThingsHappen.

(** X7: whatever the cadences, the score reports and the outcome of the
    run, every event of the reporting branch (validation pass, call of
    the scoring engine, train-log and validation-log line, scheduler
    step, best evaluation, copy to the best slot) happens at a step that
    is not 0 and is a multiple of a non-zero reporting cadence. *)
Theorem reporting_only_at_reporting_steps `{Collaborators} self s i e :
  In (Some i, e) (trace (train_and_validate self) s) ->
  is_reporting_event e = true ->
  i <> 0 /\ nth_step_report_stats self <> 0 /\
  i mod nth_step_report_stats self = 0.
Proof.
  intros Hin He. apply reporting_step_true.
  exact (run_forall self
           (fun i e => is_reporting_event e = true ->
                       reporting_step self i = true)
           s (loop_body_reporting_events self) i e Hin He).
Qed.

Lemma reporting_only_at_reporting_steps_witness :
  5 <> 0 /\ @nth_step_report_stats demo (demo_self 0 10 5 5) <> 0 /\
  5 mod @nth_step_report_stats demo (demo_self 0 10 5 5) = 0.
Proof.
  apply (@reporting_only_at_reporting_steps demo (demo_self 0 10 5 5)
           demo_state 5 ModelEval).
  - apply (List.nth_error_In _ 64). reflexivity.
  - reflexivity.
Defined.

(** X8: whatever the outcome of the run, a checkpoint is written only at
    a reporting step or at a step that a non-zero checkpoint cadence
    divides. *)
Theorem checkpoints_only_at_cadence_steps `{Collaborators} self s i state :
  In (Some i, TorchSave state) (trace (train_and_validate self) s) ->
  (i <> 0 /\ nth_step_report_stats self <> 0 /\
   i mod nth_step_report_stats self = 0) \/
  (nth_step_save_checkpoint self <> 0 /\
   i mod nth_step_save_checkpoint self = 0).
Proof.
  intros Hin.
  destruct (run_forall self
              (fun i e => is_torch_save e = true ->
                          reporting_step self i = true \/
                          (nth_step_save_checkpoint self <> 0 /\
                           saving_step self i = true))
              s (loop_body_checkpoint_steps self) i (TorchSave state) Hin
              eq_refl) as [Hrep|[Hc Hs]].
  - left. apply reporting_step_true. exact Hrep.
  - right. split; [exact Hc|]. apply Z.eqb_eq. exact Hs.
Qed.

Lemma checkpoints_only_at_cadence_steps_witness :
  (0 <> 0 /\ @nth_step_report_stats demo (demo_self 0 10 5 5) <> 0 /\
   0 mod @nth_step_report_stats demo (demo_self 0 10 5 5) = 0) \/
  (@nth_step_save_checkpoint demo (demo_self 0 10 5 5) <> 0 /\
   0 mod @nth_step_save_checkpoint demo (demo_self 0 10 5 5) = 0).
Proof.
  apply (@checkpoints_only_at_cadence_steps demo (demo_self 0 10 5 5)
           demo_state 0 (@Build_Checkpoint demo 0 "Net" tt PInf tt)).
  apply (List.nth_error_In _ 13). reflexivity.
Defined.

(** X9: every checkpoint written to the latest slot or copied to the
    best slot during loop step [i] records [i] as its ["step"]. *)
Theorem checkpoints_record_their_step `{Collaborators} self s i state :
  In (Some i, TorchSave state) (trace (train_and_validate self) s) \/
  In (Some i, CopyBest state) (trace (train_and_validate self) s) ->
  ck_step state = i.
Proof.
  intros [Hin|Hin];
    exact (run_forall self (labelled_for self) s (loop_body_labelled self)
             i _ Hin).
Qed.

Lemma checkpoints_record_their_step_witness :
  @ck_step demo (@Build_Checkpoint demo 0 "Net" tt PInf tt) = 0.
Proof.
  apply (@checkpoints_record_their_step demo (demo_self 0 10 5 5)
           demo_state 0 (@Build_Checkpoint demo 0 "Net" tt PInf tt)).
  left. apply (List.nth_error_In _ 13). reflexivity.
Defined.

(** ** More on the constructor *)

(** X10: every construction from a checkpoint stops with
    [AttributeError] on the attribute [max_step]: the last thing it has
    done is loading the model state of the checkpoint; the optimizer state
    is never loaded, no metrics logger is created, no log header written,
    and the checkpoint slots are left as they were. *)
Theorem resumed_construction_stops_at_max_step `{Collaborators}
    (a : Args.t) checkpoint s :
  Args.checkpoint_resume a = Some checkpoint ->
  outcome (__init__ a) s = Raise (AttributeError "max_step") /\
  List.last (map snd (trace (__init__ a) s)) OptimizerNew = LoadModelState /\
  List.filter follows_resume_block (map snd (trace (__init__ a) s)) = [] /\
  latest (final (__init__ a) s) = latest s /\
  best (final (__init__ a) s) = best s.
Proof.
  intros Hres. unfold __init__, outcome, trace, final. rewrite Hres.
  unfold _create_validation_set, _create_test_set, resume_from, bind, call,
    callr, emit, ask, ret, lift.
  destruct (Args.data_parallel a), (Args.use_cuda a); simpl;
    match goal with
    | |- context [existsb ?f ?l] => destruct (existsb f l)
    end; repeat split; reflexivity.
Qed.

Lemma resumed_construction_stops_at_max_step_witness :
  outcome (@__init__ demo
             (@args_of demo 4 10 5 (Some 5)
                       (Some (@Build_Checkpoint demo 3 "Net" tt PInf tt))))
          demo_state
  = Raise (AttributeError "max_step").
Proof.
  apply (@resumed_construction_stops_at_max_step demo
           (@args_of demo 4 10 5 (Some 5)
                     (Some (@Build_Checkpoint demo 3 "Net" tt PInf tt)))
           (@Build_Checkpoint demo 3 "Net" tt PInf tt) demo_state).
  reflexivity.
Defined.

(** X11: a construction without checkpoint holds the validation set that
    the sampler returned for the configured batch size and number of
    validation samples; it fetches a test set, with the same batch size,
    exactly when ["test"] is one of the sampler's modes, and otherwise it
    has no attribute [_test_data] and does nothing about a test set. *)
Theorem test_set_follows_sampler_modes `{Collaborators} (a : Args.t) s modes :
  Args.checkpoint_resume a = None ->
  (forall w, sampler_modes w = modes) ->
  exists self,
    outcome (__init__ a) s = Ok self /\
    (exists w,
        (_validation_data self, _all_validation_targets self)
        = fst (sampler_get_validation_set (Args.batch_size a)
                 (Args.n_validation_samples a) w)) /\
    (In "test" modes ->
     exists w,
       _test_data self
       = Some (fst (sampler_get_test_set (Args.batch_size a)
                      (Args.n_test_samples a) w))) /\
    (~ In "test" modes ->
     _test_data self = None /\
     List.filter is_test_set_event (map snd (trace (__init__ a) s)) = []).
Proof.
  intros Hres Hmodes.
  assert (Hex : forall l, existsb (String.eqb "test") l = true <-> In "test" l).
  { intros l. rewrite existsb_exists. split.
    - intros (x & Hx & Heq). apply String.eqb_eq in Heq. subst x. exact Hx.
    - intros Hin. exists "test". split; [exact Hin|apply String.eqb_refl]. }
  unfold __init__, outcome, trace. rewrite Hres.
  remember (String.eqb "test") as is_test eqn:Heq.
  unfold _create_validation_set, _create_test_set, bind, call, callr, emit,
    ask, ret.
  destruct (Args.data_parallel a), (Args.use_cuda a); simpl;
    rewrite Hmodes; destruct (existsb is_test modes) eqn:Ht;
    simpl;
    (eexists; split; [reflexivity|]; simpl; split;
     [eexists; symmetry; apply surjective_pairing|]; split;
     [intros Hin; try (apply Hex in Hin; congruence); eexists; reflexivity
     |intros Hnin; try (exfalso; apply Hnin, Hex; exact Ht);
      split; reflexivity]).
Qed.

Lemma test_set_follows_sampler_modes_witness :
  exists self,
    outcome (@__init__ demo (@args_of demo 4 10 5 (Some 5) None)) demo_state
    = Ok self /\
    @_test_data demo self = None.
Proof.
  destruct (@test_set_follows_sampler_modes demo
              (@args_of demo 4 10 5 (Some 5) None) demo_state
              ["train"; "validate"] eq_refl (fun _ => eq_refl))
    as (self & Hok & _ & _ & Hno).
  exists self. split; [exact Hok|]. apply Hno.
  intros [Hin|[Hin|[]]]; discriminate Hin.
Defined.

(** ** The test evaluation *)

Section ConstructionWithoutTestMode.

Context `{Collaborators}.

(** A construction without checkpoint over a sampler that has no mode
    ["test"] leaves the object without test set. *)
Lemma init_without_test_mode (a : Args.t) s :
  Args.checkpoint_resume a = None ->
  (forall w, ~ In "test" (sampler_modes w)) ->
  exists self, outcome (__init__ a) s = Ok self /\ _test_data self = None.
Proof.
  intros Hres Hmodes.
  assert (Hex : forall w, existsb (String.eqb "test") (sampler_modes w)
                          = false).
  { intros w. apply not_true_is_false. intros Ht. apply (Hmodes w).
    apply existsb_exists in Ht. destruct Ht as (x & Hx & Heq).
    apply String.eqb_eq in Heq. subst x. exact Hx. }
  unfold __init__, outcome. rewrite Hres.
  remember (String.eqb "test") as is_test eqn:Heq.
  unfold _create_validation_set, _create_test_set, bind, call, callr, emit,
    ask, ret.
  destruct (Args.data_parallel a), (Args.use_cuda a); simpl;
    rewrite Hex; simpl; eexists; split; reflexivity.
Qed.

End ConstructionWithoutTestMode.

Section TestEvaluation.

Context `{TestScoring}.

Lemma evaluate_nonempty self s data targets :
  _test_data self = Some (data, targets) ->
  data <> [] ->
  evaluate self s =
  let w := model_eval (ext s) in
  let table := table_of data (ext s) in
  let updated := test_metrics_update table targets w in
  let written := write_feature_scores_to_file (snd updated) in
  (Ok (<["loss" := PyFloat (average_loss_of data (ext s))]> (fst updated),
       fst written),
   {| ext := visualize table targets (snd written);
      latest := latest s; best := best s |},
   map inl (ModelEval
              :: map snd (flat_map (batch_events self (model_eval (ext s)))
                                   data))
     ++ [inr (TestMetricsUpdate table targets);
         inr (SaveTestPredictions table);
         inr (LogTestAverage (fst updated));
         inr WriteFeatureScores;
         inr (Visualize table targets)]).
Proof.
  intros Ht Hne. unfold evaluate. rewrite Ht.
  rewrite (_evaluate_on_data_eq self data s Hne). reflexivity.
Qed.

Lemma evaluate_empty self s targets :
  _test_data self = Some ([], targets) ->
  evaluate self s = (Raise ValueError, with_ext model_eval s, [inl ModelEval]).
Proof. intros Ht. unfold evaluate. rewrite Ht. reflexivity. Qed.

Lemma test_calls_app (t1 t2 : list (event + test_event)) :
  test_calls (t1 ++ t2) = test_calls t1 ++ test_calls t2.
Proof. unfold test_calls. apply flat_map_app. Qed.

Lemma model_calls_app (t1 t2 : list (event + test_event)) :
  model_calls (t1 ++ t2) = model_calls t1 ++ model_calls t2.
Proof. unfold model_calls. apply flat_map_app. Qed.

Lemma test_calls_inl (l : list event) : test_calls (map inl l) = [].
Proof. induction l as [|e l IH]; simpl; [reflexivity|exact IH]. Qed.

Lemma model_calls_inl (l : list event) : model_calls (map inl l) = l.
Proof.
  unfold model_calls.
  induction l as [|e l IH]; simpl; [reflexivity|]. rewrite IH. reflexivity.
Qed.

End TestEvaluation.

(** X12: an object constructed over a sampler that has no mode ["test"]
    cannot be evaluated on a test set: [evaluate] raises [AttributeError]
    on [_test_data] before it does anything. *)
Theorem evaluate_without_test_mode_raises `{TestScoring} (a : Args.t) s :
  Args.checkpoint_resume a = None ->
  (forall w, ~ In "test" (sampler_modes w)) ->
  exists self,
    outcome (__init__ a) s = Ok self /\
    forall s',
      evaluate self s' = (Raise (AttributeError "_test_data"), s', []).
Proof.
  intros Hres Hmodes.
  destruct (init_without_test_mode a s Hres Hmodes) as (self & Hok & Hnone).
  exists self. split; [exact Hok|].
  intros s'. unfold evaluate. rewrite Hnone. reflexivity.
Qed.

Lemma evaluate_without_test_mode_raises_witness :
  exists self,
    outcome (@__init__ demo (@args_of demo 4 10 5 (Some 5) None)) demo_state
    = Ok self /\
    @evaluate demo demo_test_scoring self demo_state
    = (Raise (AttributeError "_test_data"), demo_state, []).
Proof.
  destruct (@evaluate_without_test_mode_raises demo demo_test_scoring
              (@args_of demo 4 10 5 (Some 5) None) demo_state eq_refl)
    as (self & Hok & Hev).
  - intros w [Hin|[Hin|[]]]; discriminate Hin.
  - exists self. split; [exact Hok|apply Hev].
Defined.

(** X13: on an object with a non-empty test set, [evaluate] returns the
    report of the test scoring engine with the entry ["loss"] set to the
    average of the batch losses (the log lines show the report before that
    entry is set); the table of predictions that is scored against the
    test targets, the one saved to [test_predictions.npz] and the one
    visualised are the same: the predictions of the batches in their
    order.  The model is only switched to evaluation mode and called
    forward, and the checkpoint slots stay as they were. *)
Theorem evaluate_scores_the_test_set `{TestScoring} self s data targets :
  _test_data self = Some (data, targets) ->
  data <> [] ->
  let table := table_of data (ext s) in
  let report := fst (test_metrics_update table targets (model_eval (ext s))) in
  let r := evaluate self s in
  (exists feature_scores_dict,
      fst (fst r)
      = Ok (<["loss" := PyFloat (average_loss_of data (ext s))]> report,
            feature_scores_dict)) /\
  test_calls (snd r)
  = [TestMetricsUpdate table targets; SaveTestPredictions table;
     LogTestAverage report; WriteFeatureScores; Visualize table targets] /\
  model_calls (snd r)
  = ModelEval
      :: map snd (flat_map (batch_events self (model_eval (ext s))) data) /\
  latest (snd (fst r)) = latest s /\
  best (snd (fst r)) = best s.
Proof.
  intros Ht Hne table report r. subst r.
  rewrite (evaluate_nonempty self s data targets Ht Hne). cbv zeta.
  cbn [fst snd latest best].
  split; [eexists; reflexivity|].
  rewrite test_calls_app, model_calls_app, test_calls_inl, model_calls_inl.
  split; [reflexivity|]. split; [apply app_nil_r|]. split; reflexivity.
Qed.

Lemma evaluate_scores_the_test_set_witness :
  test_calls (snd (@evaluate demo demo_test_scoring demo_self_with_test
                     demo_state))
  = [@TestMetricsUpdate demo [7; 8; 9] [7; 8; 9];
     @SaveTestPredictions demo [7; 8; 9];
     @LogTestAverage demo (report_with (PyFloat (Fin (9 # 10))));
     @WriteFeatureScores demo; @Visualize demo [7; 8; 9] [7; 8; 9]].
Proof.
  apply (@evaluate_scores_the_test_set demo demo_test_scoring
           demo_self_with_test demo_state
           [([7; 8], [7; 8]); ([9], [9])] [7; 8; 9]).
  - reflexivity.
  - discriminate.
Defined.

(** X14: [evaluate] returns exactly when the object has a test set with
    at least one batch.  When it raises, the test scoring engine has not
    been called, no prediction or performance file has been written, and
    the checkpoint slots are as they were. *)
Theorem evaluate_returns_iff_test_set_nonempty `{TestScoring} self s :
  let r := evaluate self s in
  (is_ok (fst (fst r)) = true <->
   exists data targets, _test_data self = Some (data, targets) /\ data <> []) /\
  (is_ok (fst (fst r)) = false ->
   test_calls (snd r) = [] /\
   latest (snd (fst r)) = latest s /\ best (snd (fst r)) = best s).
Proof.
  cbv zeta.
  destruct (_test_data self) as [[data targets]|] eqn:Ht.
  - destruct data as [|b rest].
    + rewrite (evaluate_empty self s targets Ht). cbn [fst snd is_ok].
      split.
      * split; [discriminate|]. intros (d & t & Heq & Hne).
        injection Heq as <- _. contradiction.
      * intros _. repeat split.
    + assert (Hne : b :: rest <> []) by discriminate.
      rewrite (evaluate_nonempty self s _ targets Ht Hne). cbv zeta.
      cbn [fst snd is_ok]. split.
      * split; [|reflexivity]. intros _. exists (b :: rest), targets.
        split; [reflexivity|exact Hne].
      * discriminate.
  - unfold evaluate. rewrite Ht. cbn [fst snd is_ok]. split.
    + split; [discriminate|]. intros (d & t & Heq & _). discriminate Heq.
    + intros _. repeat split.
Qed.

(** ** Runs that stop *)

Section Stops.

Context `{Collaborators}.

(** The condition of the reporting branch, exactly: a reporting cadence
    of 0 raises at every step but 0. *)
Lemma reporting_condition_exact self step s :
  let c :=
    (if step =? 0 then ret false
     else r <- lift (py_mod step (nth_step_report_stats self)) ;;
          ret (r =? 0)) in
  outcome c s
  = (if negb (step =? 0) && (nth_step_report_stats self =? 0)
     then Raise ZeroDivisionError
     else Ok (reporting_step self step)) /\
  final c s = s /\ trace c s = [].
Proof.
  cbv zeta. unfold reporting_step, py_mod.
  destruct (step =? 0); [repeat split|].
  destruct (nth_step_report_stats self =? 0); repeat split.
Qed.

(** One iteration, exactly, for every cadence. *)
Lemma loop_body_exact self step min_loss s :
  exists train_loss,
    outcome (train self) s = Ok train_loss /\
    let s1 := final (train self) s in
    let report := report_stats self step train_loss min_loss in
    let body := loop_body self step min_loss in
    if negb (step =? 0) && (nth_step_report_stats self =? 0) then
      outcome body s = Raise ZeroDivisionError /\
      trace body s = trace (train self) s
    else if reporting_step self step then
      match outcome report s1 with
      | Ok m' =>
          outcome body s
          = (if nth_step_save_checkpoint self =? 0
             then Raise ZeroDivisionError else Ok m') /\
          trace body s
          = trace (train self) s ++ trace report s1
              ++ (if negb (nth_step_save_checkpoint self =? 0)
                     && saving_step self step
                  then [(None, Log (LogSaving step));
                        (None, TorchSave (checkpoint_in step m'
                                            (final report s1)))]
                  else [])
      | Raise e =>
          outcome body s = Raise e /\
          trace body s = trace (train self) s ++ trace report s1
      end
    else
      outcome body s
      = (if nth_step_save_checkpoint self =? 0
         then Raise ZeroDivisionError else Ok min_loss) /\
      trace body s
      = trace (train self) s
          ++ (if negb (nth_step_save_checkpoint self =? 0)
                 && saving_step self step
              then [(None, Log (LogSaving step));
                    (None, TorchSave (checkpoint_in step min_loss s1))]
              else []).
Proof.
  destruct (train_run self s) as (train_loss & s1 & E).
  exists train_loss.
  assert (Eo : outcome (train self) s = Ok train_loss)
    by (unfold outcome; rewrite E; reflexivity).
  assert (Ef : final (train self) s = s1)
    by (unfold final; rewrite E; reflexivity).
  split; [exact Eo|]. cbv zeta. rewrite Ef.
  unfold loop_body. rewrite trace_bind, outcome_bind, Eo, Ef.
  rewrite trace_bind, outcome_bind.
  destruct (reporting_condition_exact self step s1) as (-> & -> & ->).
  cbn [app].
  destruct (negb (step =? 0) && (nth_step_report_stats self =? 0)).
  { split; [reflexivity|apply app_nil_r]. }
  rewrite trace_bind, outcome_bind.
  destruct (reporting_step self step).
  - destruct (outcome (report_stats self step train_loss min_loss) s1)
      as [m'|e].
    + destruct (saving_part_general self step m'
                  (final (report_stats self step train_loss min_loss) s1))
        as [Ht Ho].
      rewrite Ho, Ht. split; reflexivity.
    + rewrite app_nil_r. split; reflexivity.
  - destruct (run_ret min_loss s1) as (-> & -> & ->).
    destruct (saving_part_general self step min_loss s1) as [Ht Ho].
    rewrite Ho. cbn [app]. rewrite Ht. split; reflexivity.
Qed.

(** The loop stops at the first iteration that raises. *)
Lemma for_steps_stops self pre i post e :
  (forall j, In j pre -> forall m s,
      is_ok (outcome (loop_body self j m) s) = true) ->
  (forall m s, outcome (loop_body self i m) s = Raise e) ->
  forall m s,
    outcome (for_steps self (pre ++ i :: post) m) s = Raise e /\
    is_ok (outcome (for_steps self pre m) s) = true /\
    exists mi si,
      trace (for_steps self (pre ++ i :: post) m) s
      = trace (for_steps self pre m) s
          ++ trace (at_step i (loop_body self i mi)) si.
Proof.
  intros Hpre Hi. induction pre as [|j pre IH]; intros m s.
  - cbn [app]. rewrite for_steps_cons_outcome, for_steps_cons_trace, Hi.
    split; [reflexivity|]. split; [reflexivity|].
    exists m, s. rewrite app_nil_r. reflexivity.
  - cbn [app].
    rewrite !for_steps_cons_outcome, !for_steps_cons_trace.
    pose proof (Hpre j (or_introl eq_refl) m s) as Hj.
    destruct (outcome (loop_body self j m) s) as [m'|e']; [|discriminate].
    destruct (IH (fun k Hk => Hpre k (or_intror Hk)) m'
                 (final (loop_body self j m) s))
      as (Ho & Hok & mi & si & Ht).
    split; [exact Ho|]. split; [exact Hok|].
    exists mi, si. rewrite Ht, app_assoc. reflexivity.
Qed.

(** The outcome of the run is the outcome of its loop. *)
Lemma train_and_validate_raises self s e :
  outcome (for_steps self (py_range (_start_step self) (max_steps self))
             (_min_loss self)) (loop_start self s) = Raise e ->
  outcome (train_and_validate self) s = Raise e /\
  trace (train_and_validate self) s
  = [(None, Log (LogTrainStart (max_steps self) (batch_size self)));
     (None, SchedulerNew "max" 16 (8 # 10))]
      ++ trace (for_steps self (py_range (_start_step self) (max_steps self))
                  (_min_loss self)) (loop_start self s).
Proof.
  intros Hloop. split.
  - unfold outcome in *.
    unfold train_and_validate, bind, emit, call, loop_start in *.
    cbn [fst snd] in *.
    destruct (for_steps self _ _ _) as [[[m|e'] s'] t]; cbn [fst snd] in *;
      congruence.
  - rewrite train_and_validate_trace, Hloop. cbn [is_ok].
    rewrite app_nil_r. reflexivity.
Qed.

Lemma for_steps_filter_nil self (p : event -> bool) steps :
  (forall i, In i steps -> forall m s,
      List.filter p (map snd (trace (loop_body self i m) s)) = []) ->
  forall m s,
    List.filter p (map snd (trace (for_steps self steps m) s)) = [].
Proof.
  induction steps as [|i rest IH]; intros Hbody m s; [reflexivity|].
  rewrite for_steps_cons_trace, map_app, List.filter_app.
  rewrite map_snd_at_step, (Hbody i (or_introl eq_refl)). cbn [app].
  destruct (outcome (loop_body self i m) s); [|reflexivity].
  apply IH. intros j Hj. apply Hbody. right. exact Hj.
Qed.

Lemma py_range_split a b c :
  a <= b <= c -> py_range a c = py_range a b ++ py_range b c.
Proof.
  intros Habc. remember (Z.to_nat (b - a)) as n eqn:Hn.
  revert a Habc Hn. induction n as [|n IH]; intros a Habc Hn.
  - assert (a = b) by lia. subst a.
    rewrite (py_range_empty b b) by lia. reflexivity.
  - rewrite (py_range_cons a c) by lia. rewrite (py_range_cons a b) by lia.
    cbn [app]. f_equal. apply IH; lia.
Qed.

(** The counts of one iteration that does not report. *)
Lemma filter_plain_iteration (p : event -> bool) self step m s1 :
  (forall e, is_training e = true -> p e = false) ->
  p (Log (LogBatchSampled (batch_size self))) = false ->
  p TensorsCuda = false -> p Forward = false ->
  (forall l, p (Criterion l) = false) ->
  p (Log (LogSaving step)) = false ->
  forall (b : bool) s,
    List.filter p
      (map snd
         (trace (train self) s
            ++ (if b
                then [(None, Log (LogSaving step));
                      (None, TorchSave (checkpoint_in step m s1))]
                else [])))
    = if b && p (TorchSave (checkpoint_in step m s1))
      then [TorchSave (checkpoint_in step m s1)] else [].
Proof.
  intros Hp H1 H2 H3 H4 H5 b s.
  rewrite map_app, List.filter_app, filter_train_none by assumption.
  destruct b; [|reflexivity]. cbn [app map snd List.filter andb].
  rewrite H5. reflexivity.
Qed.

(** The reporting branch over an empty validation set: [np.vstack] of no
    array raises after the model has been switched to evaluation mode. *)
Lemma report_stats_empty self step train_loss min_loss s :
  _validation_data self = [] ->
  outcome (report_stats self step train_loss min_loss) s = Raise ValueError /\
  trace (report_stats self step train_loss min_loss) s = [(None, ModelEval)].
Proof.
  intros E.
  assert (Ev : validate self s
               = (Raise ValueError, with_ext model_eval s,
                  [(None, ModelEval)])).
  { unfold validate. rewrite E. reflexivity. }
  unfold report_stats, outcome, trace, bind. rewrite Ev. split; reflexivity.
Qed.

(** A run from step 0 whose reporting cadence is 0 and whose checkpoint
    cadence is not. *)
Lemma run_with_zero_reporting_cadence self s :
  nth_step_report_stats self = 0 ->
  nth_step_save_checkpoint self <> 0 ->
  _start_step self = 0 ->
  2 <= max_steps self ->
  outcome (train_and_validate self) s = Raise ZeroDivisionError /\
  exists m0 s0 s1,
    trace (train_and_validate self) s
    = [(None, Log (LogTrainStart (max_steps self) (batch_size self)));
       (None, SchedulerNew "max" 16 (8 # 10))]
        ++ map (fun te : tagged => (Some 0, snd te))
             (trace (train self) s0
                ++ [(None, Log (LogSaving 0));
                    (None, TorchSave (checkpoint_in 0 m0
                                        (final (train self) s0)))])
        ++ map (fun te : tagged => (Some 1, snd te)) (trace (train self) s1).
Proof.
  intros Hr Hc Hs Hm.
  assert (Hc' : (nth_step_save_checkpoint self =? 0) = false)
    by (apply Z.eqb_neq; exact Hc).
  assert (H0 : forall m s',
             outcome (loop_body self 0 m) s' = Ok m /\
             trace (loop_body self 0 m) s'
             = trace (train self) s'
                 ++ [(None, Log (LogSaving 0));
                     (None, TorchSave (checkpoint_in 0 m
                                         (final (train self) s')))]).
  { intros m s'.
    destruct (loop_body_exact self 0 m s') as (tl & _ & Hex).
    cbv zeta in Hex. unfold reporting_step, saving_step in Hex.
    rewrite Hc' in Hex. cbn [Z.eqb negb andb] in Hex.
    rewrite Zmod_0_l in Hex. exact Hex. }
  assert (H1 : forall m s',
             outcome (loop_body self 1 m) s' = Raise ZeroDivisionError /\
             trace (loop_body self 1 m) s' = trace (train self) s').
  { intros m s'.
    destruct (loop_body_exact self 1 m s') as (tl & _ & Hex).
    cbv zeta in Hex. rewrite Hr in Hex. exact Hex. }
  assert (Hrange : py_range (_start_step self) (max_steps self)
                   = [0] ++ 1 :: py_range 2 (max_steps self)).
  { rewrite Hs. rewrite py_range_cons by lia.
    rewrite (py_range_cons (0 + 1)) by lia. reflexivity. }
  destruct (for_steps_stops self [0] 1 (py_range 2 (max_steps self))
              ZeroDivisionError) with (m := _min_loss self)
                                      (s := loop_start self s)
    as (Ho & _ & mi & si & Ht).
  { intros j [<-|[]] m s'. rewrite (proj1 (H0 m s')). reflexivity. }
  { intros m s'. exact (proj1 (H1 m s')). }
  rewrite <- Hrange in Ho, Ht.
  destruct (train_and_validate_raises self s _ Ho) as [Hout Htr].
  split; [exact Hout|].
  exists (_min_loss self), (loop_start self s), si.
  rewrite Htr, Ht. f_equal.
  rewrite for_steps_cons_trace, !trace_at_step.
  rewrite (proj1 (H0 _ _)), (proj2 (H0 _ _)), (proj2 (H1 _ _)).
  cbn [for_steps]. unfold trace at 3. cbn [ret snd]. rewrite app_nil_r.
  reflexivity.
Qed.

(** A run from step 0 whose checkpoint cadence is 0. *)
Lemma run_with_zero_checkpoint_cadence self s :
  nth_step_save_checkpoint self = 0 ->
  _start_step self = 0 ->
  1 <= max_steps self ->
  outcome (train_and_validate self) s = Raise ZeroDivisionError /\
  trace (train_and_validate self) s
  = [(None, Log (LogTrainStart (max_steps self) (batch_size self)));
     (None, SchedulerNew "max" 16 (8 # 10))]
      ++ map (fun te : tagged => (Some 0, snd te))
           (trace (train self) (loop_start self s)).
Proof.
  intros Hc Hs Hm.
  assert (H0 : forall m s',
             outcome (loop_body self 0 m) s' = Raise ZeroDivisionError /\
             trace (loop_body self 0 m) s' = trace (train self) s').
  { intros m s'.
    destruct (loop_body_exact self 0 m s') as (tl & _ & Hex).
    cbv zeta in Hex. unfold reporting_step in Hex. rewrite Hc in Hex.
    cbn [Z.eqb negb andb] in Hex. rewrite app_nil_r in Hex. exact Hex. }
  assert (Hrange : py_range (_start_step self) (max_steps self)
                   = 0 :: py_range (0 + 1) (max_steps self)).
  { rewrite Hs. apply py_range_cons. lia. }
  assert (Ho : outcome (for_steps self
                          (py_range (_start_step self) (max_steps self))
                          (_min_loss self)) (loop_start self s)
               = Raise ZeroDivisionError).
  { rewrite Hrange, for_steps_cons_outcome, (proj1 (H0 _ _)). reflexivity. }
  destruct (train_and_validate_raises self s _ Ho) as [Hout Htr].
  split; [exact Hout|]. rewrite Htr. f_equal.
  rewrite Hrange, for_steps_cons_trace, trace_at_step.
  rewrite (proj1 (H0 _ _)), (proj2 (H0 _ _)). apply app_nil_r.
Qed.

(** A run from step 0 over an empty validation set, with a reporting step
    in its range. *)
Lemma run_over_empty_validation_set self s :
  _validation_data self = [] ->
  _start_step self = 0 ->
  0 < nth_step_report_stats self < max_steps self ->
  nth_step_save_checkpoint self <> 0 ->
  let r := nth_step_report_stats self in
  let pre := for_steps self (py_range 0 r) (_min_loss self) in
  outcome (train_and_validate self) s = Raise ValueError /\
  is_ok (outcome pre (loop_start self s)) = true /\
  List.filter is_reporting_event (map snd (trace pre (loop_start self s)))
  = [] /\
  exists si,
    trace (train_and_validate self) s
    = [(None, Log (LogTrainStart (max_steps self) (batch_size self)));
       (None, SchedulerNew "max" 16 (8 # 10))]
        ++ trace pre (loop_start self s)
        ++ map (fun te : tagged => (Some r, snd te))
             (trace (train self) si ++ [(None, ModelEval)]).
Proof.
  intros Hv Hs Hr Hc r pre. subst r pre.
  set (r := nth_step_report_stats self) in *.
  assert (Hr' : (r =? 0) = false) by (apply Z.eqb_neq; lia).
  assert (Hc' : (nth_step_save_checkpoint self =? 0) = false)
    by (apply Z.eqb_neq; exact Hc).
  assert (Hpre : forall j, In j (py_range 0 r) -> forall m s',
             outcome (loop_body self j m) s' = Ok m /\
             trace (loop_body self j m) s'
             = trace (train self) s'
                 ++ (if saving_step self j
                     then [(None, Log (LogSaving j));
                           (None, TorchSave (checkpoint_in j m
                                               (final (train self) s')))]
                     else [])).
  { intros j Hj m s'. apply in_py_range in Hj.
    destruct (loop_body_exact self j m s') as (tl & _ & Hex).
    cbv zeta in Hex. fold r in Hex. rewrite Hr', Hc', andb_false_r in Hex.
    assert (Hnot : reporting_step self j = false).
    { unfold reporting_step. fold r.
      destruct (Z.eqb_spec j 0) as [->|Hj0]; [reflexivity|].
      rewrite Z.mod_small by lia.
      cbn [negb andb]. apply Z.eqb_neq. exact Hj0. }
    rewrite Hnot in Hex. exact Hex. }
  assert (Hstop : forall m s',
             outcome (loop_body self r m) s' = Raise ValueError /\
             trace (loop_body self r m) s'
             = trace (train self) s' ++ [(None, ModelEval)]).
  { intros m s'.
    destruct (loop_body_exact self r m s') as (tl & _ & Hex).
    cbv zeta in Hex. fold r in Hex. rewrite Hr', andb_false_r in Hex.
    assert (Hrep : reporting_step self r = true).
    { unfold reporting_step. fold r. rewrite Z_mod_same_full, Hr'.
      reflexivity. }
    rewrite Hrep in Hex.
    destruct (report_stats_empty self r tl m (final (train self) s') Hv)
      as [Eo Et].
    rewrite Eo, Et in Hex. exact Hex. }
  assert (Hrange : py_range (_start_step self) (max_steps self)
                   = py_range 0 r ++ r :: py_range (r + 1) (max_steps self)).
  { rewrite Hs, (py_range_split 0 r (max_steps self)) by lia.
    rewrite (py_range_cons r) by lia. reflexivity. }
  destruct (for_steps_stops self (py_range 0 r) r
              (py_range (r + 1) (max_steps self)) ValueError)
    with (m := _min_loss self) (s := loop_start self s)
    as (Ho & Hok & mi & si & Ht).
  { intros j Hj m s'. rewrite (proj1 (Hpre j Hj m s')). reflexivity. }
  { intros m s'. exact (proj1 (Hstop m s')). }
  rewrite <- Hrange in Ho, Ht.
  destruct (train_and_validate_raises self s _ Ho) as [Hout Htr].
  split; [exact Hout|]. split; [exact Hok|]. split.
  - apply for_steps_filter_nil. intros j Hj m s'.
    rewrite (proj2 (Hpre j Hj m s')).
    rewrite filter_plain_iteration;
      try reflexivity; try (intros [] He; try reflexivity; discriminate He).
    cbn [is_reporting_event]. rewrite andb_false_r. reflexivity.
  - exists si. rewrite Htr, Ht, trace_at_step, (proj2 (Hstop _ _)).
    reflexivity.
Qed.

End Stops.

(** X15: a reporting cadence of 0 (which the constructor accepts) stops
    the run at step 1.  From step 0, with a non-zero checkpoint cadence
    and at least two steps to drive, the run raises [ZeroDivisionError]
    after the training steps of the steps 0 and 1; the only checkpoint is
    the one of step 0, and the sampler is never finalised. *)
Theorem zero_reporting_cadence_stops_at_step_one `{Collaborators} self s :
  nth_step_report_stats self = 0 ->
  nth_step_save_checkpoint self <> 0 ->
  _start_step self = 0 ->
  2 <= max_steps self ->
  outcome (train_and_validate self) s = Raise ZeroDivisionError /\
  steps_driven (trace (train_and_validate self) s) = [0; 1] /\
  steps_of is_torch_save (trace (train_and_validate self) s) = [0] /\
  List.filter is_save_dataset (map snd (trace (train_and_validate self) s))
  = [].
Proof.
  intros Hr Hc Hs Hm.
  destruct (run_with_zero_reporting_cadence self s Hr Hc Hs Hm)
    as (Ho & m0 & s0 & s1 & Ht).
  split; [exact Ho|]. rewrite Ht. clear Ht.
  destruct (train_run self s0) as (l0 & s0' & E0).
  destruct (train_run self s1) as (l1 & s1' & E1).
  unfold trace, final. rewrite E0, E1. cbn [fst snd].
  unfold steps_driven, steps_of.
  destruct (use_cuda self); repeat split; reflexivity.
Qed.

Lemma zero_reporting_cadence_stops_at_step_one_witness :
  outcome (train_and_validate (demo_self 0 10 0 5)) demo_state
  = Raise ZeroDivisionError /\
  steps_driven (trace (train_and_validate (demo_self 0 10 0 5)) demo_state)
  = [0; 1].
Proof.
  destruct (@zero_reporting_cadence_stops_at_step_one demo
              (demo_self 0 10 0 5) demo_state)
    as (Ho & Hd & _); [reflexivity|discriminate|reflexivity|simpl; lia|].
  split; [exact Ho|exact Hd].
Defined.

(** X16: when the reporting cadence is 0 and the checkpoint cadence is
    [None] or 0, the constructor sets the checkpoint cadence to 0 as well,
    and a run of at least one step then raises [ZeroDivisionError] in its
    first iteration: after one training step, the only optimizer update of
    the run, and without having written a checkpoint. *)
Theorem zero_cadences_stop_the_first_iteration `{Collaborators}
    (a : Args.t) s :
  Args.checkpoint_resume a = None ->
  Args.report_stats_every_n_steps a = 0 ->
  py_not (Args.save_checkpoint_every_n_steps a) = true ->
  1 <= Args.max_steps a ->
  exists self,
    outcome (__init__ a) s = Ok self /\
    nth_step_save_checkpoint self = 0 /\
    forall s',
      let t := trace (train_and_validate self) s' in
      outcome (train_and_validate self) s' = Raise ZeroDivisionError /\
      steps_driven t = [0] /\
      count_events is_optimizer_step (map snd t) = 1%nat /\
      List.filter is_torch_save (map snd t) = [].
Proof.
  intros Hres Hrep Hsave Hmax.
  destruct (init_fresh a s Hres) as (self & Hok & _ & Hm & _ & Hcad & Hs & _).
  assert (Hc : nth_step_save_checkpoint self = 0).
  { rewrite Hcad. unfold effective_save_cadence.
    destruct (Args.save_checkpoint_every_n_steps a) as [c|]; [|exact Hrep].
    simpl in Hsave. rewrite Hsave. exact Hrep. }
  exists self. split; [exact Hok|]. split; [exact Hc|].
  intros s'. cbv zeta.
  destruct (run_with_zero_checkpoint_cadence self s' Hc Hs) as [Ho Ht];
    [rewrite Hm; exact Hmax|].
  split; [exact Ho|]. rewrite Ht.
  destruct (train_run self (loop_start self s')) as (l0 & s0 & E0).
  unfold trace. rewrite E0. cbn [snd].
  unfold steps_driven, steps_of, count_events.
  destruct (use_cuda self); repeat split; reflexivity.
Qed.

Lemma zero_cadences_stop_the_first_iteration_witness :
  exists self,
    outcome (@__init__ demo (@args_of demo 4 10 0 None None)) demo_state
    = Ok self /\
    outcome (train_and_validate self) demo_state = Raise ZeroDivisionError.
Proof.
  destruct (@zero_cadences_stop_the_first_iteration demo
              (@args_of demo 4 10 0 None None) demo_state)
    as (self & Hok & _ & Hrun);
    [reflexivity|reflexivity|reflexivity|simpl; lia|].
  exists self. split; [exact Hok|]. apply Hrun.
Defined.

(** X17: an empty validation set (which the constructor accepts) stops
    the run at its first reporting step.  From step 0, with non-zero
    cadences and the reporting cadence [r] below the step bound, the run
    raises [ValueError] at step [r]: the steps 0 to [r] have been trained,
    and all the reporting branch has done in the whole run is to switch
    the model to evaluation mode, once; the scoring engine is never
    called and no loss is logged. *)
Theorem empty_validation_set_stops_the_first_report `{Collaborators} self s :
  _validation_data self = [] ->
  _start_step self = 0 ->
  0 < nth_step_report_stats self < max_steps self ->
  nth_step_save_checkpoint self <> 0 ->
  let t := trace (train_and_validate self) s in
  outcome (train_and_validate self) s = Raise ValueError /\
  steps_driven t = py_range 0 (nth_step_report_stats self + 1) /\
  List.filter is_reporting_event (map snd t) = [ModelEval].
Proof.
  intros Hv Hs Hr Hc. cbv zeta.
  destruct (run_over_empty_validation_set self s Hv Hs Hr Hc)
    as (Ho & Hok & Hnil & si & Ht).
  split; [exact Ho|]. rewrite Ht. clear Ht. split.
  - unfold steps_driven. rewrite !steps_of_app.
    rewrite (for_steps_steps_of self is_train_call (fun _ => 1%nat));
      [| |exact Hok].
    + rewrite flat_map_repeat_once.
      rewrite (py_range_split 0 (nth_step_report_stats self)
                 (nth_step_report_stats self + 1)) by lia.
      rewrite (py_range_cons (nth_step_report_stats self)) by lia.
      rewrite (py_range_empty (nth_step_report_stats self + 1)) by lia.
      cbn [steps_of flat_map fst snd app is_train_call]. f_equal.
      destruct (train_run self si) as (l0 & s0 & E0).
      unfold trace. rewrite E0. cbn [snd].
      destruct (use_cuda self); reflexivity.
    + intros i _ m s' _. apply loop_body_train_calls.
  - rewrite !map_app, !List.filter_app, Hnil.
    cbn [app map snd List.filter is_reporting_event].
    rewrite map_map. cbn [snd]. rewrite filter_train_none;
      try reflexivity; intros [] He; try reflexivity; discriminate He.
Qed.

Lemma empty_validation_set_stops_the_first_report_witness :
  outcome (train_and_validate (demo_self_no_validation 10 5 5)) demo_state
  = Raise ValueError /\
  steps_driven (trace (train_and_validate (demo_self_no_validation 10 5 5))
                  demo_state)
  = py_range 0 (5 + 1).
Proof.
  destruct (@empty_validation_set_stops_the_first_report demo
              (demo_self_no_validation 10 5 5) demo_state)
    as (Ho & Hd & _);
    [reflexivity|reflexivity|simpl; lia|discriminate|].
  split; [exact Ho|exact Hd].
Defined.

(** ** The training step inside the run *)

Section TrainingInRun.

Context `{Collaborators}.




End TrainingInRun.

(** X18: inside the loop the sampler is only ever put in mode ["train"]
    and only ever asked for [batch_size] examples, whatever the cadences
    and the outcome of the run: the validation passes sample nothing. *)
Theorem run_samples_training_batches_only `{Collaborators} self s i :
  let t := trace (train_and_validate self) s in
  (forall mode, In (Some i, SetMode mode) t -> mode = "train") /\
  (forall n, In (Some i, Sample n) t -> n = batch_size self).
Proof.
  cbv zeta. split; intros x Hin;
    exact (run_forall self (labelled_for self) s (loop_body_labelled self)
             i _ Hin).
Qed.


